(** * Reconciliation pipeline: cleaning, SQL reconciliation, export

    A shallow embedding of
      - [src/data_cleaning/clean_data.py]               (module [Clean]),
      - [src/data_reconciliation/reconcile_data_sql.py] (modules [Sql],
        [Reconcile], [Assemble] and [Sink]),
    together with the properties of the specification that concern them. *)

From stdpp Require Import gmap strings list.
From Stdlib Require Import ZArith QArith Qcanon Ascii String DecimalString Lia.

Local Open Scope string_scope.
Local Open Scope list_scope.
Local Open Scope nat_scope.

(* ===================================================================== *)
(** * SQL values and three-valued logic

    [sqldf] runs each query in SQLite.  A cell of a table is either NULL or
    a value; a missing cell of a DataFrame (NaN) is stored as NULL.  A
    comparison with NULL is NULL (unknown), and ON / WHERE keep a row only
    when their condition is true. *)
(* ===================================================================== *)

Module Sql.

(** The truth values of SQL: [Some true], [Some false], and [None] for
    NULL (unknown). *)
Definition tv := option bool.

Definition sql_eq {A} `{EqDecision A} (x y : option A) : tv :=
  match x, y with
  | Some a, Some b => Some (bool_decide (a = b))
  | _, _ => None
  end.

(** [x <> y] *)
Definition sql_ne {A} `{EqDecision A} (x y : option A) : tv :=
  match x, y with
  | Some a, Some b => Some (negb (bool_decide (a = b)))
  | _, _ => None
  end.

Definition sql_and (p q : tv) : tv :=
  match p, q with
  | Some false, _ | _, Some false => Some false
  | Some true, Some true => Some true
  | _, _ => None
  end.

Definition sql_or (p q : tv) : tv :=
  match p, q with
  | Some true, _ | _, Some true => Some true
  | Some false, Some false => Some false
  | _, _ => None
  end.

(** A row passes ON or WHERE only when the condition is true. *)
Definition holds (p : tv) : bool :=
  match p with Some true => true | _ => false end.

(** [x IS NULL] *)
Definition is_null {A} (x : option A) : bool :=
  match x with None => true | Some _ => false end.

(** [l INNER JOIN r ON on]: the pairs that satisfy the condition, as a
    nested loop with the left table outside. *)
Definition inner_join {A B} (on : A -> B -> bool)
    (l : list A) (r : list B) : list (A * B) :=
  flat_map (fun a => map (pair a) (List.filter (on a) r)) l.

(** [l LEFT JOIN r ON on]: as the inner join, and a left row without a
    partner is kept once, with every column of the right side NULL
    ([None] here). *)
Definition left_join {A B} (on : A -> B -> bool)
    (l : list A) (r : list B) : list (A * option B) :=
  flat_map (fun a =>
              match List.filter (on a) r with
              | [] => [(a, None)]
              | ms => map (fun b => (a, Some b)) ms
              end) l.

(** A column of the right side of a left join: NULL where the row has no
    partner. *)
Definition right_col {B V} (col : B -> option V) (b : option B) : option V :=
  match b with Some b => col b | None => None end.

End Sql.

(* ===================================================================== *)
(** * The reconciliation queries ([reconcile_and_export_data_for_date])

    The two tables are the cleaned CSV files of one day.  Their columns are
    typed as the schema of the pipeline declares them ([create_tables]:
    identifiers, codes, names and states are text, [amount] is NUMERIC),
    every cell may be NULL, and the three timestamps are the text the
    cleaned CSV holds.  Amounts are rationals: every finite number of the
    file is one, and SQLite compares two numbers exactly.  The order of the
    rows of a result is the one of a nested loop; the properties below do
    not depend on it beyond the order of each table. *)
(* ===================================================================== *)

Module gt.
(** A row of [grab_transactions]. *)
Record row := mk {
  transaction_id : option string;
  grab_account_id : option string;
  transaction_datetime : option string;
  transaction_type : option string;
  amount : option Qc;
  currency_code : option string;
  status : option string;
  partner_name : option string;
  payment_method : option string;
  created_at : option string;
  updated_at : option string
}.
End gt.

Module pt.
(** A row of [partner_transactions]. *)
Record row := mk {
  partner_transaction_id : option string;
  grab_transaction_id : option string;
  grab_account_id : option string;
  transaction_datetime : option string;
  transaction_type : option string;
  amount : option Qc;
  currency_code : option string;
  status : option string;
  payment_method : option string;
  created_at : option string;
  updated_at : option string;
  partner_name : option string
}.
End pt.

Module rt.
(** A row of the result of [match_query]. *)
Record row := mk {
  grab_transaction_id : option string;
  grab_account_id : option string;
  grab_amount : option Qc;
  grab_currency_code : option string;
  grab_status : option string;
  grab_created_at : option string;
  grab_updated_at : option string;
  grab_transaction_datetime : option string;
  partner_grab_transaction_id : option string;
  partner_grab_account_id : option string;
  partner_amount : option Qc;
  partner_currency_code : option string;
  partner_status : option string;
  partner_created_at : option string;
  partner_updated_at : option string;
  partner_transaction_datetime : option string
}.
End rt.

Module dt.
(** A row of the result of [discrepancy_query]. *)
Record row := mk {
  transaction_id : option string;
  grab_account_id : option string;
  grab_amount : option Qc;
  partner_amount : option Qc;
  grab_currency_code : option string;
  partner_currency_code : option string;
  grab_status : option string;
  partner_status : option string;
  grab_created_at : option string;
  partner_created_at : option string;
  grab_updated_at : option string;
  partner_updated_at : option string;
  grab_transaction_datetime : option string;
  partner_transaction_datetime : option string
}.
End dt.

Module Reconcile.
Import Sql.

(** [ON gt.transaction_id = pt.grab_transaction_id
       AND gt.grab_account_id = pt.grab_account_id] *)
Definition on_gt_pt (g : gt.row) (p : pt.row) : bool :=
  holds (sql_and (sql_eq (gt.transaction_id g) (pt.grab_transaction_id p))
                 (sql_eq (gt.grab_account_id g) (pt.grab_account_id p))).

(** [ON pt.grab_transaction_id = gt.transaction_id
       AND pt.grab_account_id = gt.grab_account_id] *)
Definition on_pt_gt (p : pt.row) (g : gt.row) : bool :=
  holds (sql_and (sql_eq (pt.grab_transaction_id p) (gt.transaction_id g))
                 (sql_eq (pt.grab_account_id p) (gt.grab_account_id g))).

(** The SELECT list of [match_query]. *)
Definition match_select (gp : gt.row * pt.row) : rt.row :=
  let (g, p) := gp in
  {| rt.grab_transaction_id := gt.transaction_id g;
     rt.grab_account_id := gt.grab_account_id g;
     rt.grab_amount := gt.amount g;
     rt.grab_currency_code := gt.currency_code g;
     rt.grab_status := gt.status g;
     rt.grab_created_at := gt.created_at g;
     rt.grab_updated_at := gt.updated_at g;
     rt.grab_transaction_datetime := gt.transaction_datetime g;
     rt.partner_grab_transaction_id := pt.grab_transaction_id p;
     rt.partner_grab_account_id := pt.grab_account_id p;
     rt.partner_amount := pt.amount p;
     rt.partner_currency_code := pt.currency_code p;
     rt.partner_status := pt.status p;
     rt.partner_created_at := pt.created_at p;
     rt.partner_updated_at := pt.updated_at p;
     rt.partner_transaction_datetime := pt.transaction_datetime p |}.

(** The joined pairs behind [match_query] and [discrepancy_query]. *)
Definition joined (gs : list gt.row) (ps : list pt.row) : list (gt.row * pt.row) :=
  inner_join on_gt_pt gs ps.

Definition match_query (gs : list gt.row) (ps : list pt.row) : list rt.row :=
  map match_select (joined gs ps).

(** [SELECT gt.* ... LEFT JOIN ... WHERE pt.grab_transaction_id IS NULL] *)
Definition grab_only_query (gs : list gt.row) (ps : list pt.row) : list gt.row :=
  map fst
    (List.filter (fun gp => is_null (right_col pt.grab_transaction_id (snd gp)))
                 (left_join on_gt_pt gs ps)).

(** [SELECT pt.* ... LEFT JOIN ... WHERE gt.transaction_id IS NULL] *)
Definition partner_only_query (gs : list gt.row) (ps : list pt.row) : list pt.row :=
  map fst
    (List.filter (fun pg => is_null (right_col gt.transaction_id (snd pg)))
                 (left_join on_pt_gt ps gs)).

(** [WHERE gt.amount <> pt.amount OR gt.status <> pt.status
       OR gt.currency_code <> pt.currency_code] *)
Definition discrepancy_where (gp : gt.row * pt.row) : bool :=
  let (g, p) := gp in
  holds (sql_or (sql_or (sql_ne (gt.amount g) (pt.amount p))
                        (sql_ne (gt.status g) (pt.status p)))
                (sql_ne (gt.currency_code g) (pt.currency_code p))).

(** The SELECT list of [discrepancy_query]. *)
Definition discrepancy_select (gp : gt.row * pt.row) : dt.row :=
  let (g, p) := gp in
  {| dt.transaction_id := gt.transaction_id g;
     dt.grab_account_id := gt.grab_account_id g;
     dt.grab_amount := gt.amount g;
     dt.partner_amount := pt.amount p;
     dt.grab_currency_code := gt.currency_code g;
     dt.partner_currency_code := pt.currency_code p;
     dt.grab_status := gt.status g;
     dt.partner_status := pt.status p;
     dt.grab_created_at := gt.created_at g;
     dt.partner_created_at := pt.created_at p;
     dt.grab_updated_at := gt.updated_at g;
     dt.partner_updated_at := pt.updated_at p;
     dt.grab_transaction_datetime := gt.transaction_datetime g;
     dt.partner_transaction_datetime := pt.transaction_datetime p |}.

(** The joined pairs that pass the WHERE clause of [discrepancy_query]. *)
Definition discrepant_pairs (gs : list gt.row) (ps : list pt.row)
    : list (gt.row * pt.row) :=
  List.filter discrepancy_where (joined gs ps).

Definition discrepancy_query (gs : list gt.row) (ps : list pt.row) : list dt.row :=
  map discrepancy_select (discrepant_pairs gs ps).

(** The dictionary [reconciliation_results]. *)
Record results := mk_results {
  reconciled_transactions : list rt.row;
  grab_only_transactions : list gt.row;
  partner_only_transactions : list pt.row;
  discrepant_transactions : list dt.row
}.

Definition reconciliation_results (gs : list gt.row) (ps : list pt.row) : results :=
  {| reconciled_transactions := match_query gs ps;
     grab_only_transactions := grab_only_query gs ps;
     partner_only_transactions := partner_only_query gs ps;
     discrepant_transactions := discrepancy_query gs ps |}.

(** The join key of a row: [(link_id, account_id)]. *)
Definition gt_key (g : gt.row) : option string * option string :=
  (gt.transaction_id g, gt.grab_account_id g).
Definition pt_key (p : pt.row) : option string * option string :=
  (pt.grab_transaction_id p, pt.grab_account_id p).
Definition rt_key (m : rt.row) : option string * option string :=
  (rt.grab_transaction_id m, rt.grab_account_id m).

(** A source row and a counterpart row share their join key: both have a
    link id and an account id, and these are the same.  (NULL is no key:
    it is equal to nothing, itself included.) *)
Definition shares_key (g : gt.row) (p : pt.row) : Prop :=
  exists t a, gt.transaction_id g = Some t /\ pt.grab_transaction_id p = Some t
              /\ gt.grab_account_id g = Some a /\ pt.grab_account_id p = Some a.

(** A source row, or a counterpart row, appears in the matched
    partition: one of the joined pairs, which [match_query] emits one by
    one, has it as its side. *)
Definition gt_in_matched (gs : list gt.row) (ps : list pt.row) (g : gt.row) : Prop :=
  exists p, In (g, p) (joined gs ps).
Definition pt_in_matched (gs : list gt.row) (ps : list pt.row) (p : pt.row) : Prop :=
  exists g, In (g, p) (joined gs ps).

(** A source row, or a counterpart row, appears in a list of rows of the
    matched partition: one of the rows carries it, that is, the [grab_*]
    columns of the row (its [partner_*] columns) are what the SELECT list
    of [match_query] takes from that source (counterpart) row. *)
Definition gt_appears_in (ms : list rt.row) (g : gt.row) : Prop :=
  exists m, In m ms /\ exists p, m = match_select (g, p).
Definition pt_appears_in (ms : list rt.row) (p : pt.row) : Prop :=
  exists m, In m ms /\ exists g, m = match_select (g, p).

(** The rows of a table with a given key. *)
Definition gt_with_key (k : option string * option string) (gs : list gt.row) :=
  List.filter (fun g => bool_decide (gt_key g = k)) gs.
Definition pt_with_key (k : option string * option string) (ps : list pt.row) :=
  List.filter (fun p => bool_decide (pt_key p = k)) ps.
Definition rt_with_key (k : option string * option string) (ms : list rt.row) :=
  List.filter (fun m => bool_decide (rt_key m = k)) ms.

End Reconcile.

(* ===================================================================== *)
(** * Python strings (the methods the cleaning step calls)

    Strings are sequences of 8-bit characters; the methods are modelled on
    the ASCII range. *)
(* ===================================================================== *)

Module Py.

Definition code (c : ascii) : nat := nat_of_ascii c.

Definition in_range (lo hi : nat) (c : ascii) : bool :=
  (lo <=? code c) && (code c <=? hi).

(** [str.isspace] on one character: TAB, LF, VT, FF, CR, FS, GS, RS, US
    and the space. *)
Definition is_space (c : ascii) : bool :=
  in_range 9 13 c || in_range 28 31 c || (code c =? 32).

Definition is_upper (c : ascii) : bool := in_range 65 90 c.
Definition is_lower (c : ascii) : bool := in_range 97 122 c.
Definition is_digit (c : ascii) : bool := in_range 48 57 c.

(** The character class [[a-zA-Z]]. *)
Definition is_alpha (c : ascii) : bool := is_lower c || is_upper c.

Definition upper_char (c : ascii) : ascii :=
  if is_lower c then ascii_of_nat (code c - 32) else c.
Definition lower_char (c : ascii) : ascii :=
  if is_upper c then ascii_of_nat (code c + 32) else c.

Fixpoint map_chars (f : ascii -> ascii) (s : string) : string :=
  match s with
  | EmptyString => EmptyString
  | String c r => String (f c) (map_chars f r)
  end.

Fixpoint filter_chars (keep : ascii -> bool) (s : string) : string :=
  match s with
  | EmptyString => EmptyString
  | String c r => if keep c then String c (filter_chars keep r) else filter_chars keep r
  end.

(** [s.upper()], [s.lower()] *)
Definition upper (s : string) : string := map_chars upper_char s.
Definition lower (s : string) : string := map_chars lower_char s.

Fixpoint lstrip (s : string) : string :=
  match s with
  | EmptyString => EmptyString
  | String c r => if is_space c then lstrip r else s
  end.

Fixpoint rstrip (s : string) : string :=
  match s with
  | EmptyString => EmptyString
  | String c r =>
      match rstrip r with
      | EmptyString => if is_space c then EmptyString else String c EmptyString
      | r' => String c r'
      end
  end.

(** [s.strip()] *)
Definition strip (s : string) : string := lstrip (rstrip s).

(** [re.sub(r'[^a-zA-Z]', '', s)] *)
Definition remove_non_alpha (s : string) : string := filter_chars is_alpha s.

(** Every character of [s] satisfies [p]. *)
Fixpoint all_chars (p : ascii -> bool) (s : string) : bool :=
  match s with
  | EmptyString => true
  | String c r => p c && all_chars p r
  end.

(** [sub in s] *)
Fixpoint contains (sub s : string) : bool :=
  String.prefix sub s
  || match s with
     | EmptyString => false
     | String _ r => contains sub r
     end.

End Py.

(* ===================================================================== *)
(** * DataFrame cells and the pandas functions the pipeline calls        *)
(* ===================================================================== *)

Module Pandas.

(** A cell of a DataFrame: Python [None], a float NaN, a number, a string,
    a timestamp (nanoseconds since the epoch, UTC) or [NaT]. *)
Inductive value :=
| VNone
| VNaN
| VNum (q : Qc)
| VStr (s : string)
| VTime (t : Z)
| VNaT.

#[export] Instance value_eq_dec : EqDecision value.
Proof. solve_decision. Defined.

(** [pd.isna] *)
Definition isna (v : value) : bool :=
  match v with VNone | VNaN | VNaT => true | _ => false end.

Definition is_str (v : value) : bool :=
  match v with VStr _ => true | _ => false end.
Definition is_num (v : value) : bool :=
  match v with VNum _ => true | _ => false end.

(** What pandas does with the text of a number or of a date is library
    code; the pipeline depends on it only through these functions. *)
Record lib := mk_lib {
  (** the number a string denotes for [pd.to_numeric], if any *)
  numeric_of_str : string -> option Qc;
  (** [str(x)] of a number *)
  str_of_num : Qc -> string;
  (** [str(t)] of a timestamp *)
  str_of_time : Z -> string;
  (** the instant [pd.to_datetime(x, utc=True)] reads from a string,
      or from a number, when no format is given, if any *)
  time_of_str : string -> option Z;
  time_of_num : Qc -> option Z
}.

Inductive exn := AttributeError | KeyError.

Inductive result (A : Type) :=
| Ok (a : A)
| Raise (e : exn).
Arguments Ok {A} a.
Arguments Raise {A} e.

Definition bind {A B} (r : result A) (k : A -> result B) : result B :=
  match r with
  | Ok a => k a
  | Raise e => Raise e
  end.

(** The dtype of a column: [object], a numeric dtype, or
    [datetime64[ns]] with its time zone, if it has one. *)
Inductive dtype :=
| DObject
| DNumeric
| DDatetime (tz : option string).

#[export] Instance dtype_eq_dec : EqDecision dtype.
Proof. solve_decision. Defined.

Record series := mk_series { dtype_of : dtype; cells : list value }.

(** A DataFrame: its columns in order, each with its name. *)
Definition frame := list (string * series).

(** [df[col]] *)
Fixpoint getitem (df : frame) (col : string) : result series :=
  match df with
  | [] => Raise KeyError
  | (c, s) :: r => if String.eqb c col then Ok s else getitem r col
  end.

(** [df[col] = s]: the column is replaced in place, or added last. *)
Fixpoint setitem (df : frame) (col : string) (s : series) : frame :=
  match df with
  | [] => [(col, s)]
  | (c, s') :: r =>
      if String.eqb c col then (c, s) :: r else (c, s') :: setitem r col s
  end.

(** The names of the columns and the number of rows of each. *)
Definition shape (df : frame) : list (string * nat) :=
  map (fun cs => (fst cs, List.length (cells (snd cs)))) df.

(** The [.str] accessor validates the column first: it raises
    [AttributeError("Can only use .str accessor with string values!")]
    unless the column is of dtype [object] and holds a string, or nothing
    but missing values (an empty column too). *)
Definition str_accessor_ok (s : series) : bool :=
  match dtype_of s with
  | DObject => existsb is_str (cells s) || forallb isna (cells s)
  | _ => false
  end.

(** A [.str] method on one cell of a column of dtype [object]: the method
    is applied to a string; a missing cell ([pd.isna]) is left as it is
    ([None] stays [None], NaN stays NaN); the method fails on any other
    cell, and the cell becomes NaN. *)
Definition str_elem (f : string -> string) (v : value) : value :=
  match v with
  | VStr s => VStr (f s)
  | VNone => VNone
  | VNaN => VNaN
  | VNaT => VNaT
  | VNum _ | VTime _ => VNaN
  end.

(** [col.str.<method>()] *)
Definition str_method (f : string -> string) (s : series) : result series :=
  if str_accessor_ok s
  then Ok {| dtype_of := DObject; cells := map (str_elem f) (cells s) |}
  else Raise AttributeError.

(** [-2^63] nanoseconds is NaT. *)
Definition iNaT : Z := (- 2 ^ 63)%Z.

(** [pd.to_numeric(col, errors='coerce')] on one cell: a number stays, a
    string is parsed, and what cannot be parsed becomes NaN. *)
Definition to_numeric_elem (L : lib) (v : value) : value :=
  match v with
  | VNum q => VNum q
  | VStr s => match numeric_of_str L s with Some q => VNum q | None => VNaN end
  | VTime t => VNum (Qc_of_Z t)
  | VNaT => VNum (Qc_of_Z iNaT)
  | VNone | VNaN => VNaN
  end.

Definition to_numeric (L : lib) (s : series) : series :=
  {| dtype_of := DNumeric; cells := map (to_numeric_elem L) (cells s) |}.

(** [col.astype(str)] on one cell: [str(x)]. *)
Definition astype_str_elem (L : lib) (v : value) : value :=
  match v with
  | VStr s => VStr s
  | VNum q => VStr (str_of_num L q)
  | VTime t => VStr (str_of_time L t)
  | VNone => VStr "None"
  | VNaN => VStr "nan"
  | VNaT => VStr "NaT"
  end.

Definition astype_str (L : lib) (s : series) : series :=
  {| dtype_of := DObject; cells := map (astype_str_elem L) (cells s) |}.

(** [pd.api.types.is_datetime64_any_dtype] *)
Definition is_datetime64_any_dtype (s : series) : bool :=
  match dtype_of s with DDatetime _ => true | _ => false end.

(** [pd.to_datetime(col, errors='coerce', utc=True)] on one cell. *)
Definition to_datetime_elem (L : lib) (v : value) : value :=
  match v with
  | VTime t => VTime t
  | VStr s => match time_of_str L s with Some t => VTime t | None => VNaT end
  | VNum q => match time_of_num L q with Some t => VTime t | None => VNaT end
  | VNone | VNaN | VNaT => VNaT
  end.

Definition to_datetime_utc (L : lib) (s : series) : series :=
  {| dtype_of := DDatetime (Some "UTC");
     cells := map (to_datetime_elem L) (cells s) |}.

(** [col.dt.tz_convert(tz)]: the instants stay, the zone is [tz]. *)
Definition tz_convert (tz : string) (s : series) : series :=
  {| dtype_of := DDatetime (Some tz); cells := cells s |}.

(** The Series of the results of [col.apply(f)] for an [f] that returns a
    timestamp or [None]: [datetime64[ns, UTC]] with [NaT] for [None] when
    some result is a timestamp, and a column of objects otherwise. *)
Definition is_time (v : value) : bool :=
  match v with VTime _ => true | _ => false end.

Definition apply_datetime (f : value -> value) (s : series) : series :=
  let out := map f (cells s) in
  if existsb is_time out
  then {| dtype_of := DDatetime (Some "UTC");
          cells := map (fun v => if isna v then VNaT else v) out |}
  else {| dtype_of := DObject; cells := out |}.

End Pandas.

(* ===================================================================== *)
(** * [pd.to_datetime(value, format=fmt, utc=True)]

    The format is compiled the way [strptime] compiles it: each directive is
    a regular expression with ordered alternatives, a run of white space in
    the format is [\s+], any other character stands for itself (letters
    without regard to case), the expression is matched at the start of the
    text with backtracking, and the match must consume the whole text.  The
    fields are then checked as a calendar date and the instant is converted
    to UTC (a text without offset is taken as UTC). *)
(* ===================================================================== *)

Module Strptime.
Import Py.
Local Open Scope Z_scope.

Inductive directive :=
| DY | Dm | Dd | DH | DI | DM | DS | Dp | Dz
| DSpace
| DLit (c : ascii)
| DBad.

Definition directive_of (c : ascii) : directive :=
  if Ascii.eqb c "Y" then DY else if Ascii.eqb c "m" then Dm
  else if Ascii.eqb c "d" then Dd else if Ascii.eqb c "H" then DH
  else if Ascii.eqb c "I" then DI else if Ascii.eqb c "M" then DM
  else if Ascii.eqb c "S" then DS else if Ascii.eqb c "p" then Dp
  else if Ascii.eqb c "z" then Dz else if Ascii.eqb c "%" then DLit "%"
  else DBad.

Fixpoint directives (fmt : string) : list directive :=
  match fmt with
  | EmptyString => []
  | String c r =>
      if Ascii.eqb c "%" then
        match r with
        | EmptyString => [DBad]
        | String d r' => directive_of d :: directives r'
        end
      else if is_space c then
        match directives r with
        | DSpace :: ds => DSpace :: ds
        | ds => DSpace :: ds
        end
      else DLit c :: directives r
  end.

(** The UTC offset as [%z] matched it: [Z], or sign, hours, minutes and,
    optionally, seconds with an optional fraction (digits and their value),
    with a flag for each colon that was present. *)
Inductive offset :=
| OffZ
| Off (neg : bool) (hh : Z) (colon1 : bool) (mm : Z)
      (sec : option (bool * Z * option (nat * Z))).

Record fields := mk_fields {
  year : Z; month : Z; day : Z;
  hour : Z; hour12 : option Z; pm : option bool;
  minute : Z; second : Z;
  tz : option offset
}.

Definition init : fields :=
  {| year := 1900; month := 1; day := 1; hour := 0; hour12 := None;
     pm := None; minute := 0; second := 0; tz := None |}.

Definition digit (c : ascii) : option Z :=
  if is_digit c then Some (Z.of_nat (code c) - 48) else None.

Definition matches (A : Type) := list (A * list ascii).

(** [\d\d] restricted by [ok] *)
Definition two_digits (ok : Z -> Z -> bool) (s : list ascii) : matches Z :=
  match s with
  | a :: b :: r =>
      match digit a, digit b with
      | Some x, Some y => if ok x y then [(10 * x + y, r)] else []
      | _, _ => []
      end
  | _ => []
  end.

(** [\d] restricted by [ok] *)
Definition one_digit (ok : Z -> bool) (s : list ascii) : matches Z :=
  match s with
  | a :: r =>
      match digit a with
      | Some x => if ok x then [(x, r)] else []
      | None => []
      end
  | [] => []
  end.

(** [ [1-9]]: a space and a digit *)
Definition space_digit (s : list ascii) : matches Z :=
  match s with
  | a :: r => if Ascii.eqb a " " then one_digit (fun x => 1 <=? x) r else []
  | [] => []
  end.

(** [\d\d\d\d] *)
Definition four_digits (s : list ascii) : matches Z :=
  match s with
  | a :: b :: c :: d :: r =>
      match digit a, digit b, digit c, digit d with
      | Some w, Some x, Some y, Some z => [(1000 * w + 100 * x + 10 * y + z, r)]
      | _, _, _, _ => []
      end
  | _ => []
  end.

(** [1[0-2]|0[1-9]|[1-9]] *)
Definition re_m (s : list ascii) : matches Z :=
  two_digits (fun x y => (x =? 1) && (y <=? 2) || (x =? 0) && (1 <=? y)) s
  ++ one_digit (fun x => 1 <=? x) s.

(** [3[0-1]|[1-2]\d|0[1-9]|[1-9]| [1-9]] *)
Definition re_d (s : list ascii) : matches Z :=
  two_digits (fun x y => (x =? 3) && (y <=? 1) || (1 <=? x) && (x <=? 2)
                         || (x =? 0) && (1 <=? y)) s
  ++ one_digit (fun x => 1 <=? x) s
  ++ space_digit s.

(** [2[0-3]|[0-1]\d|\d] *)
Definition re_H (s : list ascii) : matches Z :=
  two_digits (fun x y => (x =? 2) && (y <=? 3) || (x <=? 1)) s
  ++ one_digit (fun _ => true) s.

(** [[0-5]\d|\d] *)
Definition re_M (s : list ascii) : matches Z :=
  two_digits (fun x _ => x <=? 5) s ++ one_digit (fun _ => true) s.

(** [6[0-1]|[0-5]\d|\d] *)
Definition re_S (s : list ascii) : matches Z :=
  two_digits (fun x y => (x =? 6) && (y <=? 1) || (x <=? 5)) s
  ++ one_digit (fun _ => true) s.

(** [am|pm], without regard to case; [true] is PM *)
Definition re_p (s : list ascii) : matches bool :=
  match s with
  | a :: b :: r =>
      if Ascii.eqb (lower_char b) "m" then
        if Ascii.eqb (lower_char a) "a" then [(false, r)]
        else if Ascii.eqb (lower_char a) "p" then [(true, r)]
        else []
      else []
  | _ => []
  end.

(** [\s+]: the rests after one or more white-space characters, the
    longest run first *)
Fixpoint re_spaces (s : list ascii) : list (list ascii) :=
  match s with
  | c :: r => if is_space c then re_spaces r ++ [r] else []
  | [] => []
  end.

(** [:?] *)
Definition re_colon (s : list ascii) : matches bool :=
  match s with
  | c :: r => if Ascii.eqb c ":" then [(true, r); (false, s)] else [(false, s)]
  | [] => [(false, s)]
  end.

(** [\d{1,n}]: the number of digits and their value, the longest first *)
Fixpoint re_digits (n : nat) (k : nat) (acc : Z) (s : list ascii) : matches (nat * Z) :=
  match n with
  | O => []
  | S n' =>
      match s with
      | c :: r =>
          match digit c with
          | Some x => re_digits n' (S k) (10 * acc + x) r ++ [((S k, 10 * acc + x), r)]
          | None => []
          end
      | [] => []
      end
  end.

(** [(\.\d{1,6})?] *)
Definition re_fraction (s : list ascii) : matches (option (nat * Z)) :=
  match s with
  | c :: r =>
      if Ascii.eqb c "."
      then map (fun m => (Some (fst m), snd m)) (re_digits 6 0 0 r) ++ [(None, s)]
      else [(None, s)]
  | [] => [(None, s)]
  end.

(** [(:?[0-5]\d(\.\d{1,6})?)?] *)
Definition re_offset_seconds (s : list ascii)
    : matches (option (bool * Z * option (nat * Z))) :=
  flat_map (fun c =>
    flat_map (fun ss =>
      map (fun fr => (Some (fst c, fst ss, fst fr), snd fr)) (re_fraction (snd ss)))
      (two_digits (fun x _ => x <=? 5) (snd c)))
    (re_colon s)
  ++ [(None, s)].

(** [[+-]\d\d:?[0-5]\d(:?[0-5]\d(\.\d{1,6})?)?|(?-i:Z)] *)
Definition re_z (s : list ascii) : matches offset :=
  match s with
  | c :: r =>
      if Ascii.eqb c "+" || Ascii.eqb c "-" then
        flat_map (fun hh =>
          flat_map (fun c1 =>
            flat_map (fun mm =>
              map (fun sec => (Off (Ascii.eqb c "-") (fst hh) (fst c1) (fst mm) (fst sec),
                               snd sec))
                  (re_offset_seconds (snd mm)))
              (two_digits (fun x _ => x <=? 5) (snd c1)))
            (re_colon (snd hh)))
          (two_digits (fun _ _ => true) r)
      else if Ascii.eqb c "Z" then [(OffZ, r)]
      else []
  | [] => []
  end.

(** The matches of one directive, in the order the regular expression
    tries them. *)
Definition step (d : directive) (f : fields) (s : list ascii) : matches fields :=
  let put {A} (upd : A -> fields) (ms : matches A) : matches fields :=
    map (fun m => (upd (fst m), snd m)) ms in
  match d with
  | DY => put (fun v => {| year := v; month := month f; day := day f; hour := hour f;
                          hour12 := hour12 f; pm := pm f; minute := minute f;
                          second := second f; tz := tz f |}) (four_digits s)
  | Dm => put (fun v => {| year := year f; month := v; day := day f; hour := hour f;
                          hour12 := hour12 f; pm := pm f; minute := minute f;
                          second := second f; tz := tz f |}) (re_m s)
  | Dd => put (fun v => {| year := year f; month := month f; day := v; hour := hour f;
                          hour12 := hour12 f; pm := pm f; minute := minute f;
                          second := second f; tz := tz f |}) (re_d s)
  | DH => put (fun v => {| year := year f; month := month f; day := day f; hour := v;
                          hour12 := None; pm := pm f; minute := minute f;
                          second := second f; tz := tz f |}) (re_H s)
  | DI => put (fun v => {| year := year f; month := month f; day := day f; hour := hour f;
                          hour12 := Some v; pm := pm f; minute := minute f;
                          second := second f; tz := tz f |}) (re_m s)
  | DM => put (fun v => {| year := year f; month := month f; day := day f; hour := hour f;
                          hour12 := hour12 f; pm := pm f; minute := v;
                          second := second f; tz := tz f |}) (re_M s)
  | DS => put (fun v => {| year := year f; month := month f; day := day f; hour := hour f;
                          hour12 := hour12 f; pm := pm f; minute := minute f;
                          second := v; tz := tz f |}) (re_S s)
  | Dp => put (fun v => {| year := year f; month := month f; day := day f; hour := hour f;
                          hour12 := hour12 f; pm := Some v; minute := minute f;
                          second := second f; tz := tz f |}) (re_p s)
  | Dz => put (fun v => {| year := year f; month := month f; day := day f; hour := hour f;
                          hour12 := hour12 f; pm := pm f; minute := minute f;
                          second := second f; tz := Some v |}) (re_z s)
  | DSpace => map (fun r => (f, r)) (re_spaces s)
  | DLit c =>
      match s with
      | a :: r => if Ascii.eqb (lower_char a) (lower_char c) then [(f, r)] else []
      | [] => []
      end
  | DBad => []
  end.

Fixpoint run (ds : list directive) (f : fields) (s : list ascii) : matches fields :=
  match ds with
  | [] => [(f, s)]
  | d :: ds' => flat_map (fun m => run ds' (fst m) (snd m)) (step d f s)
  end.

Definition is_leap (y : Z) : bool :=
  (y mod 4 =? 0) && (negb (y mod 100 =? 0) || (y mod 400 =? 0)).

Definition days_in_month (y m : Z) : Z :=
  if m =? 2 then (if is_leap y then 29 else 28)
  else if (m =? 4) || (m =? 6) || (m =? 9) || (m =? 11) then 30
  else 31.

(** Days from 1970-01-01 to the given date of the proleptic Gregorian
    calendar. *)
Definition days_from_civil (y m d : Z) : Z :=
  let y' := if m <=? 2 then y - 1 else y in
  let era := y' / 400 in
  let yoe := y' - era * 400 in
  let mp := (m + 9) mod 12 in
  let doy := (153 * mp + 2) / 5 + d - 1 in
  let doe := yoe * 365 + yoe / 4 - yoe / 100 + doy in
  era * 146097 + doe - 719468.

(** The offset in microseconds east of UTC; the colons are used either
    both or not at all, and the offset is shorter than a day. *)
Definition offset_us (o : offset) : option Z :=
  match o with
  | OffZ => Some 0
  | Off neg hh c1 mm sec =>
      let base := (hh * 3600 + mm * 60) * 1000000 in
      let extra :=
        match sec with
        | None => Some 0
        | Some (c2, ss, fr) =>
            if Bool.eqb c1 c2 then
              Some (ss * 1000000
                    + match fr with
                      | Some (k, v) => v * 10 ^ (6 - Z.of_nat k)
                      | None => 0
                      end)
            else None
        end in
      match extra with
      | Some e =>
          let total := base + e in
          if total <? 86400 * 1000000
          then Some (if neg then - total else total) else None
      | None => None
      end
  end.

(** The hour of the day from [%H], or from [%I] and [%p]. *)
Definition hour24 (f : fields) : Z :=
  match hour12 f with
  | None => hour f
  | Some h =>
      match pm f with
      | Some true => if h =? 12 then 12 else h + 12
      | _ => if h =? 12 then 0 else h
      end
  end.

(** The instant in nanoseconds since the epoch, when the fields are a date
    of the calendar within the range of a timestamp. *)
Definition instant (f : fields) : option Z :=
  if (1 <=? year f) && (day f <=? days_in_month (year f) (month f))
     && (second f <=? 59)
  then
    match match tz f with None => Some 0 | Some o => offset_us o end with
    | Some off =>
        let secs := days_from_civil (year f) (month f) (day f) * 86400
                    + hour24 f * 3600 + minute f * 60 + second f in
        let ns := (secs * 1000000 - off) * 1000 in
        if (- 2 ^ 63 <? ns) && (ns <? 2 ^ 63) then Some ns else None
    | None => None
    end
  else None.

(** The texts that are read as [NaT] before any matching. *)
Definition nat_strings : list string :=
  ["NaT"; "nat"; "NAT"; "nan"; "NaN"; "NAN"]%string.

(** [pd.to_datetime(s, format=fmt, utc=True)] on a string; [None] is
    [ValueError]. *)
Definition to_datetime (fmt s : string) : option Pandas.value :=
  if String.eqb s "" || existsb (String.eqb s) nat_strings then Some Pandas.VNaT
  else
    match run (directives fmt) init (list_ascii_of_string s) with
    | (f, []) :: _ =>
        match instant f with
        | Some t => Some (Pandas.VTime t)
        | None => None
        end
    | _ => None
    end.

(** The instant of a UTC date and time of day, in nanoseconds. *)
Definition utc (y m d hh mi ss : Z) : Z :=
  (days_from_civil y m d * 86400 + hh * 3600 + mi * 60 + ss) * 1000000000.

End Strptime.

(* ===================================================================== *)
(** * The cleaning step ([clean_data.py])                                *)
(* ===================================================================== *)

Module Clean.
Import Pandas.

(** The list [formats] of [parse_datetime], in its order. *)
Definition formats : list string :=
  [ "%Y-%m-%dT%H:%M:%S%z";
    "%m/%d/%Y %I:%M:%S %p";
    "%Y-%m-%d %H:%M:%S";
    "%Y%m%dT%H%M%SZ";
    "%Y-%m-%d" ].

(** The loop [for fmt in formats]: the first format that does not raise
    [ValueError] gives the result, and [None] is returned when all fail. *)
Fixpoint try_formats (fmts : list string) (text : string) : value :=
  match fmts with
  | [] => VNone
  | fmt :: rest =>
      match Strptime.to_datetime fmt text with
      | Some t => t
      | None => try_formats rest text
      end
  end.

(** [parse_datetime(text_value)].  A number is matched through its text,
    and a timestamp is returned as it is. *)
Definition parse_datetime (L : lib) (text_value : value) : value :=
  if isna text_value then VNone
  else
    match text_value with
    | VStr s => try_formats formats s
    | VNum q => try_formats formats (str_of_num L q)
    | v => v
    end.

(** [df[col] = f(df[col])] *)
Definition update (df : frame) (col : string) (f : series -> result series)
    : result frame :=
  bind (getitem df col) (fun s =>
  bind (f s) (fun s' => Ok (setitem df col s'))).

(** [col.apply(parse_datetime)] *)
Definition apply_parse_datetime (L : lib) (s : series) : result series :=
  Ok (apply_datetime (parse_datetime L) s).

(** [col.str.strip()] *)
Definition str_strip (s : series) : result series := str_method Py.strip s.

(** [col.str.strip().str.lower()] *)
Definition str_strip_lower (s : series) : result series :=
  bind (str_method Py.strip s) (str_method Py.lower).

(** [col.str.strip().str.upper().str.replace(r'[^a-zA-Z]', '', regex=True)] *)
Definition clean_currency_code (s : series) : result series :=
  bind (str_method Py.strip s) (fun s1 =>
  bind (str_method Py.upper s1) (str_method Py.remove_non_alpha)).

(** [pd.to_numeric(col, errors='coerce')] *)
Definition coerce_numeric (L : lib) (s : series) : result series :=
  Ok (to_numeric L s).

(** The cleaning of [grab_transactions_data], statement by statement. *)
Definition clean_grab_transactions (L : lib) (df : frame) : result frame :=
  bind (update df "transaction_datetime" (apply_parse_datetime L)) (fun df =>
  bind (update df "created_at" (apply_parse_datetime L)) (fun df =>
  bind (update df "updated_at" (apply_parse_datetime L)) (fun df =>
  bind (update df "transaction_type" str_strip_lower) (fun df =>
  bind (update df "amount" (coerce_numeric L)) (fun df =>
  bind (update df "currency_code" clean_currency_code) (fun df =>
  bind (update df "status" str_strip_lower) (fun df =>
  bind (update df "partner_name" str_strip) (fun df =>
  update df "payment_method" str_strip_lower)))))))).

(** The cleaning of [partner_transactions_data], statement by statement. *)
Definition clean_partner_transactions (L : lib) (df : frame) : result frame :=
  bind (update df "transaction_datetime" (apply_parse_datetime L)) (fun df =>
  bind (update df "created_at" (apply_parse_datetime L)) (fun df =>
  bind (update df "updated_at" (apply_parse_datetime L)) (fun df =>
  bind (update df "transaction_type" str_strip_lower) (fun df =>
  bind (update df "amount" (coerce_numeric L)) (fun df =>
  bind (update df "currency_code" clean_currency_code) (fun df =>
  bind (update df "status" str_strip_lower) (fun df =>
  bind (update df "payment_method" str_strip_lower) (fun df =>
  update df "partner_name" str_strip)))))))).

(** The columns the two SELECT statements read from the staging tables. *)
Definition grab_columns : list string :=
  [ "transaction_id"; "grab_account_id"; "transaction_datetime";
    "transaction_type"; "amount"; "currency_code"; "status"; "partner_name";
    "payment_method"; "created_at"; "updated_at" ].

Definition partner_columns : list string :=
  [ "partner_transaction_id"; "grab_transaction_id"; "grab_account_id";
    "transaction_datetime"; "transaction_type"; "amount"; "currency_code";
    "status"; "payment_method"; "created_at"; "updated_at"; "partner_name" ].

(** The columns that are cleaned through the [.str] accessor. *)
Definition str_columns : list string :=
  [ "transaction_type"; "currency_code"; "status"; "partner_name";
    "payment_method" ].

(** The column [col] of [df] passes the check of the [.str] accessor. *)
Definition str_column_ok (df : frame) (col : string) : bool :=
  match getitem df col with
  | Ok s => str_accessor_ok s
  | Raise _ => false
  end.

Definition is_ok {A} (r : result A) : bool :=
  match r with Ok _ => true | Raise _ => false end.

(** The frame has the columns [cols]. *)
Definition has_columns (df : frame) (cols : list string) : bool :=
  forallb (fun c => is_ok (getitem df c)) cols.

(** The currency code as the specification words it: trimmed, in upper
    case, and without any character outside [A-Z]. *)
Definition spec_currency_code (x : string) : string :=
  Py.filter_chars Py.is_upper (Py.upper (Py.strip x)).

(** The statements of a cleaning function as a list: the column and what is
    assigned to it. *)
Definition run_steps (steps : list (string * (series -> result series)))
    (df : frame) : result frame :=
  fold_left (fun r st => bind r (fun df => update df (fst st) (snd st))) steps (Ok df).

Definition grab_steps (L : lib) : list (string * (series -> result series)) :=
  [ ("transaction_datetime", apply_parse_datetime L);
    ("created_at", apply_parse_datetime L);
    ("updated_at", apply_parse_datetime L);
    ("transaction_type", str_strip_lower);
    ("amount", coerce_numeric L);
    ("currency_code", clean_currency_code);
    ("status", str_strip_lower);
    ("partner_name", str_strip);
    ("payment_method", str_strip_lower) ].

Definition partner_steps (L : lib) : list (string * (series -> result series)) :=
  [ ("transaction_datetime", apply_parse_datetime L);
    ("created_at", apply_parse_datetime L);
    ("updated_at", apply_parse_datetime L);
    ("transaction_type", str_strip_lower);
    ("amount", coerce_numeric L);
    ("currency_code", clean_currency_code);
    ("status", str_strip_lower);
    ("payment_method", str_strip_lower);
    ("partner_name", str_strip) ].

(** A statement [df[col] = f(df[col])] goes through on [df]: the column is
    there and [f] returns a column of the same length. *)
Definition step_ok (df : frame) (st : string * (series -> result series)) : Prop :=
  exists s s', getitem df (fst st) = Ok s /\ snd st s = Ok s'
               /\ List.length (cells s') = List.length (cells s).

(** What a cleaning function [clean] returns on [df]: a frame with the
    columns of [df] and as many rows in each, whose [amount] column is the
    one of [df] coerced to numbers, with NaN where the text of a cell is not
    a number. *)
Definition canonicalizes (L : lib) (clean : frame -> result frame) (df : frame) : Prop :=
  exists out,
    clean df = Ok out
    /\ shape out = shape df
    /\ exists amount amount',
        getitem df "amount" = Ok amount
        /\ getitem out "amount" = Ok amount'
        /\ cells amount' = map (to_numeric_elem L) (cells amount)
        /\ forall (i : nat) (x : string),
            cells amount !! i = Some (VStr x) ->
            numeric_of_str L x = None ->
            cells amount' !! i = Some VNaN.

End Clean.

(* ===================================================================== *)
(** * The column types of the results ([convert_dataframe_column_types]) *)
(* ===================================================================== *)

Module Assemble.
Import Pandas.

(** One turn of the loop [for col in df.columns]: the new column. *)
Definition convert_column (L : lib) (col : string) (s : series) : series :=
  if Py.contains "amount" col then to_numeric L s
  else if Py.contains "status" col then astype_str L s
  else if Py.contains "currency_code" col then astype_str L s
  else if Py.contains "id" col && negb (String.eqb col "grab_account_id")
    then astype_str L s
  else if Py.contains "account_id" col then astype_str L s
  else if Py.contains "name" col || Py.contains "type" col
          || Py.contains "method" col then astype_str L s
  else if Py.contains "datetime" col || Py.contains "created_at" col
          || Py.contains "updated_at" col then
    if negb (is_datetime64_any_dtype s) then to_datetime_utc L s
    else
      match dtype_of s with
      | DDatetime (Some tz) => tz_convert tz s
      | _ => s
      end
  else s.

Definition convert_dataframe_column_types (L : lib) (df : frame) : frame :=
  map (fun cs => (fst cs, convert_column L (fst cs) (snd cs))) df.

(** The columns the function casts to text. *)
Definition is_text_column (col : string) : bool :=
  negb (Py.contains "amount" col)
  && (Py.contains "status" col || Py.contains "currency_code" col
      || Py.contains "id" col || Py.contains "name" col
      || Py.contains "type" col || Py.contains "method" col).

(** What [sqldf] returns for a column of text: NULL is [None]. *)
Definition text_column (l : list (option string)) : series :=
  {| dtype_of := DObject;
     cells := map (fun x => match x with Some s => VStr s | None => VNone end) l |}.

(** What [sqldf] returns for a column of numbers: NULL is NaN in a column
    of floats, and [None] in a column that holds nothing else. *)
Definition numeric_column (l : list (option Qc)) : series :=
  if existsb (fun x => negb (Sql.is_null x)) l
  then {| dtype_of := DNumeric;
          cells := map (fun x => match x with Some q => VNum q | None => VNaN end) l |}
  else {| dtype_of := DObject; cells := map (fun _ => VNone) l |}.

(** The four DataFrames of [reconciliation_results]. *)
Definition reconciled_frame (rows : list rt.row) : frame :=
  [ ("grab_transaction_id", text_column (map rt.grab_transaction_id rows));
    ("grab_account_id", text_column (map rt.grab_account_id rows));
    ("grab_amount", numeric_column (map rt.grab_amount rows));
    ("grab_currency_code", text_column (map rt.grab_currency_code rows));
    ("grab_status", text_column (map rt.grab_status rows));
    ("grab_created_at", text_column (map rt.grab_created_at rows));
    ("grab_updated_at", text_column (map rt.grab_updated_at rows));
    ("grab_transaction_datetime", text_column (map rt.grab_transaction_datetime rows));
    ("partner_grab_transaction_id", text_column (map rt.partner_grab_transaction_id rows));
    ("partner_grab_account_id", text_column (map rt.partner_grab_account_id rows));
    ("partner_amount", numeric_column (map rt.partner_amount rows));
    ("partner_currency_code", text_column (map rt.partner_currency_code rows));
    ("partner_status", text_column (map rt.partner_status rows));
    ("partner_created_at", text_column (map rt.partner_created_at rows));
    ("partner_updated_at", text_column (map rt.partner_updated_at rows));
    ("partner_transaction_datetime",
      text_column (map rt.partner_transaction_datetime rows)) ].

Definition grab_only_frame (rows : list gt.row) : frame :=
  [ ("transaction_id", text_column (map gt.transaction_id rows));
    ("grab_account_id", text_column (map gt.grab_account_id rows));
    ("transaction_datetime", text_column (map gt.transaction_datetime rows));
    ("transaction_type", text_column (map gt.transaction_type rows));
    ("amount", numeric_column (map gt.amount rows));
    ("currency_code", text_column (map gt.currency_code rows));
    ("status", text_column (map gt.status rows));
    ("partner_name", text_column (map gt.partner_name rows));
    ("payment_method", text_column (map gt.payment_method rows));
    ("created_at", text_column (map gt.created_at rows));
    ("updated_at", text_column (map gt.updated_at rows)) ].

Definition partner_only_frame (rows : list pt.row) : frame :=
  [ ("partner_transaction_id", text_column (map pt.partner_transaction_id rows));
    ("grab_transaction_id", text_column (map pt.grab_transaction_id rows));
    ("grab_account_id", text_column (map pt.grab_account_id rows));
    ("transaction_datetime", text_column (map pt.transaction_datetime rows));
    ("transaction_type", text_column (map pt.transaction_type rows));
    ("amount", numeric_column (map pt.amount rows));
    ("currency_code", text_column (map pt.currency_code rows));
    ("status", text_column (map pt.status rows));
    ("payment_method", text_column (map pt.payment_method rows));
    ("created_at", text_column (map pt.created_at rows));
    ("updated_at", text_column (map pt.updated_at rows));
    ("partner_name", text_column (map pt.partner_name rows)) ].

Definition discrepant_frame (rows : list dt.row) : frame :=
  [ ("transaction_id", text_column (map dt.transaction_id rows));
    ("grab_account_id", text_column (map dt.grab_account_id rows));
    ("grab_amount", numeric_column (map dt.grab_amount rows));
    ("partner_amount", numeric_column (map dt.partner_amount rows));
    ("grab_currency_code", text_column (map dt.grab_currency_code rows));
    ("partner_currency_code", text_column (map dt.partner_currency_code rows));
    ("grab_status", text_column (map dt.grab_status rows));
    ("partner_status", text_column (map dt.partner_status rows));
    ("grab_created_at", text_column (map dt.grab_created_at rows));
    ("partner_created_at", text_column (map dt.partner_created_at rows));
    ("grab_updated_at", text_column (map dt.grab_updated_at rows));
    ("partner_updated_at", text_column (map dt.partner_updated_at rows));
    ("grab_transaction_datetime", text_column (map dt.grab_transaction_datetime rows));
    ("partner_transaction_datetime",
      text_column (map dt.partner_transaction_datetime rows)) ].

(** The four DataFrames the export loop goes through, and their
    conversion ([df_converted]). *)
Record partitions := mk_partitions {
  reconciled_transactions : frame;
  grab_only_transactions : frame;
  partner_only_transactions : frame;
  discrepant_transactions : frame
}.

Definition frames_of (r : Reconcile.results) : partitions :=
  {| reconciled_transactions := reconciled_frame (Reconcile.reconciled_transactions r);
     grab_only_transactions := grab_only_frame (Reconcile.grab_only_transactions r);
     partner_only_transactions :=
       partner_only_frame (Reconcile.partner_only_transactions r);
     discrepant_transactions := discrepant_frame (Reconcile.discrepant_transactions r) |}.

Definition convert_partitions (L : lib) (p : partitions) : partitions :=
  {| reconciled_transactions :=
       convert_dataframe_column_types L (reconciled_transactions p);
     grab_only_transactions :=
       convert_dataframe_column_types L (grab_only_transactions p);
     partner_only_transactions :=
       convert_dataframe_column_types L (partner_only_transactions p);
     discrepant_transactions :=
       convert_dataframe_column_types L (discrepant_transactions p) |}.

End Assemble.

(* ===================================================================== *)
(** * The sinks: CSV files and PostgreSQL tables

    The file system and the database are a store of named objects; the rows
    of a DataFrame are kept abstract. *)
(* ===================================================================== *)

Module Sink.

Record store (A : Type) := mk_store {
  files : gmap string (list A);
  tables : gmap string (list A)
}.
Arguments mk_store {A} _ _.
Arguments files {A} _.
Arguments tables {A} _.

Definition RECONCILED_TABLE_PREFIX : string := "reconciled_".

(** [s.split('_')[0]] *)
Fixpoint before_underscore (s : string) : string :=
  match s with
  | EmptyString => EmptyString
  | String c r => if Ascii.eqb c "_" then EmptyString else String c (before_underscore r)
  end.

(** The name of the table, and of the file, of one partition. *)
Definition table_name (table_name_base TARGET_DATE_STR : string) : string :=
  if String.eqb table_name_base "reconciled_transactions"
  then RECONCILED_TABLE_PREFIX +:+ "transactions_" +:+ TARGET_DATE_STR
  else RECONCILED_TABLE_PREFIX +:+ before_underscore table_name_base
       +:+ "_" +:+ TARGET_DATE_STR.

(** [os.path.join(directory, f"{filename_base}.csv")] *)
Definition csv_path (directory filename_base : string) : string :=
  directory +:+ "/" +:+ filename_base +:+ ".csv".

Section Rows.
Context {A : Type}.

(** [df.to_csv(file_path, index=False)]: the file is written anew. *)
Definition save_dataframe_to_csv (df : list A) (filename_base directory : string)
    (st : store A) : store A :=
  {| files := <[csv_path directory filename_base := df]> (files st);
     tables := tables st |}.

(** [CREATE TABLE IF NOT EXISTS]: an existing table is left as it is. *)
Definition create_reconciled_table_if_not_exists (name : string)
    (st : store A) : store A :=
  match tables st !! name with
  | Some _ => st
  | None => {| files := files st; tables := <[name := []]> (tables st) |}
  end.

(** [cursor.copy_from]: the rows are added to those of the table.  On a
    database error (no such table) the store is unchanged and the
    function returns [False]. *)
Definition load_dataframe_to_postgres (df : list A) (name : string)
    (st : store A) : bool * store A :=
  match tables st !! name with
  | Some old => (true, {| files := files st;
                          tables := <[name := old ++ df]> (tables st) |})
  | None => (false, st)
  end.

(** [df.to_sql(name, engine, if_exists='replace', index=False)], which
    is also the body of [load_dataframe_to_staging]. *)
Definition load_dataframe_to_staging (df : list A) (name : string)
    (st : store A) : store A :=
  {| files := files st; tables := <[name := df]> (tables st) |}.

(** [df.empty] *)
Definition empty (df : list A) : bool :=
  match df with [] => true | _ => false end.

(** One turn of the export loop of
    [reconcile_and_export_data_for_date], with an open connection. *)
Definition export_partition (TARGET_DATE_STR export_directory : string)
    (table_name_base : string) (df_converted : list A) (st : store A) : store A :=
  let name := table_name table_name_base TARGET_DATE_STR in
  let st := create_reconciled_table_if_not_exists name st in
  let st := save_dataframe_to_csv df_converted name export_directory st in
  if negb (empty df_converted)
  then snd (load_dataframe_to_postgres df_converted name st)
  else st.

(** The stored table and the stored file of a partition. *)
Definition stored_table (TARGET_DATE_STR table_name_base : string)
    (st : store A) : option (list A) :=
  tables st !! table_name table_name_base TARGET_DATE_STR.

Definition stored_file (TARGET_DATE_STR export_directory table_name_base : string)
    (st : store A) : option (list A) :=
  files st !! csv_path export_directory (table_name table_name_base TARGET_DATE_STR).

End Rows.

End Sink.

(* ===================================================================== *)
(** * Sample rows                                                        *)
(* ===================================================================== *)

Module Sample.

Definition grab (id acc ty : string) (amt : option Qc) (cur st : option string)
    : gt.row :=
  {| gt.transaction_id := Some id; gt.grab_account_id := Some acc;
     gt.transaction_datetime := Some "2024-05-17 10:00:00+00:00";
     gt.transaction_type := Some ty; gt.amount := amt;
     gt.currency_code := cur; gt.status := st;
     gt.partner_name := Some "Acme"; gt.payment_method := Some "cash";
     gt.created_at := Some "2024-05-17 09:30:00+00:00";
     gt.updated_at := Some "2024-05-17 10:30:00+00:00" |}.

Definition partner (pid id acc : string) (amt : option Qc) (cur st : option string)
    : pt.row :=
  {| pt.partner_transaction_id := Some pid; pt.grab_transaction_id := Some id;
     pt.grab_account_id := Some acc;
     pt.transaction_datetime := Some "2024-05-17 10:00:05+00:00";
     pt.transaction_type := Some "credit"; pt.amount := amt;
     pt.currency_code := cur; pt.status := st;
     pt.payment_method := Some "cash";
     pt.created_at := Some "2024-05-17 09:30:00+00:00";
     pt.updated_at := Some "2024-05-17 10:30:00+00:00";
     pt.partner_name := Some "Acme Inc" |}.

Definition amount (n : Z) : option Qc := Some (Qc_of_Z n).

(** Source rows: [T1] twice, as a credit and as a debit, [T1] with a
    missing amount, and [T2]. *)
Definition g_T1 : gt.row := grab "T1" "A1" "credit" (amount 100) (Some "PHP") (Some "success").
Definition g_T1_debit : gt.row :=
  grab "T1" "A1" "debit" (amount 100) (Some "PHP") (Some "success").
Definition g_T1_no_amount : gt.row := grab "T1" "A1" "credit" None (Some "PHP") (Some "success").
Definition g_T1_no_status : gt.row := grab "T1" "A1" "credit" (amount 100) (Some "PHP") None.
Definition g_T2 : gt.row := grab "T2" "A1" "credit" (amount 20) (Some "PHP") (Some "success").

(** Counterpart rows: for [T1] with another amount, for [T1] with the
    same amount, and for [T9]. *)
Definition p_T1 : pt.row := partner "P1" "T1" "A1" (amount 105) (Some "PHP") (Some "success").
Definition p_T1_same : pt.row :=
  partner "P2" "T1" "A1" (amount 100) (Some "PHP") (Some "success").
Definition p_T9 : pt.row := partner "P9" "T9" "A1" (amount 7) (Some "PHP") (Some "failed").


(** A small instance of [Pandas.lib], enough to run the examples: decimal
    numerals with an optional sign and fraction, and the timestamps of the
    cleaned files. *)
Fixpoint read_digits (s : string) (acc : Z) (n : nat) : Z * nat * string :=
  match s with
  | String c r =>
      match Strptime.digit c with
      | Some d => read_digits r (10 * acc + d)%Z (S n)
      | None => (acc, n, s)
      end
  | EmptyString => (acc, n, EmptyString)
  end.

Definition decimal_of_str (s : string) : option Qc :=
  let (neg, body) :=
    match s with
    | String c r =>
        if Ascii.eqb c "-" then (true, r)
        else if Ascii.eqb c "+" then (false, r) else (false, s)
    | EmptyString => (false, s)
    end in
  let '(i, ni, rest) := read_digits body 0%Z 0 in
  let signed (z : Z) := if neg then (- z)%Z else z in
  if (ni =? 0)%nat then None
  else
    match rest with
    | EmptyString => Some (Qc_of_Z (signed i))
    | String c r =>
        if Ascii.eqb c "." then
          let '(f, nf, rest') := read_digits r 0%Z 0 in
          if String.eqb rest' ""
          then Some (Q2Qc (Qmake (signed (i * 10 ^ Z.of_nat nf + f)%Z)
                                 (Z.to_pos (10 ^ Z.of_nat nf)%Z)))
          else None
        else None
    end.

Definition str_of_Z (z : Z) : string := NilZero.string_of_int (Z.to_int z).

Definition lib : Pandas.lib :=
  {| Pandas.numeric_of_str := decimal_of_str;
     Pandas.str_of_num := fun q =>
       if Pos.eqb (Qden (this q)) 1 then str_of_Z (Qnum (this q))
       else str_of_Z (Qnum (this q)) +:+ "/" +:+ str_of_Z (Zpos (Qden (this q)));
     Pandas.str_of_time := fun t => str_of_Z t;
     Pandas.time_of_str := fun s =>
       match Strptime.to_datetime "%Y-%m-%d %H:%M:%S%z" s with
       | Some (Pandas.VTime t) => Some t
       | _ => None
       end;
     Pandas.time_of_num := fun q =>
       if Pos.eqb (Qden (this q)) 1 then Some (Qnum (this q)) else None |}.

Definition object (l : list Pandas.value) : Pandas.series :=
  {| Pandas.dtype_of := Pandas.DObject; Pandas.cells := l |}.
Definition numeric (l : list Pandas.value) : Pandas.series :=
  {| Pandas.dtype_of := Pandas.DNumeric; Pandas.cells := l |}.

(** The staging table of two source rows: the amount of the second one is
    not a number. *)
Definition staging_grab : Pandas.frame :=
  [ ("transaction_id", object [Pandas.VStr "T1"; Pandas.VStr "T2"]);
    ("grab_account_id", object [Pandas.VStr "A1"; Pandas.VStr "A1"]);
    ("transaction_datetime",
      object [Pandas.VStr "2024-05-17T10:00:00Z"; Pandas.VStr "2024-05-17 10:00:00"]);
    ("transaction_type", object [Pandas.VStr " Credit"; Pandas.VStr "DEBIT "]);
    ("amount", object [Pandas.VStr "100.50"; Pandas.VStr "12,5"]);
    ("currency_code", object [Pandas.VStr " php "; Pandas.VStr "P-H-P"]);
    ("status", object [Pandas.VStr "Success"; Pandas.VNone]);
    ("partner_name", object [Pandas.VStr " Acme "; Pandas.VStr "Bolt"]);
    ("payment_method", object [Pandas.VStr "Cash"; Pandas.VStr "E-Wallet"]);
    ("created_at", object [Pandas.VStr "05/17/2024 09:30:00 AM"; Pandas.VStr "yesterday"]);
    ("updated_at", object [Pandas.VStr "20240517T103000Z"; Pandas.VStr "2024-05-17"]) ].

Definition staging_partner : Pandas.frame :=
  [ ("partner_transaction_id", object [Pandas.VStr "P1"]);
    ("grab_transaction_id", object [Pandas.VStr "T1"]);
    ("grab_account_id", object [Pandas.VStr "A1"]);
    ("transaction_datetime", object [Pandas.VStr "2024-05-17T10:00:05+08:00"]);
    ("transaction_type", object [Pandas.VStr "credit"]);
    ("amount", numeric [Pandas.VNum (Qc_of_Z 105)]);
    ("currency_code", object [Pandas.VStr "PHP"]);
    ("status", object [Pandas.VStr "success"]);
    ("payment_method", object [Pandas.VStr "cash"]);
    ("created_at", object [Pandas.VNone]);
    ("updated_at", object [Pandas.VNone]);
    ("partner_name", object [Pandas.VStr "Acme Inc"]) ].

(** The same source table with one row whose currency code is the number
    608 in every row: the column is of a numeric dtype. *)
Definition staging_grab_numeric_currency : Pandas.frame :=
  [ ("transaction_id", object [Pandas.VStr "T1"]);
    ("grab_account_id", object [Pandas.VStr "A1"]);
    ("transaction_datetime", object [Pandas.VStr "2024-05-17T10:00:00Z"]);
    ("transaction_type", object [Pandas.VStr "credit"]);
    ("amount", numeric [Pandas.VNum (Qc_of_Z 100)]);
    ("currency_code", numeric [Pandas.VNum (Qc_of_Z 608)]);
    ("status", object [Pandas.VStr "success"]);
    ("partner_name", object [Pandas.VStr "Acme"]);
    ("payment_method", object [Pandas.VStr "cash"]);
    ("created_at", object [Pandas.VStr "2024-05-17T09:30:00Z"]);
    ("updated_at", object [Pandas.VStr "2024-05-17T10:30:00Z"]) ].

End Sample.

(* ===================================================================== *)
(** * The export of the results ([reconcile_data_sql.py])                *)
(* ===================================================================== *)

Module ResultExport.
Import Pandas.

(** The column types of [create_reconciled_table_if_not_exists]. *)
Inductive sql_type := TEXT | NUMERIC | TIMESTAMP_WITH_TIME_ZONE | BIGINT.

(** The type the function gives a column.  [integer_dtype s] says whether a
    column of a numeric dtype is one of integers ([is_integer_dtype]) rather
    than one of floats ([is_float_dtype]). *)
Definition column_sql_type (integer_dtype : series -> bool) (col : string) (s : series)
    : sql_type :=
  let is_integer_dtype :=
    match dtype_of s with DNumeric => integer_dtype s | _ => false end in
  let is_float_dtype :=
    match dtype_of s with DNumeric => negb (integer_dtype s) | _ => false end in
  if existsb (String.eqb col) ["amount"; "grab_amount"; "partner_amount"] then NUMERIC
  else if Py.contains "datetime" col || Py.contains "created_at" col
          || Py.contains "updated_at" col then TIMESTAMP_WITH_TIME_ZONE
  else if Py.contains "id" col && negb (String.eqb col "grab_account_id") then TEXT
  else if is_integer_dtype then BIGINT
  else if is_float_dtype then NUMERIC
  else TEXT.

(** The list [column_definitions]. *)
Definition column_definitions (integer_dtype : series -> bool) (df : frame)
    : list (string * sql_type) :=
  map (fun cs => (fst cs, column_sql_type integer_dtype (fst cs) (snd cs))) df.


(** The number of rows of a DataFrame, and its rows: the cells of each
    column at the same index. *)
Definition nrows (df : frame) : nat :=
  match df with
  | [] => 0
  | cs :: _ => List.length (cells (snd cs))
  end.

Definition row_at (df : frame) (i : nat) : list value :=
  map (fun cs => nth i (cells (snd cs)) VNone) df.

Definition rows_of (df : frame) : list (list value) :=
  map (row_at df) (seq 0 (nrows df)).

Definition POWER_BI_EXPORT_ROOT : string := "power_bi_data".

(** The dictionary [reconciliation_results] in the order of its keys. *)
Definition partition_list (p : Assemble.partitions) : list (string * frame) :=
  [ ("reconciled_transactions", Assemble.reconciled_transactions p);
    ("grab_only_transactions", Assemble.grab_only_transactions p);
    ("partner_only_transactions", Assemble.partner_only_transactions p);
    ("discrepant_transactions", Assemble.discrepant_transactions p) ].

(** The export loop: each DataFrame is converted and stored, as a file and
    in its table. *)
Definition export_results (L : lib) (TARGET_DATE_STR export_directory : string)
    (results : list (string * frame)) (st : Sink.store (list value))
    : Sink.store (list value) :=
  fold_left
    (fun st bd =>
       let df_converted := Assemble.convert_dataframe_column_types L (snd bd) in
       Sink.export_partition TARGET_DATE_STR export_directory (fst bd)
                             (rows_of df_converted) st)
    results st.

(** [reconcile_and_export_data_for_date(conn, target_date_str)] with an open
    connection.  The two cleaned tables are what [load_csv_to_dataframe]
    returned: [None] when the file could not be read. *)
Definition reconcile_and_export_data_for_date (L : lib)
    (TARGET_DATE_STR target_date_str : string)
    (cleaned_grab_df : option (list gt.row))
    (cleaned_partner_df : option (list pt.row))
    (st : Sink.store (list value)) : Sink.store (list value) :=
  let export_directory := POWER_BI_EXPORT_ROOT +:+ "/" +:+ target_date_str in
  match cleaned_grab_df, cleaned_partner_df with
  | Some grab_transactions, Some partner_transactions =>
      let reconciliation_results :=
        Assemble.frames_of
          (Reconcile.reconciliation_results grab_transactions partner_transactions) in
      export_results L TARGET_DATE_STR export_directory
                     (partition_list reconciliation_results) st
  | _, _ => st
  end.

(** The names of the four partitions. *)
Definition partition_names : list string :=
  [ "reconciled_transactions"; "grab_only_transactions";
    "partner_only_transactions"; "discrepant_transactions" ].

End ResultExport.

(* ===================================================================== *)
(** * The cleaning job ([clean_data_for_date])

    The files and the tables hold DataFrames.  A statement that fails
    leaves the store as the statements before it made it: every statement
    on the database is committed on its own. *)
(* ===================================================================== *)

Module CleanJob.
Import Pandas Clean.

Definition GENERATED_DATA_ROOT : string := "generated_data".
Definition CLEANED_DATA_ROOT : string := "cleaned_data".
Definition CLEANED_TABLE_PREFIX : string := "cleaned_".

(** What the job raises: a missing input file, an error of the database, or
    an exception of the cleaning of a column. *)
Inductive failure :=
| FileNotFoundError (path : string)
| SQLAlchemyError
| Raised (e : exn).

Definition db := Sink.store (string * series).

(** A statement: the store after it, and its value or what it raised. *)
Definition job (A : Type) := db -> db * (failure + A).

Definition ret {A} (a : A) : job A := fun st => (st, inr a).

Definition seq {A B} (m : job A) (k : A -> job B) : job B :=
  fun st =>
    match m st with
    | (st', inr a) => k a st'
    | (st', inl e) => (st', inl e)
    end.

(** A cleaning function that raises makes the job raise. *)
Definition lift {A} (r : result A) : job A :=
  fun st => match r with Ok a => (st, inr a) | Raise e => (st, inl (Raised e)) end.

(** [pd.read_csv(path)] *)
Definition read_csv (path : string) : job frame :=
  fun st =>
    match Sink.files st !! path with
    | Some df => (st, inr df)
    | None => (st, inl (FileNotFoundError path))
    end.

(** [execute_sql_query(engine, f"DROP TABLE IF EXISTS {table}")] *)
Definition drop_table_if_exists (table : string) : job unit :=
  fun st => ({| Sink.files := Sink.files st;
                Sink.tables := delete table (Sink.tables st) |}, inr tt).

(** [df.to_sql(table, engine, if_exists='replace', index=False)] *)
Definition to_sql (df : frame) (table : string) : job unit :=
  fun st => (Sink.load_dataframe_to_staging df table st, inr tt).

(** What a column is when it comes back from the database: a missing cell
    of a column of objects is [None], one of a column of numbers is NaN, and
    a column of numbers that holds no number is a column of [None]. *)
Definition fetched (s : series) : series :=
  match dtype_of s with
  | DObject =>
      {| dtype_of := DObject;
         cells := map (fun v => if isna v then VNone else v) (cells s) |}
  | DNumeric =>
      if existsb is_num (cells s)
      then {| dtype_of := DNumeric;
              cells := map (fun v => if isna v then VNaN else v) (cells s) |}
      else {| dtype_of := DObject; cells := map (fun _ => VNone) (cells s) |}
  | DDatetime tz => s
  end.

(** The columns [cols] of a frame, in the order of [cols]; [None] when one
    is not there. *)
Fixpoint select (df : frame) (cols : list string) : option frame :=
  match cols with
  | [] => Some []
  | c :: rest =>
      match getitem df c, select df rest with
      | Ok s, Some r => Some ((c, fetched s) :: r)
      | _, _ => None
      end
  end.

(** [read_sql_query(engine, f"SELECT {cols} FROM {table}")] *)
Definition read_sql_query (cols : list string) (table : string) : job frame :=
  fun st =>
    match Sink.tables st !! table with
    | Some df =>
        match select df cols with
        | Some r => (st, inr r)
        | None => (st, inl SQLAlchemyError)
        end
    | None => (st, inl SQLAlchemyError)
    end.

(** [save_dataframe_to_csv(df, filename_base, output_path, target_date_str)] *)
Definition save_dataframe_to_csv (df : frame)
    (filename_base output_path target_date_str : string) : job unit :=
  fun st =>
    (Sink.save_dataframe_to_csv df (filename_base +:+ "_" +:+ target_date_str)
       (output_path +:+ "/" +:+ target_date_str) st, inr tt).

Definition accounts_columns : list string :=
  [ "grab_account_id"; "user_id"; "account_type"; "created_at"; "updated_at" ].

(** The cleaning of [accounts_data], statement by statement. *)
Definition clean_accounts (L : lib) (df : frame) : result frame :=
  bind (update df "created_at" (apply_parse_datetime L)) (fun df =>
  bind (update df "updated_at" (apply_parse_datetime L)) (fun df =>
  bind (update df "user_id" str_strip) (fun df =>
  update df "account_type" (str_method Py.lower)))).

Definition staging_accounts_table : string := "staging_accounts".
Definition staging_grab_transactions_table : string := "staging_grab_transactions".
Definition staging_partner_transactions_table : string := "staging_partner_transactions".

(** The path of an input file: [generated_data/<date>/<name>_<date>.csv]. *)
Definition generated_file (name target_date_str : string) : string :=
  Sink.csv_path (GENERATED_DATA_ROOT +:+ "/" +:+ target_date_str)
                (name +:+ "_" +:+ target_date_str).

(** The path of an output file: [cleaned_data/<date>/<name>_<date>.csv]. *)
Definition cleaned_file (name target_date_str : string) : string :=
  Sink.csv_path (CLEANED_DATA_ROOT +:+ "/" +:+ target_date_str)
                (name +:+ "_" +:+ target_date_str).

Definition cleaned_table (name target_date_str : string) : string :=
  CLEANED_TABLE_PREFIX +:+ name +:+ "_" +:+ target_date_str.

(** [clean_data_for_date(engine, target_date_str)] *)
Definition clean_data_for_date (L : lib) (target_date_str : string) : job unit :=
  seq (read_csv (generated_file "accounts" target_date_str)) (fun accounts_df =>
  seq (read_csv (generated_file "grab_transactions" target_date_str)) (fun grab_transactions_df =>
  seq (read_csv (generated_file "partner_transactions" target_date_str)) (fun partner_transactions_df =>
  seq (drop_table_if_exists staging_accounts_table) (fun _ =>
  seq (to_sql accounts_df staging_accounts_table) (fun _ =>
  seq (drop_table_if_exists staging_grab_transactions_table) (fun _ =>
  seq (to_sql grab_transactions_df staging_grab_transactions_table) (fun _ =>
  seq (drop_table_if_exists staging_partner_transactions_table) (fun _ =>
  seq (to_sql partner_transactions_df staging_partner_transactions_table) (fun _ =>
  seq (read_sql_query accounts_columns staging_accounts_table) (fun accounts_data =>
  seq (lift (clean_accounts L accounts_data)) (fun accounts_data =>
  seq (to_sql accounts_data (cleaned_table "accounts" target_date_str)) (fun _ =>
  seq (save_dataframe_to_csv accounts_data "cleaned_accounts" CLEANED_DATA_ROOT
         target_date_str) (fun _ =>
  seq (read_sql_query grab_columns staging_grab_transactions_table) (fun grab_transactions_data =>
  seq (lift (clean_grab_transactions L grab_transactions_data)) (fun grab_transactions_data =>
  seq (to_sql grab_transactions_data (cleaned_table "grab_transactions" target_date_str))
      (fun _ =>
  seq (save_dataframe_to_csv grab_transactions_data "cleaned_grab_transactions"
         CLEANED_DATA_ROOT target_date_str) (fun _ =>
  seq (read_sql_query partner_columns staging_partner_transactions_table)
      (fun partner_transactions_data =>
  seq (lift (clean_partner_transactions L partner_transactions_data))
      (fun partner_transactions_data =>
  seq (to_sql partner_transactions_data
         (cleaned_table "partner_transactions" target_date_str)) (fun _ =>
  seq (save_dataframe_to_csv partner_transactions_data "cleaned_partner_transactions"
         CLEANED_DATA_ROOT target_date_str) (fun _ =>
  seq (drop_table_if_exists staging_accounts_table) (fun _ =>
  seq (drop_table_if_exists staging_grab_transactions_table) (fun _ =>
  drop_table_if_exists staging_partner_transactions_table))))))))))))))))))))))).

(** What the job gives for one entity: the input file is read, its columns
    are selected from the staging table and cleaned, and the result is both
    the cleaned table and the cleaned file; the input file is still there. *)
Definition cleaned_entity (clean : frame -> result frame) (cols : list string)
    (name : string) (d : string) (st st' : db) : Prop :=
  exists raw selected out,
    Sink.files st !! generated_file name d = Some raw
    /\ select raw cols = Some selected
    /\ clean selected = Ok out
    /\ Sink.tables st' !! cleaned_table name d = Some out
    /\ Sink.files st' !! cleaned_file ("cleaned_" +:+ name) d = Some out
    /\ Sink.files st' !! generated_file name d = Some raw.

(** The three staging tables hold the three input files of [st]. *)
Definition staging_left_behind (d : string) (st st' : db) : Prop :=
  exists accounts_df grab_transactions_df partner_transactions_df,
    Sink.files st !! generated_file "accounts" d = Some accounts_df
    /\ Sink.files st !! generated_file "grab_transactions" d = Some grab_transactions_df
    /\ Sink.files st !! generated_file "partner_transactions" d
       = Some partner_transactions_df
    /\ Sink.tables st' !! staging_accounts_table = Some accounts_df
    /\ Sink.tables st' !! staging_grab_transactions_table = Some grab_transactions_df
    /\ Sink.tables st' !! staging_partner_transactions_table
       = Some partner_transactions_df.

(** The statements of [clean_accounts] as a list. *)
Definition accounts_steps (L : lib) : list (string * (series -> result series)) :=
  [ ("created_at", apply_parse_datetime L);
    ("updated_at", apply_parse_datetime L);
    ("user_id", str_strip);
    ("account_type", str_method Py.lower) ].

End CleanJob.

(* ===================================================================== *)
(** * The daily run ([run_automation.py])                                *)
(* ===================================================================== *)

Module Automation.

(** The loop over the scripts of one run.  [run_script] is the outcome of
    running a script; the state of the loop is the flag [success] and the
    scripts run so far. *)
Fixpoint run_scripts {script : Type} (run_script : script -> bool)
    (scripts : list script) (success : bool) (ran : list script)
    : bool * list script :=
  match scripts with
  | [] => (success, ran)
  | script :: rest =>
      if success then
        if run_script script
        then run_scripts run_script rest success (ran ++ [script])
        else run_scripts run_script rest false (ran ++ [script])
      else (success, ran)
  end.

(** [datetime(year, month, day, hour, minute)]: [None] is [ValueError]. *)
Definition datetime (year month day hour minute : Z) : option (Z * Z * Z * Z * Z) :=
  if ((1 <=? year) && (year <=? 9999) && (1 <=? month) && (month <=? 12)
      && (1 <=? day) && (day <=? Strptime.days_in_month year month)
      && (0 <=? hour) && (hour <=? 23) && (0 <=? minute) && (minute <=? 59))%Z
  then Some (year, month, day, hour, minute)
  else None.

(** [tomorrow = datetime(now.year, now.month, now.day + 1, run_time.hour,
    run_time.minute)] *)
Definition tomorrow (now_year now_month now_day run_hour run_minute : Z)
    : option (Z * Z * Z * Z * Z) :=
  datetime now_year now_month (now_day + 1)%Z run_hour run_minute.

End Automation.

(* ===================================================================== *)
(** * More sample data                                                   *)
(* ===================================================================== *)

Module Fixture.


Definition p_no_link : pt.row :=
  {| pt.partner_transaction_id := Some "P5"; pt.grab_transaction_id := None;
     pt.grab_account_id := Some "A1"; pt.transaction_datetime := None;
     pt.transaction_type := Some "credit"; pt.amount := Sample.amount 10;
     pt.currency_code := Some "PHP"; pt.status := Some "success";
     pt.payment_method := None; pt.created_at := None; pt.updated_at := None;
     pt.partner_name := None |}.



(** The input file of two accounts, and the store that holds the three
    input files of 2024-05-17. *)
Definition accounts : Pandas.frame :=
  [ ("grab_account_id", Sample.object [Pandas.VStr "A1"; Pandas.VStr "A2"]);
    ("user_id", Sample.object [Pandas.VStr " u-1 "; Pandas.VStr "u-2"]);
    ("account_type", Sample.object [Pandas.VStr "Premium"; Pandas.VStr "REGULAR"]);
    ("created_at",
      Sample.object [Pandas.VStr "2024-05-17T08:00:00+08:00"; Pandas.VStr "2024-05-17"]);
    ("updated_at", Sample.object [Pandas.VStr "2024-05-17T09:00:00+08:00"; Pandas.VNaN]) ].

Definition generated_store : CleanJob.db :=
  {| Sink.files :=
       <[CleanJob.generated_file "accounts" "20240517" := accounts]>
         (<[CleanJob.generated_file "grab_transactions" "20240517" := Sample.staging_grab]>
            (<[CleanJob.generated_file "partner_transactions" "20240517"
               := Sample.staging_partner]> ∅));
     Sink.tables := ∅ |}.

(** The same store with a source table whose currency codes are numbers:
    its cleaning raises. *)
Definition generated_store_numeric_currency : CleanJob.db :=
  {| Sink.files :=
       <[CleanJob.generated_file "accounts" "20240517" := accounts]>
         (<[CleanJob.generated_file "grab_transactions" "20240517"
            := Sample.staging_grab_numeric_currency]>
            (<[CleanJob.generated_file "partner_transactions" "20240517"
               := Sample.staging_partner]> ∅));
     Sink.tables := ∅ |}.

(** The store without the file of the counterpart table. *)
Definition generated_store_no_partner : CleanJob.db :=
  {| Sink.files :=
       <[CleanJob.generated_file "accounts" "20240517" := accounts]>
         (<[CleanJob.generated_file "grab_transactions" "20240517" := Sample.staging_grab]> ∅);
     Sink.tables := ∅ |}.

End Fixture.

(* ===================================================================== *)
(** * Properties of the joins                                            *)
(* ===================================================================== *)

Module SqlFacts.
Import Sql.

Lemma sql_eq_true {A} `{EqDecision A} (x y : option A) :
  holds (sql_eq x y) = true <-> exists a, x = Some a /\ y = Some a.
Proof.
  destruct x as [a|], y as [b|]; simpl; try (split; [discriminate | intros (c & H1 & H2); discriminate]).
  destruct (decide (a = b)) as [->|Hne].
  - rewrite bool_decide_eq_true_2 by reflexivity. split; eauto.
  - rewrite bool_decide_eq_false_2 by assumption.
    split; [discriminate | intros (c & H1 & H2); congruence].
Qed.

Lemma sql_and_true (p q : tv) :
  holds (sql_and p q) = true <-> holds p = true /\ holds q = true.
Proof.
  destruct p as [[|]|], q as [[|]|]; simpl; intuition discriminate.
Qed.

Lemma sql_or_true (p q : tv) :
  holds (sql_or p q) = true <-> holds p = true \/ holds q = true.
Proof.
  destruct p as [[|]|], q as [[|]|]; simpl; intuition discriminate.
Qed.

Lemma sql_ne_true {A} `{EqDecision A} (x y : option A) :
  holds (sql_ne x y) = true <-> exists a b, x = Some a /\ y = Some b /\ a <> b.
Proof.
  destruct x as [a|], y as [b|]; simpl;
    try (split; [discriminate | intros (c & d & H1 & H2 & _); discriminate]).
  destruct (decide (a = b)) as [->|Hne].
  - rewrite bool_decide_eq_true_2 by reflexivity. simpl.
    split; [discriminate | intros (c & d & H1 & H2 & H3); congruence].
  - rewrite bool_decide_eq_false_2 by assumption. simpl.
    split; [intros _; eauto | reflexivity].
Qed.

Lemma sql_eq_sym {A} `{EqDecision A} (x y : option A) :
  holds (sql_eq x y) = holds (sql_eq y x).
Proof.
  destruct x as [a|], y as [b|]; simpl; try reflexivity.
  destruct (decide (a = b)) as [->|Hne]; [reflexivity|].
  rewrite !bool_decide_eq_false_2; [reflexivity | congruence | assumption].
Qed.

Section Joins.
Context {A B : Type} (on : A -> B -> bool).

Lemma in_inner_join (l : list A) (r : list B) (a : A) (b : B) :
  In (a, b) (inner_join on l r) <-> In a l /\ In b r /\ on a b = true.
Proof.
  unfold inner_join. rewrite in_flat_map. split.
  - intros (a' & Ha & Hin). apply in_map_iff in Hin as (b' & Heq & Hb).
    inversion Heq; subst. apply filter_In in Hb as [Hb Hon]. auto.
  - intros (Ha & Hb & Hon). exists a. split; [assumption|].
    apply in_map_iff. exists b. split; [reflexivity|].
    apply filter_In. auto.
Qed.

Lemma inner_join_nil_l (r : list B) : inner_join on [] r = [].
Proof. reflexivity. Qed.

Lemma inner_join_nil_r (l : list A) : inner_join on l [] = [].
Proof. induction l as [|a l IH]; [reflexivity | exact IH]. Qed.

Lemma filter_nil_existsb (f : B -> bool) (r : list B) :
  List.filter f r = [] <-> existsb f r = false.
Proof.
  induction r as [|b r IH]; simpl; [tauto|].
  destruct (f b); simpl; [split; discriminate | exact IH].
Qed.

(** The rows of a left join whose right side is NULL in a column that
    the ON condition forces to be non-NULL are the left rows without a
    partner, each once and in their order. *)
Lemma left_join_anti {V} (col : B -> option V) (l : list A) (r : list B) :
  (forall a b, on a b = true -> col b <> None) ->
  map fst (List.filter (fun x => is_null (right_col col (snd x))) (left_join on l r))
  = List.filter (fun a => negb (existsb (on a) r)) l.
Proof.
  intros Hcol. induction l as [|a l IH]; [reflexivity|].
  change (left_join on (a :: l) r)
    with (match List.filter (on a) r with
          | [] => [(a, None)]
          | ms => map (fun b => (a, Some b)) ms
          end ++ left_join on l r).
  rewrite List.filter_app, map_app, IH. clear IH.
  cbn [List.filter].
  destruct (List.filter (on a) r) as [|b ms] eqn:Hf.
  - apply filter_nil_existsb in Hf. rewrite Hf. reflexivity.
  - assert (Hex : existsb (on a) r = true).
    { destruct (existsb (on a) r) eqn:He; [reflexivity|].
      apply filter_nil_existsb in He. congruence. }
    rewrite Hex. cbn [negb].
    assert (Hall : forall b', In b' (b :: ms) -> on a b' = true).
    { intros b' Hb'. rewrite <- Hf in Hb'. apply filter_In in Hb'. tauto. }
    clear Hf Hex. revert Hall. generalize (b :: ms). intros bs Hall.
    assert (Hnil : List.filter (fun x : A * option B => is_null (right_col col (snd x)))
                     (map (fun b0 : B => (a, Some b0)) bs) = []).
    { induction bs as [|b' bs IH]; [reflexivity|]. cbn.
      destruct (col b') eqn:Hc.
      - cbn. apply IH. intros; apply Hall; right; assumption.
      - exfalso. apply (Hcol a b'); [apply Hall; left; reflexivity | assumption]. }
    rewrite Hnil. reflexivity.
Qed.

Lemma left_join_nil_r (l : list A) :
  left_join on l [] = map (fun a => (a, None)) l.
Proof.
  induction l as [|a l IH]; [reflexivity|].
  change (left_join on (a :: l) []) with ((a, @None B) :: left_join on l []).
  rewrite IH. reflexivity.
Qed.

End Joins.

End SqlFacts.

(* ===================================================================== *)
(** * Properties of the reconciliation queries                           *)
(* ===================================================================== *)

Module ReconcileFacts.
Import Sql SqlFacts Reconcile.

Lemma on_gt_pt_shares (g : gt.row) (p : pt.row) :
  on_gt_pt g p = true <-> shares_key g p.
Proof.
  unfold on_gt_pt, shares_key. rewrite sql_and_true, !sql_eq_true. split.
  - intros [(t & H1 & H2) (a & H3 & H4)]. exists t, a. auto.
  - intros (t & a & H1 & H2 & H3 & H4). split; eauto.
Qed.

Lemma on_pt_gt_sym (p : pt.row) (g : gt.row) : on_pt_gt p g = on_gt_pt g p.
Proof.
  unfold on_pt_gt, on_gt_pt.
  apply eq_true_iff_eq. rewrite !sql_and_true.
  rewrite (sql_eq_sym (pt.grab_transaction_id p)), (sql_eq_sym (pt.grab_account_id p)).
  reflexivity.
Qed.

(** When both components of a key are present, the ON condition is the
    equality of the two keys. *)
Lemma on_gt_pt_key (g : gt.row) (p : pt.row) (t a : string) :
  gt_key g = (Some t, Some a) ->
  on_gt_pt g p = bool_decide (pt_key p = (Some t, Some a)).
Proof.
  unfold gt_key, pt_key. intros Hk. inversion Hk as [[Ht Ha]].
  apply eq_true_iff_eq. rewrite on_gt_pt_shares, bool_decide_eq_true.
  unfold shares_key. rewrite Ht, Ha. split.
  - intros (t' & a' & H1 & H2 & H3 & H4). congruence.
  - intros Hp. inversion Hp. exists t, a. auto.
Qed.

Lemma in_joined (gs : list gt.row) (ps : list pt.row) (g : gt.row) (p : pt.row) :
  In (g, p) (joined gs ps) <-> In g gs /\ In p ps /\ shares_key g p.
Proof. unfold joined. rewrite in_inner_join, on_gt_pt_shares. reflexivity. Qed.

(** [grab_only_query] keeps the source rows without partner, in order. *)
Lemma grab_only_query_filter (gs : list gt.row) (ps : list pt.row) :
  grab_only_query gs ps = List.filter (fun g => negb (existsb (on_gt_pt g) ps)) gs.
Proof.
  unfold grab_only_query. apply left_join_anti.
  intros g p Hon. apply on_gt_pt_shares in Hon as (t & a & _ & Hp & _).
  congruence.
Qed.

(** [partner_only_query] keeps the counterpart rows without partner, in
    order. *)
Lemma partner_only_query_filter (gs : list gt.row) (ps : list pt.row) :
  partner_only_query gs ps
  = List.filter (fun p => negb (existsb (fun g => on_gt_pt g p) gs)) ps.
Proof.
  unfold partner_only_query.
  rewrite (left_join_anti on_pt_gt gt.transaction_id).
  - apply List.filter_ext. intros p. f_equal.
    induction gs as [|g gs IH]; [reflexivity|]. simpl.
    rewrite on_pt_gt_sym, IH. reflexivity.
  - intros p g Hon. rewrite on_pt_gt_sym in Hon.
    apply on_gt_pt_shares in Hon as (t & a & Hg & _). congruence.
Qed.

Lemma existsb_shares_gt (g : gt.row) (ps : list pt.row) :
  existsb (on_gt_pt g) ps = true <-> exists p, In p ps /\ shares_key g p.
Proof.
  rewrite existsb_exists. split; intros (p & Hp & H); exists p;
    (split; [assumption|]); apply on_gt_pt_shares; assumption.
Qed.

Lemma existsb_shares_pt (p : pt.row) (gs : list gt.row) :
  existsb (fun g => on_gt_pt g p) gs = true <-> exists g, In g gs /\ shares_key g p.
Proof.
  rewrite existsb_exists. split; intros (g & Hg & H); exists g;
    (split; [assumption|]); apply on_gt_pt_shares; assumption.
Qed.

Lemma gt_in_matched_iff (gs : list gt.row) (ps : list pt.row) (g : gt.row) :
  In g gs -> (gt_in_matched gs ps g <-> exists p, In p ps /\ shares_key g p).
Proof.
  intros Hg. unfold gt_in_matched. split.
  - intros (p & Hin). apply in_joined in Hin. exists p. tauto.
  - intros (p & Hp & Hk). exists p. apply in_joined. auto.
Qed.

Lemma pt_in_matched_iff (gs : list gt.row) (ps : list pt.row) (p : pt.row) :
  In p ps -> (pt_in_matched gs ps p <-> exists g, In g gs /\ shares_key g p).
Proof.
  intros Hp. unfold pt_in_matched. split.
  - intros (g & Hin). apply in_joined in Hin. exists g. tauto.
  - intros (g & Hg & Hk). exists g. apply in_joined. auto.
Qed.

Lemma in_grab_only (gs : list gt.row) (ps : list pt.row) (g : gt.row) :
  In g (grab_only_query gs ps)
  <-> In g gs /\ ~ exists p, In p ps /\ shares_key g p.
Proof.
  rewrite grab_only_query_filter, filter_In, <- existsb_shares_gt.
  destruct (existsb (on_gt_pt g) ps); simpl; intuition congruence.
Qed.

Lemma in_partner_only (gs : list gt.row) (ps : list pt.row) (p : pt.row) :
  In p (partner_only_query gs ps)
  <-> In p ps /\ ~ exists g, In g gs /\ shares_key g p.
Proof.
  rewrite partner_only_query_filter, filter_In, <- existsb_shares_pt.
  destruct (existsb (fun g => on_gt_pt g p) gs); simpl; intuition congruence.
Qed.

Lemma match_select_keys (g g' : gt.row) (p p' : pt.row) :
  match_select (g, p) = match_select (g', p') ->
  gt.transaction_id g = gt.transaction_id g'
  /\ gt.grab_account_id g = gt.grab_account_id g'
  /\ pt.grab_transaction_id p = pt.grab_transaction_id p'
  /\ pt.grab_account_id p = pt.grab_account_id p'.
Proof. unfold match_select. intros H. injection H. intros. auto. Qed.

(** A source row is carried by a row that [match_query] returns exactly
    when some counterpart row shares its key. *)
Lemma gt_appears_in_match_query (gs : list gt.row) (ps : list pt.row) (g : gt.row) :
  In g gs ->
  (gt_appears_in (match_query gs ps) g <-> exists p, In p ps /\ shares_key g p).
Proof.
  intros Hg. unfold gt_appears_in, match_query. split.
  - intros (m & Hm & p0 & ->). apply in_map_iff in Hm as ([g' p'] & Heq & Hin).
    apply in_joined in Hin as (_ & Hp' & t & a & Ht & Ht' & Ha & Ha').
    apply match_select_keys in Heq as (Hid & Hacc & _).
    exists p'. split; [exact Hp'|]. exists t, a. rewrite <- Hid, <- Hacc. auto.
  - intros (p & Hp & Hk). exists (match_select (g, p)). split; [|eauto].
    apply in_map. apply in_joined. auto.
Qed.

Lemma pt_appears_in_match_query (gs : list gt.row) (ps : list pt.row) (p : pt.row) :
  In p ps ->
  (pt_appears_in (match_query gs ps) p <-> exists g, In g gs /\ shares_key g p).
Proof.
  intros Hp. unfold pt_appears_in, match_query. split.
  - intros (m & Hm & g0 & ->). apply in_map_iff in Hm as ([g' p'] & Heq & Hin).
    apply in_joined in Hin as (Hg' & _ & t & a & Ht & Ht' & Ha & Ha').
    apply match_select_keys in Heq as (_ & _ & Hid & Hacc).
    exists g'. split; [exact Hg'|]. exists t, a. rewrite <- Hid, <- Hacc. auto.
  - intros (g & Hg & Hk). exists (match_select (g, p)). split; [|eauto].
    apply in_map. apply in_joined. auto.
Qed.

(** C1.  Every source row is in exactly one of the matched and the
    source-only partition: it appears in the rows that [match_query]
    returns when some counterpart row shares its join key, and it is a row
    of [grab_only_query] otherwise; and every counterpart row is, in the
    same way, in exactly one of the matched and the counterpart-only
    partition. *)
Theorem partition_exhaustive_disjoint (gs : list gt.row) (ps : list pt.row) :
  (forall g, In g gs ->
     (gt_appears_in (match_query gs ps) g <-> exists p, In p ps /\ shares_key g p)
     /\ (In g (grab_only_query gs ps) <-> ~ exists p, In p ps /\ shares_key g p)
     /\ (gt_appears_in (match_query gs ps) g \/ In g (grab_only_query gs ps))
     /\ ~ (gt_appears_in (match_query gs ps) g /\ In g (grab_only_query gs ps)))
  /\ (forall p, In p ps ->
     (pt_appears_in (match_query gs ps) p <-> exists g, In g gs /\ shares_key g p)
     /\ (In p (partner_only_query gs ps) <-> ~ exists g, In g gs /\ shares_key g p)
     /\ (pt_appears_in (match_query gs ps) p \/ In p (partner_only_query gs ps))
     /\ ~ (pt_appears_in (match_query gs ps) p /\ In p (partner_only_query gs ps))).
Proof.
  split.
  - intros g Hg.
    pose proof (gt_appears_in_match_query gs ps g Hg) as Hm.
    pose proof (in_grab_only gs ps g) as Ho.
    pose proof (existsb_shares_gt g ps) as He.
    destruct (existsb (on_gt_pt g) ps); intuition congruence.
  - intros p Hp.
    pose proof (pt_appears_in_match_query gs ps p Hp) as Hm.
    pose proof (in_partner_only gs ps p) as Ho.
    pose proof (existsb_shares_pt p gs) as He.
    destruct (existsb (fun g => on_gt_pt g p) gs); intuition congruence.
Qed.


(** A witness of [partition_exhaustive_disjoint]: [T1] appears in the rows
    of [match_query], [T2] is source-only and the counterpart row for [T9]
    is counterpart-only. *)
Lemma partition_exhaustive_disjoint_witness :
  gt_appears_in (match_query [Sample.g_T1; Sample.g_T2] [Sample.p_T1; Sample.p_T9])
                Sample.g_T1
  /\ ~ In Sample.g_T1
         (grab_only_query [Sample.g_T1; Sample.g_T2] [Sample.p_T1; Sample.p_T9])
  /\ In Sample.g_T2 (grab_only_query [Sample.g_T1; Sample.g_T2] [Sample.p_T1; Sample.p_T9])
  /\ In Sample.p_T9
        (partner_only_query [Sample.g_T1; Sample.g_T2] [Sample.p_T1; Sample.p_T9]).
Proof.
  destruct (partition_exhaustive_disjoint
              [Sample.g_T1; Sample.g_T2] [Sample.p_T1; Sample.p_T9]) as [Hg Hp].
  destruct (Hg Sample.g_T1 (or_introl eq_refl)) as (H1 & _ & _ & H1').
  destruct (Hg Sample.g_T2 (or_intror (or_introl eq_refl))) as (_ & H2 & _).
  destruct (Hp Sample.p_T9 (or_intror (or_introl eq_refl))) as (_ & H3 & _).
  assert (HT1 : gt_appears_in
                  (match_query [Sample.g_T1; Sample.g_T2] [Sample.p_T1; Sample.p_T9])
                  Sample.g_T1).
  { apply H1. exists Sample.p_T1. split; [left; reflexivity|].
    exists "T1", "A1". repeat split. }
  split; [exact HT1|]. split; [|split].
  - intros Hin. apply H1'. split; assumption.
  - apply H2. intros (p & [<-|[<-|[]]] & (t & a & Ht & Ht' & _));
      simpl in Ht, Ht'; congruence.
  - apply H3. intros (g & [<-|[<-|[]]] & (t & a & Ht & Ht' & _));
      simpl in Ht, Ht'; congruence.
Defined.

Lemma filter_map_swap' {X Y} (f : Y -> bool) (h : X -> Y) (l : list X) :
  List.filter f (map h l) = map h (List.filter (fun x => f (h x)) l).
Proof.
  induction l as [|x l IH]; [reflexivity|]. simpl.
  destruct (f (h x)); simpl; rewrite IH; reflexivity.
Qed.

Lemma filter_all {X} (f : X -> bool) (l : list X) :
  (forall x, In x l -> f x = true) -> List.filter f l = l.
Proof.
  induction l as [|x l IH]; [reflexivity|]. intros H. simpl.
  rewrite (H x (or_introl eq_refl)), IH; [reflexivity|].
  intros y Hy. apply H. right. exact Hy.
Qed.

Lemma filter_none {X} (f : X -> bool) (l : list X) :
  (forall x, In x l -> f x = false) -> List.filter f l = [].
Proof.
  induction l as [|x l IH]; [reflexivity|]. intros H. simpl.
  rewrite (H x (or_introl eq_refl)). apply IH.
  intros y Hy. apply H. right. exact Hy.
Qed.

(** The joined pairs of one key are the product of the rows of that key
    on the two sides. *)
Lemma joined_with_key (gs : list gt.row) (ps : list pt.row) (t a : string) :
  List.filter (fun gp => bool_decide (gt_key (fst gp) = (Some t, Some a))) (joined gs ps)
  = list_prod (gt_with_key (Some t, Some a) gs) (pt_with_key (Some t, Some a) ps).
Proof.
  induction gs as [|g gs IH]; [reflexivity|].
  change (joined (g :: gs) ps)
    with (map (pair g) (List.filter (on_gt_pt g) ps) ++ joined gs ps).
  rewrite List.filter_app, IH. clear IH.
  unfold gt_with_key at 2. cbn [List.filter].
  destruct (bool_decide (gt_key g = (Some t, Some a))) eqn:Hk.
  - apply bool_decide_eq_true in Hk. cbn [list_prod]. f_equal.
    rewrite filter_all.
    + f_equal. unfold pt_with_key. apply List.filter_ext.
      intros p. apply on_gt_pt_key. exact Hk.
    + intros [g' p] Hin. apply in_map_iff in Hin as (p' & Heq & _).
      inversion Heq; subst. simpl. apply bool_decide_eq_true. exact Hk.
  - rewrite filter_none; [reflexivity|].
    intros [g' p] Hin. apply in_map_iff in Hin as (p' & Heq & _).
    inversion Heq; subst. exact Hk.
Qed.

(** C3 (as amended).  For every join key with both components present,
    the matched rows of that key are the rows [match_query] selects from
    the cartesian product of the source rows with that key and the
    counterpart rows with that key; and a matched row holds, under the
    names [grab_*] and [partner_*], the eight columns of each side that
    the SELECT list names: the link id, the account id, the amount, the
    currency code, the status and the three timestamps. *)
Theorem matched_cartesian_product (gs : list gt.row) (ps : list pt.row) (t a : string) :
  rt_with_key (Some t, Some a) (match_query gs ps)
  = map match_select
      (list_prod (gt_with_key (Some t, Some a) gs) (pt_with_key (Some t, Some a) ps))
  /\ forall g p,
      let m := match_select (g, p) in
      rt.grab_transaction_id m = gt.transaction_id g
      /\ rt.grab_account_id m = gt.grab_account_id g
      /\ rt.grab_amount m = gt.amount g
      /\ rt.grab_currency_code m = gt.currency_code g
      /\ rt.grab_status m = gt.status g
      /\ rt.grab_created_at m = gt.created_at g
      /\ rt.grab_updated_at m = gt.updated_at g
      /\ rt.grab_transaction_datetime m = gt.transaction_datetime g
      /\ rt.partner_grab_transaction_id m = pt.grab_transaction_id p
      /\ rt.partner_grab_account_id m = pt.grab_account_id p
      /\ rt.partner_amount m = pt.amount p
      /\ rt.partner_currency_code m = pt.currency_code p
      /\ rt.partner_status m = pt.status p
      /\ rt.partner_created_at m = pt.created_at p
      /\ rt.partner_updated_at m = pt.updated_at p
      /\ rt.partner_transaction_datetime m = pt.transaction_datetime p.
Proof.
  split.
  - unfold rt_with_key, match_query. rewrite filter_map_swap'.
    rewrite <- joined_with_key. f_equal.
    apply List.filter_ext. intros [g p]. reflexivity.
  - intros g p. cbn. repeat split.
Qed.

(** C3 as stated fails: a matched row does not hold the transaction type
    (nor the payment method, the partner name or the record id of the
    counterpart).  Two source rows that differ in their transaction type
    only give the same matched row, so no function reads the transaction
    type of the source row off the matched row. *)
Lemma matched_row_drops_transaction_type :
  match_query [Sample.g_T1] [Sample.p_T1] = match_query [Sample.g_T1_debit] [Sample.p_T1]
  /\ gt.transaction_type Sample.g_T1 <> gt.transaction_type Sample.g_T1_debit
  /\ ~ exists f : rt.row -> option string,
         forall g p, f (match_select (g, p)) = gt.transaction_type g.
Proof.
  split; [reflexivity|]. split; [discriminate|].
  intros (f & Hf).
  pose proof (Hf Sample.g_T1 Sample.p_T1) as H1.
  pose proof (Hf Sample.g_T1_debit Sample.p_T1) as H2.
  change (match_select (Sample.g_T1_debit, Sample.p_T1))
    with (match_select (Sample.g_T1, Sample.p_T1)) in H2.
  rewrite H1 in H2. discriminate H2.
Qed.

(** Every joined pair has its row in the result of [match_query]. *)
Lemma matched_row_of_pair (gs : list gt.row) (ps : list pt.row) (g : gt.row) (p : pt.row) :
  In (g, p) (joined gs ps) -> In (match_select (g, p)) (match_query gs ps).
Proof. intros H. unfold match_query. apply in_map. exact H. Qed.

(** A pair with the same amount, status and currency code is matched and
    not discrepant. *)
Example equal_pair_not_discrepant :
  joined [Sample.g_T1] [Sample.p_T1_same] = [(Sample.g_T1, Sample.p_T1_same)]
  /\ discrepancy_query [Sample.g_T1] [Sample.p_T1_same] = [].
Proof. vm_compute. split; reflexivity. Qed.

(** The discrepant pairs are joined pairs. *)
Lemma discrepant_pairs_joined (gs : list gt.row) (ps : list pt.row) gp :
  In gp (discrepant_pairs gs ps) -> In gp (joined gs ps).
Proof. unfold discrepant_pairs. rewrite filter_In. tauto. Qed.

(** A discrepant row repeats the columns of a matched row. *)
Lemma discrepant_subset_matched (gs : list gt.row) (ps : list pt.row) (d : dt.row) :
  In d (discrepancy_query gs ps) ->
  exists g p, In (g, p) (joined gs ps)
    /\ d = discrepancy_select (g, p)
    /\ In (match_select (g, p)) (match_query gs ps).
Proof.
  unfold discrepancy_query. rewrite in_map_iff.
  intros ([g p] & Hd & Hin). apply discrepant_pairs_joined in Hin.
  exists g, p. repeat split; [assumption | congruence |].
  unfold match_query. apply in_map. assumption.
Qed.

(** The WHERE clause is true when one of the three comparisons is made
    between two present values that differ. *)
Lemma discrepancy_where_iff (g : gt.row) (p : pt.row) :
  discrepancy_where (g, p) = true
  <-> (exists x y, gt.amount g = Some x /\ pt.amount p = Some y /\ x <> y)
      \/ (exists x y, gt.status g = Some x /\ pt.status p = Some y /\ x <> y)
      \/ (exists x y, gt.currency_code g = Some x /\ pt.currency_code p = Some y /\ x <> y).
Proof.
  unfold discrepancy_where. rewrite !sql_or_true, !sql_ne_true. tauto.
Qed.

(** When the six compared cells are present, a joined pair is discrepant
    exactly when the two sides differ in the amount, the status or the
    currency code. *)
Lemma discrepant_iff_differs (gs : list gt.row) (ps : list pt.row) (g : gt.row) (p : pt.row) :
  In (g, p) (joined gs ps) ->
  gt.amount g <> None -> pt.amount p <> None ->
  gt.status g <> None -> pt.status p <> None ->
  gt.currency_code g <> None -> pt.currency_code p <> None ->
  (In (g, p) (discrepant_pairs gs ps)
   <-> gt.amount g <> pt.amount p \/ gt.status g <> pt.status p
       \/ gt.currency_code g <> pt.currency_code p).
Proof.
  intros Hin Ha Ha' Hs Hs' Hc Hc'. unfold discrepant_pairs.
  rewrite filter_In, discrepancy_where_iff.
  destruct (gt.amount g) as [x|], (pt.amount p) as [x'|]; try congruence.
  destruct (gt.status g) as [y|], (pt.status p) as [y'|]; try congruence.
  destruct (gt.currency_code g) as [z|], (pt.currency_code p) as [z'|]; try congruence.
  split.
  - intros [_ [(u & v & Hu & Hv & Hne) | [(u & v & Hu & Hv & Hne) | (u & v & Hu & Hv & Hne)]]];
      [left | right; left | right; right]; congruence.
  - intros H. split; [assumption|].
    destruct H as [H | [H | H]]; [left | right; left | right; right];
      eexists _, _; repeat split; congruence.
Qed.

(** C2 fails on the code where a compared cell is missing.  The source
    row [T1] has no amount (it could not be parsed and was coerced to a
    missing value), its counterpart has the amount 105: the pair is
    joined, the two amounts differ, and [discrepancy_query] does not
    report it, because [NULL <> 105] is not true. *)
Theorem discrepancy_misses_missing_amount :
  joined [Sample.g_T1_no_amount] [Sample.p_T1] = [(Sample.g_T1_no_amount, Sample.p_T1)]
  /\ gt.amount Sample.g_T1_no_amount <> pt.amount Sample.p_T1
  /\ discrepancy_query [Sample.g_T1_no_amount] [Sample.p_T1] = [].
Proof. split; [reflexivity|]. split; [discriminate | reflexivity]. Qed.

(** The scenario of the specification: one row on each side, the same
    key, the amounts 100 and 105: one matched row, the same pair
    discrepant, nothing unmatched. *)
Example end_to_end_scenario :
  joined [Sample.g_T1] [Sample.p_T1] = [(Sample.g_T1, Sample.p_T1)]
  /\ discrepant_pairs [Sample.g_T1] [Sample.p_T1] = [(Sample.g_T1, Sample.p_T1)]
  /\ grab_only_query [Sample.g_T1] [Sample.p_T1] = []
  /\ partner_only_query [Sample.g_T1] [Sample.p_T1] = [].
Proof. vm_compute. repeat split. Qed.

(** C8.  With an empty source table the matched, the discrepant and the
    source-only partition are empty and the counterpart-only partition is
    the whole counterpart table; with an empty counterpart table the
    matched, the discrepant and the counterpart-only partition are empty
    and the source-only partition is the whole source table.  The queries
    are total functions: nothing is raised. *)
Theorem empty_input_degrades (gs : list gt.row) (ps : list pt.row) :
  reconciliation_results [] ps
  = {| reconciled_transactions := [];
       grab_only_transactions := [];
       partner_only_transactions := ps;
       discrepant_transactions := [] |}
  /\ reconciliation_results gs []
     = {| reconciled_transactions := [];
          grab_only_transactions := gs;
          partner_only_transactions := [];
          discrepant_transactions := [] |}.
Proof.
  unfold reconciliation_results. split.
  - f_equal. rewrite partner_only_query_filter. apply filter_all. reflexivity.
  - unfold match_query, discrepancy_query, discrepant_pairs, joined.
    rewrite inner_join_nil_r. cbn [map List.filter]. f_equal.
    rewrite grab_only_query_filter. apply filter_all. reflexivity.
Qed.

End ReconcileFacts.

(* ===================================================================== *)
(** * Properties of the cleaning step                                    *)
(* ===================================================================== *)

Module PyFacts.
Import Py.

Lemma upper_char_not_lower (c : ascii) : is_lower (upper_char c) = false.
Proof.
  destruct c as [b0 b1 b2 b3 b4 b5 b6 b7].
  destruct b0, b1, b2, b3, b4, b5, b6, b7; reflexivity.
Qed.

(** After [upper], the class [[a-zA-Z]] is the class [[A-Z]]. *)
Lemma remove_non_alpha_upper (x : string) :
  remove_non_alpha (upper x) = filter_chars is_upper (upper x).
Proof.
  unfold remove_non_alpha, upper, is_alpha.
  induction x as [|c x IH]; [reflexivity|]. cbn [map_chars filter_chars].
  rewrite upper_char_not_lower, IH. reflexivity.
Qed.

Lemma all_chars_filter (p : ascii -> bool) (x : string) :
  all_chars p (filter_chars p x) = true.
Proof.
  induction x as [|c x IH]; [reflexivity|]. cbn [filter_chars].
  destruct (p c) eqn:Hp; [|exact IH]. cbn [all_chars]. rewrite Hp, IH. reflexivity.
Qed.

End PyFacts.

Module CleanFacts.
Import Pandas Clean.

(** The loop of [parse_datetime] returns what the first format that does
    not fail returns, and [None] when every format fails. *)
Lemma try_formats_first (fmts : list string) (text : string) :
  (exists i fmt t,
      fmts !! i = Some fmt
      /\ Strptime.to_datetime fmt text = Some t
      /\ (forall j fmt', (j < i)%nat -> fmts !! j = Some fmt' ->
                         Strptime.to_datetime fmt' text = None)
      /\ try_formats fmts text = t)
  \/ ((forall fmt, In fmt fmts -> Strptime.to_datetime fmt text = None)
      /\ try_formats fmts text = VNone).
Proof.
  induction fmts as [|fmt fmts IH]; cbn [try_formats].
  - right. split; [intros fmt []| reflexivity].
  - destruct (Strptime.to_datetime fmt text) as [t|] eqn:Ht.
    + left. exists 0%nat, fmt, t. repeat split; try assumption.
      intros j fmt' Hj. lia.
    + destruct IH as [(i & fmt0 & t & Hi & Hok & Hbefore & Hres) | [Hall Hres]].
      * left. exists (S i), fmt0, t. repeat split; try assumption.
        intros [|j] fmt' Hj Hl; cbn in Hl.
        -- congruence.
        -- apply (Hbefore j); [lia | assumption].
      * right. split; [|assumption].
        intros fmt' [<-|Hin]; [assumption | apply Hall; assumption].
Qed.

(** C5.  [parse_datetime] tries the five formats in the order they are
    declared (ISO 8601 with offset, US month/day/year with AM/PM, ISO
    without offset, compact with [T] and [Z], date only) and returns the
    result of the first one that parses, as an instant in UTC; the texts
    [2024-05-17T10:00:00Z] and [2024-05-17 10:00:00] both give the instant
    2024-05-17 10:00:00 UTC. *)
Theorem temporal_fallback_order (L : lib) :
  formats = [ "%Y-%m-%dT%H:%M:%S%z"; "%m/%d/%Y %I:%M:%S %p"; "%Y-%m-%d %H:%M:%S";
              "%Y%m%dT%H%M%SZ"; "%Y-%m-%d" ]
  /\ (forall text : string,
        (exists i fmt t,
            formats !! i = Some fmt
            /\ Strptime.to_datetime fmt text = Some t
            /\ (forall j fmt', (j < i)%nat -> formats !! j = Some fmt' ->
                               Strptime.to_datetime fmt' text = None)
            /\ parse_datetime L (VStr text) = t)
        \/ ((forall fmt, In fmt formats -> Strptime.to_datetime fmt text = None)
            /\ parse_datetime L (VStr text) = VNone))
  /\ parse_datetime L (VStr "2024-05-17T10:00:00Z")
     = VTime (Strptime.utc 2024 5 17 10 0 0)
  /\ parse_datetime L (VStr "2024-05-17 10:00:00")
     = VTime (Strptime.utc 2024 5 17 10 0 0)
  /\ parse_datetime L (VStr "2024-05-17T18:00:00+08:00")
     = VTime (Strptime.utc 2024 5 17 10 0 0).
Proof.
  split; [reflexivity|]. split.
  - intros text. exact (try_formats_first formats text).
  - repeat split; vm_compute; reflexivity.
Qed.

(** Which format reads each of the two texts: the first one reads the
    text with [T] and [Z]; the text with a space falls through the first
    two formats to the third. *)
Example fallback_trace :
  Strptime.to_datetime "%Y-%m-%dT%H:%M:%S%z" "2024-05-17T10:00:00Z"
  = Some (VTime 1715940000000000000)
  /\ Strptime.to_datetime "%Y-%m-%dT%H:%M:%S%z" "2024-05-17 10:00:00" = None
  /\ Strptime.to_datetime "%m/%d/%Y %I:%M:%S %p" "2024-05-17 10:00:00" = None
  /\ Strptime.to_datetime "%Y-%m-%d %H:%M:%S" "2024-05-17 10:00:00"
     = Some (VTime 1715940000000000000).
Proof. vm_compute. repeat split. Qed.

Lemma bind_Ok_r {A} (r : result A) : bind r Ok = r.
Proof. destruct r; reflexivity. Qed.

Lemma str_method_ok (f : string -> string) (s : series) :
  str_accessor_ok s = true ->
  str_method f s = Ok {| dtype_of := DObject; cells := map (str_elem f) (cells s) |}.
Proof. intros H. unfold str_method. rewrite H. reflexivity. Qed.

(** The result of a [.str] method passes the check of the accessor. *)
Lemma str_accessor_ok_map (f : string -> string) (l : list value) :
  str_accessor_ok {| dtype_of := DObject; cells := map (str_elem f) l |} = true.
Proof.
  unfold str_accessor_ok. cbn [dtype_of cells].
  induction l as [|v l IH]; [reflexivity|].
  destruct v; cbn; try exact IH; try reflexivity.
  all: apply orb_true_iff in IH as [IH|IH]; rewrite IH; cbn; auto using orb_true_r.
Qed.

Lemma str_elem_compose (f g : string -> string) (l : list value) :
  map (str_elem g) (map (str_elem f) l) = map (str_elem (fun x => g (f x))) l.
Proof.
  rewrite List.map_map. apply List.map_ext. intros []; reflexivity.
Qed.

Lemma str_strip_ok (s : series) :
  str_accessor_ok s = true ->
  str_strip s = Ok {| dtype_of := DObject; cells := map (str_elem Py.strip) (cells s) |}.
Proof. apply str_method_ok. Qed.

Lemma str_strip_lower_ok (s : series) :
  str_accessor_ok s = true ->
  str_strip_lower s
  = Ok {| dtype_of := DObject;
          cells := map (str_elem (fun x => Py.lower (Py.strip x))) (cells s) |}.
Proof.
  intros H. unfold str_strip_lower. rewrite (str_method_ok _ _ H). cbn [bind].
  rewrite str_method_ok by apply str_accessor_ok_map.
  cbn [cells]. rewrite str_elem_compose. reflexivity.
Qed.

Lemma clean_currency_code_ok (s : series) :
  str_accessor_ok s = true ->
  clean_currency_code s
  = Ok {| dtype_of := DObject;
          cells := map (str_elem spec_currency_code) (cells s) |}.
Proof.
  intros H. unfold clean_currency_code. rewrite (str_method_ok _ _ H). cbn [bind].
  rewrite str_method_ok by apply str_accessor_ok_map. cbn [bind cells].
  rewrite str_method_ok by apply str_accessor_ok_map. cbn [cells].
  rewrite !str_elem_compose. do 2 f_equal.
  apply List.map_ext. intros [] ; try reflexivity. cbn [str_elem]. f_equal.
  unfold spec_currency_code. apply PyFacts.remove_non_alpha_upper.
Qed.

(** C6.  On a column the [.str] accessor accepts, the cleaning of the
    currency code replaces every string by the string trimmed, put in
    upper case and stripped of every character outside [A-Z]; the result
    holds characters of [A-Z] only. *)
Theorem currency_code_normalization (s : series) :
  str_accessor_ok s = true ->
  clean_currency_code s
  = Ok {| dtype_of := DObject;
          cells := map (str_elem (fun x =>
                     Py.filter_chars Py.is_upper (Py.upper (Py.strip x)))) (cells s) |}
  /\ forall x, Py.all_chars Py.is_upper
                 (Py.filter_chars Py.is_upper (Py.upper (Py.strip x))) = true.
Proof.
  intros H. split.
  - exact (clean_currency_code_ok s H).
  - intros x. apply PyFacts.all_chars_filter.
Qed.

(** A witness of [currency_code_normalization], with the two inputs of the
    specification: [" php "] and ["P-H-P"] both become ["PHP"]. *)
Lemma currency_code_normalization_witness :
  str_accessor_ok (Sample.object [VStr " php "; VStr "P-H-P"]) = true
  /\ clean_currency_code (Sample.object [VStr " php "; VStr "P-H-P"])
     = Ok (Sample.object [VStr "PHP"; VStr "PHP"]).
Proof.
  split; [reflexivity|].
  exact (proj1 (currency_code_normalization
                  (Sample.object [VStr " php "; VStr "P-H-P"]) eq_refl)).
Defined.


Lemma getitem_setitem_eq (df : frame) (c : string) (s : series) :
  getitem (setitem df c s) c = Ok s.
Proof.
  induction df as [|[c' s'] df IH]; cbn.
  - rewrite String.eqb_refl. reflexivity.
  - destruct (String.eqb c' c) eqn:E; cbn; rewrite E; [reflexivity | exact IH].
Qed.

Lemma getitem_setitem_ne (df : frame) (c c' : string) (s : series) :
  c <> c' -> getitem (setitem df c s) c' = getitem df c'.
Proof.
  intros Hne. induction df as [|[c0 s0] df IH]; cbn.
  - apply String.eqb_neq in Hne. rewrite Hne. reflexivity.
  - destruct (String.eqb c0 c) eqn:E; cbn.
    + apply String.eqb_eq in E. subst c0.
      apply String.eqb_neq in Hne. rewrite Hne. reflexivity.
    + rewrite IH. reflexivity.
Qed.

Lemma shape_setitem (df : frame) (c : string) (s s0 : series) :
  getitem df c = Ok s0 ->
  List.length (cells s) = List.length (cells s0) ->
  shape (setitem df c s) = shape df.
Proof.
  intros Hget Hlen. induction df as [|[c' s'] df IH]; [discriminate|].
  cbn [getitem] in Hget. cbn [setitem].
  destruct (String.eqb c' c) eqn:E.
  - injection Hget as ->. unfold shape. cbn [map fst snd]. rewrite Hlen. reflexivity.
  - unfold shape in *. cbn [map fst snd]. rewrite IH by assumption. reflexivity.
Qed.

Lemma run_steps_raise (steps : list (string * (series -> result series))) (e : exn) :
  fold_left (fun r st => bind r (fun df => update df (fst st) (snd st))) steps (Raise e)
  = Raise e.
Proof. induction steps as [|st steps IH]; [reflexivity | exact IH]. Qed.

Lemma run_steps_cons (st : string * (series -> result series)) steps (df : frame) :
  run_steps (st :: steps) df = bind (update df (fst st) (snd st)) (run_steps steps).
Proof.
  unfold run_steps. cbn [fold_left bind].
  destruct (update df (fst st) (snd st)) as [df'|e]; cbn [bind]; [reflexivity|].
  apply run_steps_raise.
Qed.

(** A list of statements on distinct columns, each of which goes through on
    the frame, runs to the end; the result has the shape of the frame, the
    assigned columns hold what was assigned and the others are untouched. *)
Lemma run_steps_ok (steps : list (string * (series -> result series))) (df : frame) :
  List.NoDup (map fst steps) ->
  List.Forall (step_ok df) steps ->
  exists out,
    run_steps steps df = Ok out
    /\ shape out = shape df
    /\ (forall c, ~ In c (map fst steps) -> getitem out c = getitem df c)
    /\ (forall c f s, In (c, f) steps -> getitem df c = Ok s ->
                      exists s', f s = Ok s' /\ getitem out c = Ok s').
Proof.
  revert df. induction steps as [|[c f] steps IH]; intros df Hnd Hall.
  - exists df. repeat split; try reflexivity. intros c f s [].
  - cbn [map fst] in Hnd. apply List.NoDup_cons_iff in Hnd as [Hnotin Hnd].
    apply List.Forall_cons_iff in Hall as [(s & s' & Hget & Hf & Hlen) Hall].
    cbn [fst snd] in Hget, Hf.
    destruct (IH (setitem df c s') Hnd) as (out & Hrun & Hshape & Hother & Hset).
    { apply List.Forall_forall. intros [c1 f1] Hin.
      rewrite List.Forall_forall in Hall. destruct (Hall _ Hin) as (s1 & s1' & H1 & H2 & H3).
      exists s1, s1'. cbn [fst snd] in *. repeat split; try assumption.
      rewrite getitem_setitem_ne; [assumption|].
      intros ->. apply Hnotin. apply in_map_iff. exists (c1, f1). auto. }
    exists out. split; [|split; [|split]].
    + rewrite run_steps_cons. cbn [fst snd]. unfold update. rewrite Hget. cbn [bind].
      rewrite Hf. cbn [bind]. exact Hrun.
    + rewrite Hshape. apply (shape_setitem df c s' s); assumption.
    + intros c0 Hc0. cbn [map fst] in Hc0.
      rewrite Hother by (intros H; apply Hc0; right; exact H).
      apply getitem_setitem_ne. intros ->. apply Hc0. left. reflexivity.
    + intros c0 f0 s0 [Heq|Hin] Hs0.
      * inversion Heq; subst c0 f0. rewrite Hget in Hs0. injection Hs0 as <-.
        exists s'. split; [assumption|].
        rewrite Hother by assumption. apply getitem_setitem_eq.
      * apply (Hset c0 f0 s0 Hin).
        rewrite getitem_setitem_ne; [assumption|].
        intros ->. apply Hnotin. apply in_map_iff. exists (c0, f0). auto.
Qed.

Lemma bind_ext {A B} (r : result A) (k k' : A -> result B) :
  (forall a, k a = k' a) -> bind r k = bind r k'.
Proof. intros H. destruct r; cbn; [apply H | reflexivity]. Qed.

Lemma clean_grab_transactions_steps (L : lib) (df : frame) :
  clean_grab_transactions L df = run_steps (grab_steps L) df.
Proof.
  unfold grab_steps. rewrite !run_steps_cons. unfold clean_grab_transactions. cbn [fst snd].
  repeat (apply bind_ext; intros ?; rewrite ?run_steps_cons; cbn [fst snd]).
  symmetry. apply (bind_Ok_r (update _ _ _)).
Qed.

Lemma clean_partner_transactions_steps (L : lib) (df : frame) :
  clean_partner_transactions L df = run_steps (partner_steps L) df.
Proof.
  unfold partner_steps. rewrite !run_steps_cons. unfold clean_partner_transactions.
  cbn [fst snd].
  repeat (apply bind_ext; intros ?; rewrite ?run_steps_cons; cbn [fst snd]).
  symmetry. apply (bind_Ok_r (update _ _ _)).
Qed.

Lemma lookup_map {X Y} (f : X -> Y) (l : list X) (i : nat) :
  map f l !! i = match l !! i with Some x => Some (f x) | None => None end.
Proof.
  revert i. induction l as [|x l IH]; intros [|i]; cbn; try reflexivity. apply IH.
Qed.

Lemma is_ok_getitem (df : frame) (c : string) :
  is_ok (getitem df c) = true -> exists s, getitem df c = Ok s.
Proof. destruct (getitem df c) as [s|e]; [eauto | discriminate]. Qed.

Lemma str_column_ok_getitem (df : frame) (c : string) :
  str_column_ok df c = true -> exists s, getitem df c = Ok s /\ str_accessor_ok s = true.
Proof. unfold str_column_ok. destruct (getitem df c) as [s|e]; [eauto | discriminate]. Qed.

Lemma length_apply_datetime (f : value -> value) (s : series) :
  List.length (cells (apply_datetime f s)) = List.length (cells s).
Proof.
  unfold apply_datetime. destruct (existsb is_time (map f (cells s)));
    cbn [cells]; rewrite ?List.length_map; reflexivity.
Qed.

Lemma step_ok_datetime (L : lib) (df : frame) (c : string) :
  is_ok (getitem df c) = true -> step_ok df (c, apply_parse_datetime L).
Proof.
  intros H. apply is_ok_getitem in H as [s Hs].
  exists s, (apply_datetime (parse_datetime L) s). cbn [fst snd].
  repeat split; [assumption | apply length_apply_datetime].
Qed.

Lemma step_ok_numeric (L : lib) (df : frame) (c : string) :
  is_ok (getitem df c) = true -> step_ok df (c, coerce_numeric L).
Proof.
  intros H. apply is_ok_getitem in H as [s Hs].
  exists s, (to_numeric L s). cbn [fst snd].
  repeat split; [assumption | cbn [to_numeric cells]; apply List.length_map].
Qed.

Lemma step_ok_strip (df : frame) (c : string) :
  str_column_ok df c = true -> step_ok df (c, str_strip).
Proof.
  intros H. apply str_column_ok_getitem in H as (s & Hs & Hok).
  eexists s, _. cbn [fst snd]. split; [exact Hs|]. split; [apply str_strip_ok, Hok|].
  cbn [cells]. apply List.length_map.
Qed.

Lemma step_ok_strip_lower (df : frame) (c : string) :
  str_column_ok df c = true -> step_ok df (c, str_strip_lower).
Proof.
  intros H. apply str_column_ok_getitem in H as (s & Hs & Hok).
  eexists s, _. cbn [fst snd]. split; [exact Hs|]. split; [apply str_strip_lower_ok, Hok|].
  cbn [cells]. apply List.length_map.
Qed.

Lemma step_ok_currency (df : frame) (c : string) :
  str_column_ok df c = true -> step_ok df (c, clean_currency_code).
Proof.
  intros H. apply str_column_ok_getitem in H as (s & Hs & Hok).
  eexists s, _. cbn [fst snd]. split; [exact Hs|]. split; [apply clean_currency_code_ok, Hok|].
  cbn [cells]. apply List.length_map.
Qed.

(** The statements of a cleaning function that include the coercion of
    [amount] and all go through give a canonical frame. *)
Lemma run_steps_canonicalizes (L : lib) steps (df : frame) :
  List.NoDup (map fst steps) ->
  List.Forall (step_ok df) steps ->
  In ("amount", coerce_numeric L) steps ->
  canonicalizes L (run_steps steps) df.
Proof.
  intros Hnd Hall Hin.
  destruct (run_steps_ok steps df Hnd Hall) as (out & Hrun & Hshape & _ & Hset).
  exists out. split; [assumption|]. split; [assumption|].
  rewrite List.Forall_forall in Hall.
  destruct (Hall _ Hin) as (s & s' & Hget & _). cbn [fst] in Hget.
  destruct (Hset _ _ s Hin Hget) as (s2 & Hs2 & Hout).
  injection Hs2 as <-.
  exists s, (to_numeric L s). repeat split; try assumption.
  intros i x Hi Hx. cbn [to_numeric cells]. rewrite lookup_map, Hi.
  cbn [to_numeric_elem]. rewrite Hx. reflexivity.
Qed.

Lemma canonicalizes_ext (L : lib) (f g : frame -> result frame) (df : frame) :
  f df = g df -> canonicalizes L g df -> canonicalizes L f df.
Proof.
  intros Heq (out & H & Hrest). exists out. split; [congruence | exact Hrest].
Qed.

(** C4 (as amended).  When the five columns that are cleaned through the
    [.str] accessor pass its check (they hold strings, or nothing but
    missing values), the cleaning of the source table and the cleaning of
    the counterpart table do not raise and return a frame with the same
    columns and the same number of rows; the amount of a row whose text is
    not a number is NaN in that row. *)
Theorem canonicalization_total_on_text_columns (L : lib) (df : frame) :
  forallb (str_column_ok df) str_columns = true ->
  (has_columns df grab_columns = true ->
   canonicalizes L (clean_grab_transactions L) df)
  /\ (has_columns df partner_columns = true ->
      canonicalizes L (clean_partner_transactions L) df).
Proof.
  intros Hstr. cbn [forallb str_columns] in Hstr.
  repeat (apply andb_true_iff in Hstr as [? Hstr]).
  split; intros Hcols; cbn [forallb has_columns grab_columns partner_columns] in Hcols;
    repeat (apply andb_true_iff in Hcols as [? Hcols]).
  - apply (canonicalizes_ext L _ (run_steps (grab_steps L)));
      [apply clean_grab_transactions_steps|].
    apply run_steps_canonicalizes.
    + cbn. repeat constructor; cbn; intuition discriminate.
    + unfold grab_steps.
      repeat (apply List.Forall_cons; [first
        [ apply step_ok_datetime; assumption | apply step_ok_numeric; assumption
        | apply step_ok_strip_lower; assumption | apply step_ok_strip; assumption
        | apply step_ok_currency; assumption ] |]).
      apply List.Forall_nil.
    + cbn. tauto.
  - apply (canonicalizes_ext L _ (run_steps (partner_steps L)));
      [apply clean_partner_transactions_steps|].
    apply run_steps_canonicalizes.
    + cbn. repeat constructor; cbn; intuition discriminate.
    + unfold partner_steps.
      repeat (apply List.Forall_cons; [first
        [ apply step_ok_datetime; assumption | apply step_ok_numeric; assumption
        | apply step_ok_strip_lower; assumption | apply step_ok_strip; assumption
        | apply step_ok_currency; assumption ] |]).
      apply List.Forall_nil.
    + cbn. tauto.
Qed.

(** A witness of [canonicalization_total_on_text_columns]: the staging table
    of two source rows, the second with the amount ["12,5"]. *)
Lemma canonicalization_total_on_text_columns_witness :
  forallb (str_column_ok Sample.staging_grab) str_columns = true
  /\ has_columns Sample.staging_grab grab_columns = true
  /\ canonicalizes Sample.lib (clean_grab_transactions Sample.lib) Sample.staging_grab.
Proof.
  split; [reflexivity|]. split; [reflexivity|].
  exact (proj1 (canonicalization_total_on_text_columns Sample.lib Sample.staging_grab
                  eq_refl) eq_refl).
Defined.

(** C4 as stated fails: a source table whose [currency_code] column is of a
    numeric dtype (every cell is a number, here 608) has all the columns,
    and its cleaning raises [AttributeError] at the [.str] accessor. *)
Lemma canonicalization_raises_on_numeric_text_column :
  has_columns Sample.staging_grab_numeric_currency grab_columns = true
  /\ clean_grab_transactions Sample.lib Sample.staging_grab_numeric_currency
     = Raise AttributeError
  /\ ~ (forall df, has_columns df grab_columns = true ->
                   exists out, clean_grab_transactions Sample.lib df = Ok out
                               /\ shape out = shape df).
Proof.
  split; [reflexivity|].
  assert (H : clean_grab_transactions Sample.lib Sample.staging_grab_numeric_currency
              = Raise AttributeError) by (vm_compute; reflexivity).
  split; [exact H|].
  intros Hall. destruct (Hall Sample.staging_grab_numeric_currency eq_refl) as (out & Hout & _).
  rewrite H in Hout. discriminate Hout.
Qed.

(** What the cleaning returns on the sample table: the shapes agree, the
    amount ["12,5"] is NaN, both currency codes are ["PHP"] and the
    missing status is still [None]. *)
Example clean_grab_sample :
  exists out,
    clean_grab_transactions Sample.lib Sample.staging_grab = Ok out
    /\ shape out = shape Sample.staging_grab
    /\ (exists s, getitem out "amount" = Ok s /\ cells s !! 1%nat = Some VNaN)
    /\ getitem out "currency_code" = Ok (Sample.object [VStr "PHP"; VStr "PHP"])
    /\ getitem out "status" = Ok (Sample.object [VStr "success"; VNone]).
Proof.
  destruct (clean_grab_transactions Sample.lib Sample.staging_grab) as [out|e] eqn:E;
    vm_compute in E; [|discriminate E].
  injection E as <-. eexists. split; [reflexivity|].
  split; [reflexivity|]. split; [|split; reflexivity].
  eexists. split; reflexivity.
Qed.

End CleanFacts.

(* ===================================================================== *)
(** * Properties of the conversion of the column types                   *)
(* ===================================================================== *)

Module AssembleFacts.
Import Pandas Assemble.

Lemma to_numeric_elem_idem (L : lib) (v : value) :
  to_numeric_elem L (to_numeric_elem L v) = to_numeric_elem L v.
Proof.
  destruct v; cbn; try reflexivity.
  destruct (numeric_of_str L s); reflexivity.
Qed.

Lemma astype_str_elem_idem (L : lib) (v : value) :
  astype_str_elem L (astype_str_elem L v) = astype_str_elem L v.
Proof. destruct v; reflexivity. Qed.

Lemma to_numeric_idem (L : lib) (s : series) :
  to_numeric L (to_numeric L s) = to_numeric L s.
Proof.
  unfold to_numeric. cbn [cells]. f_equal.
  rewrite List.map_map. apply List.map_ext. intros v. apply to_numeric_elem_idem.
Qed.

Lemma astype_str_idem (L : lib) (s : series) :
  astype_str L (astype_str L s) = astype_str L s.
Proof.
  unfold astype_str. cbn [cells]. f_equal.
  rewrite List.map_map. apply List.map_ext. intros v. apply astype_str_elem_idem.
Qed.

(** A column that went through the loop once is left as it is by a second
    turn: a numeric column is numeric, a column of strings is cast to the
    same strings and a column of timestamps is a datetime column in UTC. *)
Lemma convert_column_idem (L : lib) (col : string) (s : series) :
  convert_column L col (convert_column L col s) = convert_column L col s.
Proof.
  unfold convert_column.
  destruct (Py.contains "amount" col); [apply to_numeric_idem|].
  destruct (Py.contains "status" col); [apply astype_str_idem|].
  destruct (Py.contains "currency_code" col); [apply astype_str_idem|].
  destruct (Py.contains "id" col && negb (String.eqb col "grab_account_id"));
    [apply astype_str_idem|].
  destruct (Py.contains "account_id" col); [apply astype_str_idem|].
  destruct (Py.contains "name" col || Py.contains "type" col || Py.contains "method" col);
    [apply astype_str_idem|].
  destruct (Py.contains "datetime" col || Py.contains "created_at" col
            || Py.contains "updated_at" col); [|reflexivity].
  destruct s as [[| |[tz|]] l]; reflexivity.
Qed.

Lemma convert_dataframe_column_types_idem (L : lib) (df : frame) :
  convert_dataframe_column_types L (convert_dataframe_column_types L df)
  = convert_dataframe_column_types L df.
Proof.
  unfold convert_dataframe_column_types. rewrite List.map_map.
  apply List.map_ext. intros [c s]. cbn [fst snd]. f_equal. apply convert_column_idem.
Qed.

(** C7.  The conversion of the column types is idempotent on the four
    partitions: converting the converted frames gives them back. *)
Theorem type_stabilization_idempotent (L : lib) (p : partitions) :
  convert_partitions L (convert_partitions L p) = convert_partitions L p.
Proof.
  unfold convert_partitions.
  cbn [reconciled_transactions grab_only_transactions partner_only_transactions
       discrepant_transactions].
  rewrite !convert_dataframe_column_types_idem. reflexivity.
Qed.

(** A column the function casts to text is cast by [astype(str)]. *)
Lemma convert_text_column (L : lib) (col : string) (s : series) :
  is_text_column col = true -> convert_column L col s = astype_str L s.
Proof.
  unfold is_text_column, convert_column. intros H.
  apply andb_true_iff in H as [Ha H]. apply negb_true_iff in Ha. rewrite Ha.
  destruct (Py.contains "status" col); [reflexivity|].
  destruct (Py.contains "currency_code" col); [reflexivity|].
  destruct (Py.contains "id" col) eqn:Hid.
  - destruct (String.eqb col "grab_account_id") eqn:Heq; [|reflexivity].
    apply String.eqb_eq in Heq. subst col. reflexivity.
  - cbn [andb]. destruct (Py.contains "account_id" col); [reflexivity|].
    cbn [orb] in H. rewrite H. reflexivity.
Qed.

Lemma astype_str_elem_is_str (L : lib) (v : value) :
  is_str (astype_str_elem L v) = true.
Proof. destruct v; reflexivity. Qed.

(** C10 (as amended).  After the conversion every cell of a column that is
    cast to text is a string: the cast leaves no missing value.  A missing
    value becomes the string of its kind: ["nan"] for a float NaN, ["None"]
    for Python's [None] (what a NULL of a text column is in the result of a
    query) and ["NaT"] for a missing timestamp; so two cells that were
    missing are equal afterwards exactly when they were missing in the same
    way. *)
Theorem text_columns_hold_no_null (L : lib) (df : frame) (col : string) (s : series) :
  In (col, s) df ->
  is_text_column col = true ->
  In (col, astype_str L s) (convert_dataframe_column_types L df)
  /\ cells (astype_str L s) = map (astype_str_elem L) (cells s)
  /\ forallb is_str (cells (astype_str L s)) = true
  /\ forallb (fun v => negb (isna v)) (cells (astype_str L s)) = true
  /\ astype_str_elem L VNaN = VStr "nan"
  /\ astype_str_elem L VNone = VStr "None"
  /\ astype_str_elem L VNaT = VStr "NaT"
  /\ forall v w, isna v = true -> isna w = true ->
                  (astype_str_elem L v = astype_str_elem L w <-> v = w).
Proof.
  intros Hin Htext. split.
  - unfold convert_dataframe_column_types. apply in_map_iff.
    exists (col, s). cbn [fst snd]. rewrite (convert_text_column L col s Htext). auto.
  - split; [reflexivity|]. cbn [astype_str cells].
    split; [|split].
    + apply forallb_forall. intros v Hv. apply in_map_iff in Hv as (w & <- & _).
      apply astype_str_elem_is_str.
    + apply forallb_forall. intros v Hv. apply in_map_iff in Hv as (w & <- & _).
      destruct w; reflexivity.
    + repeat split; try (intros ->; reflexivity).
      destruct v, w; cbn in *; try discriminate; try reflexivity;
        intros Heq; discriminate Heq.
Qed.


(** A witness of [text_columns_hold_no_null]: the matched row of a source
    row without status; its [grab_status] is the string ["None"] after the
    conversion. *)
Lemma text_columns_hold_no_null_witness :
  In ("grab_status", Sample.object [VStr "None"])
     (convert_dataframe_column_types Sample.lib
        (reconciled_frame (Reconcile.match_query [Sample.g_T1_no_status] [Sample.p_T1]))).
Proof.
  exact (proj1 (text_columns_hold_no_null Sample.lib
                  (reconciled_frame
                     (Reconcile.match_query [Sample.g_T1_no_status] [Sample.p_T1]))
                  "grab_status" (Sample.object [VNone])
                  (or_intror (or_intror (or_intror (or_intror (or_introl eq_refl)))))
                  eq_refl)).
Defined.

(** C10 as stated fails: the missing status of a matched row is [None] in
    the result of the query, and the cast makes it the string ["None"], not
    ["nan"]. *)
Lemma missing_text_becomes_None_not_nan :
  getitem (convert_dataframe_column_types Sample.lib
             (reconciled_frame
                (Reconcile.match_query [Sample.g_T1_no_status] [Sample.p_T1])))
          "grab_status"
  = Ok (Sample.object [VStr "None"])
  /\ VStr "None" <> VStr "nan"
  /\ ~ (forall (df : frame) (col : string) (s : series) (v : value),
          In (col, s) df -> is_text_column col = true ->
          In v (cells s) -> isna v = true ->
          In (col, astype_str Sample.lib s) (convert_dataframe_column_types Sample.lib df)
          /\ astype_str_elem Sample.lib v = VStr "nan").
Proof.
  split; [vm_compute; reflexivity|]. split; [discriminate|].
  intros H.
  destruct (H [("status", Sample.object [VNone])] "status" (Sample.object [VNone]) VNone
              (or_introl eq_refl) eq_refl (or_introl eq_refl) eq_refl) as [_ Habs].
  discriminate Habs.
Qed.

End AssembleFacts.

(* ===================================================================== *)
(** * Properties of the sinks                                            *)
(* ===================================================================== *)

Module SinkFacts.
Import Sink.

Section Rows.
Context {A : Type}.
Implicit Types (st : store A) (df : list A).

(** The CSV file of a partition is written anew by every export. *)
Lemma export_partition_file st date dir base df :
  stored_file date dir base (export_partition date dir base df st) = Some df.
Proof.
  unfold stored_file, export_partition, save_dataframe_to_csv, load_dataframe_to_postgres.
  cbv zeta. cbn [tables files].
  destruct (negb (empty df)); cbn [files].
  - match goal with |- context [match ?o with Some _ => _ | None => _ end] =>
      destruct o end; cbn [snd files]; apply lookup_insert_eq.
  - apply lookup_insert_eq.
Qed.

Lemma create_existing st name old :
  tables st !! name = Some old -> create_reconciled_table_if_not_exists name st = st.
Proof. intros H. unfold create_reconciled_table_if_not_exists. rewrite H. reflexivity. Qed.

Lemma create_new st name :
  tables st !! name = None ->
  create_reconciled_table_if_not_exists name st
  = {| files := files st; tables := <[name := []]> (tables st) |}.
Proof. intros H. unfold create_reconciled_table_if_not_exists. rewrite H. reflexivity. Qed.

Lemma export_partition_after_create st date dir base df old :
  tables (create_reconciled_table_if_not_exists (table_name base date) st)
    !! table_name base date = Some old ->
  stored_table date base (export_partition date dir base df st) = Some (old ++ df).
Proof.
  unfold stored_table, export_partition. cbv zeta.
  set (st1 := create_reconciled_table_if_not_exists (table_name base date) st).
  intros Hold. unfold save_dataframe_to_csv, load_dataframe_to_postgres.
  cbn [tables files].
  destruct df as [|a df]; cbn [empty negb].
  - cbn [tables]. rewrite Hold. f_equal. symmetry. apply app_nil_r.
  - rewrite Hold. cbn [snd tables]. apply lookup_insert_eq.
Qed.

(** The table of a partition keeps its rows: the rows of the export are
    added after them. *)
Lemma export_partition_table st date base dir df old :
  stored_table date base st = Some old ->
  stored_table date base (export_partition date dir base df st) = Some (old ++ df).
Proof.
  intros Hold. apply export_partition_after_create.
  rewrite (create_existing st _ old Hold). exact Hold.
Qed.

(** The first export of a partition creates its table with its rows. *)
Lemma export_partition_table_new st date base dir df :
  stored_table date base st = None ->
  stored_table date base (export_partition date dir base df st) = Some df.
Proof.
  intros Hnone. change (Some df) with (Some ([] ++ df)).
  apply export_partition_after_create.
  rewrite (create_new st _ Hnone). cbn [tables]. apply lookup_insert_eq.
Qed.

(** The tables of the cleaning step are replaced. *)
Lemma load_dataframe_to_staging_replaces st name df :
  tables (load_dataframe_to_staging df name st) !! name = Some df.
Proof. unfold load_dataframe_to_staging. cbn [tables]. apply lookup_insert_eq. Qed.

(** Exporting a partition twice leaves its rows twice in the table, and
    once in the file. *)
Lemma export_partition_twice st date dir base df :
  stored_table date base st = None ->
  let st2 := export_partition date dir base df (export_partition date dir base df st) in
  stored_table date base st2 = Some (df ++ df)
  /\ stored_file date dir base st2 = Some df.
Proof.
  intros Hnone st2. split; [|apply export_partition_file].
  apply export_partition_table. apply export_partition_table_new. exact Hnone.
Qed.

End Rows.

(** C9 fails on the code for the table of a partition.  Starting from an
    empty store, the partition [grab_only_transactions] with the rows [r1]
    and [r2] is exported twice for the same day: the file holds the two
    rows, the table holds them twice; and a later export of an empty
    partition leaves the four rows in the table.  The tables of the cleaning
    step are replaced. *)
Theorem reconciled_table_is_appended_to :
  let st0 : store string := {| files := ∅; tables := ∅ |} in
  let export := export_partition "20240517" "power_bi_data/20240517" "grab_only_transactions" in
  let st2 := export ["r1"; "r2"] (export ["r1"; "r2"] st0) in
  table_name "grab_only_transactions" "20240517" = "reconciled_grab_20240517"
  /\ stored_file "20240517" "power_bi_data/20240517" "grab_only_transactions" st2
     = Some ["r1"; "r2"]
  /\ stored_table "20240517" "grab_only_transactions" st2
     = Some ["r1"; "r2"; "r1"; "r2"]
  /\ stored_table "20240517" "grab_only_transactions" (export [] st2)
     = Some ["r1"; "r2"; "r1"; "r2"]
  /\ tables (load_dataframe_to_staging ["r1"; "r2"] "cleaned_grab_transactions_20240517"
               (load_dataframe_to_staging ["r1"; "r2"] "cleaned_grab_transactions_20240517" st0))
     !! "cleaned_grab_transactions_20240517" = Some ["r1"; "r2"].
Proof.
  intros st0 export st2.
  split; [reflexivity|].
  assert (Hnone : stored_table "20240517" "grab_only_transactions" st0 = None)
    by apply lookup_empty.
  destruct (export_partition_twice st0 "20240517" "power_bi_data/20240517"
              "grab_only_transactions" ["r1"; "r2"] Hnone) as [Ht Hf].
  split; [exact Hf|]. split; [exact Ht|]. split.
  - unfold export. rewrite (export_partition_table _ _ _ _ _ _ Ht). reflexivity.
  - apply load_dataframe_to_staging_replaces.
Qed.

End SinkFacts.

(* ===================================================================== *)
(** * Further properties of the reconciliation queries                   *)
(* ===================================================================== *)

Module ReconcileMore.
Import Sql SqlFacts Reconcile ReconcileFacts.

(** X1.  The two unmatched partitions are the rows of their table that no
    row of the other table joins, in the order of the table and as often as
    they occur there. *)
Theorem unmatched_partitions_keep_order (gs : list gt.row) (ps : list pt.row) :
  grab_only_query gs ps = List.filter (fun g => negb (existsb (on_gt_pt g) ps)) gs
  /\ partner_only_query gs ps
     = List.filter (fun p => negb (existsb (fun g => on_gt_pt g p) gs)) ps.
Proof. split; [apply grab_only_query_filter | apply partner_only_query_filter]. Qed.

Lemma no_key_no_partner_gt (g : gt.row) (p : pt.row) :
  gt.transaction_id g = None \/ gt.grab_account_id g = None -> ~ shares_key g p.
Proof. intros [H|H] (t & a & H1 & _ & H3 & _); congruence. Qed.

Lemma no_key_no_partner_pt (g : gt.row) (p : pt.row) :
  pt.grab_transaction_id p = None \/ pt.grab_account_id p = None -> ~ shares_key g p.
Proof. intros [H|H] (t & a & _ & H2 & _ & H4); congruence. Qed.



Section JoinCounts.
Context {A B : Type} (on : A -> B -> bool).

Lemma length_inner_join_cons_l (a : A) (l : list A) (r : list B) :
  List.length (inner_join on (a :: l) r)
  = (List.length (List.filter (on a) r) + List.length (inner_join on l r))%nat.
Proof.
  unfold inner_join. cbn [flat_map]. rewrite List.length_app, List.length_map. reflexivity.
Qed.

Lemma length_inner_join_cons_r (l : list A) (b : B) (r : list B) :
  List.length (inner_join on l (b :: r))
  = (List.length (List.filter (fun a => on a b) l) + List.length (inner_join on l r))%nat.
Proof.
  induction l as [|a l IH]; [reflexivity|].
  rewrite !length_inner_join_cons_l, IH. cbn [List.filter].
  destruct (on a b); cbn [List.length]; lia.
Qed.

End JoinCounts.

(** Among rows with distinct keys at most one has a given key. *)
Lemma filter_key_le_1 {X K} `{EqDecision K} (key : X -> K) (k : K) (l : list X) :
  List.NoDup (map key l) ->
  (List.length (List.filter (fun x => bool_decide (key x = k)) l) <= 1)%nat.
Proof.
  induction l as [|x l IH]; intros Hnd; [cbn; lia|].
  cbn [map] in Hnd. apply List.NoDup_cons_iff in Hnd as [Hnotin Hnd].
  cbn [List.filter]. destruct (bool_decide (key x = k)) eqn:Hk; [|apply IH; assumption].
  apply bool_decide_eq_true in Hk. cbn [List.length].
  rewrite filter_none; [cbn; lia|].
  intros y Hy. apply bool_decide_eq_false. intros Heq.
  apply Hnotin. apply in_map_iff. exists y. split; [congruence | assumption].
Qed.

Lemma partners_le_1 (g : gt.row) (ps : list pt.row) :
  List.NoDup (map pt_key ps) ->
  (List.length (List.filter (on_gt_pt g) ps) <= 1)%nat.
Proof.
  intros Hnd.
  destruct (gt.transaction_id g) as [t|] eqn:Ht, (gt.grab_account_id g) as [a|] eqn:Ha.
  - rewrite (List.filter_ext _ _ (fun p => on_gt_pt_key g p t a
                                   ltac:(unfold gt_key; congruence))).
    apply (filter_key_le_1 pt_key). assumption.
  - rewrite filter_none; [cbn; lia|]. intros p _.
    apply not_true_is_false. rewrite on_gt_pt_shares.
    apply no_key_no_partner_gt. auto.
  - rewrite filter_none; [cbn; lia|]. intros p _.
    apply not_true_is_false. rewrite on_gt_pt_shares.
    apply no_key_no_partner_gt. auto.
  - rewrite filter_none; [cbn; lia|]. intros p _.
    apply not_true_is_false. rewrite on_gt_pt_shares.
    apply no_key_no_partner_gt. auto.
Qed.

Lemma sources_le_1 (p : pt.row) (gs : list gt.row) :
  List.NoDup (map gt_key gs) ->
  (List.length (List.filter (fun g => on_gt_pt g p) gs) <= 1)%nat.
Proof.
  intros Hnd.
  destruct (pt.grab_transaction_id p) as [t|] eqn:Ht, (pt.grab_account_id p) as [a|] eqn:Ha.
  - rewrite (List.filter_ext _ (fun g => bool_decide (gt_key g = (Some t, Some a)))).
    + apply (filter_key_le_1 gt_key). assumption.
    + intros g. apply eq_true_iff_eq. rewrite on_gt_pt_shares, bool_decide_eq_true.
      unfold shares_key, gt_key. rewrite Ht, Ha. split.
      * intros (t' & a' & H1 & H2 & H3 & H4). congruence.
      * intros Hk. inversion Hk as [[H1 H2]]. exists t, a. rewrite H1, H2. auto.
  - rewrite filter_none; [cbn; lia|]. intros g _.
    apply not_true_is_false. rewrite on_gt_pt_shares.
    apply no_key_no_partner_pt. auto.
  - rewrite filter_none; [cbn; lia|]. intros g _.
    apply not_true_is_false. rewrite on_gt_pt_shares.
    apply no_key_no_partner_pt. auto.
  - rewrite filter_none; [cbn; lia|]. intros g _.
    apply not_true_is_false. rewrite on_gt_pt_shares.
    apply no_key_no_partner_pt. auto.
Qed.

Lemma length_filter_existsb {X} (f : X -> bool) (l : list X) :
  (List.length (List.filter f l) <= 1)%nat ->
  List.length (List.filter f l) = if existsb f l then 1%nat else 0%nat.
Proof.
  intros Hle. destruct (existsb f l) eqn:He.
  - destruct (List.filter f l) as [|x [|y r]] eqn:Hf; cbn in *; try lia.
    apply filter_nil_existsb in Hf. congruence.
  - apply filter_nil_existsb in He. rewrite He. reflexivity.
Qed.

(** X3.  When no two counterpart rows have the same key, every source row
    is counted once: the number of source rows is the number of matched
    rows plus the number of source-only rows.  When no two source rows have
    the same key, the number of counterpart rows is the number of matched
    rows plus the number of counterpart-only rows. *)
Theorem row_counts_add_up (gs : list gt.row) (ps : list pt.row) :
  (List.NoDup (map pt_key ps) ->
   List.length gs
   = (List.length (match_query gs ps) + List.length (grab_only_query gs ps))%nat)
  /\ (List.NoDup (map gt_key gs) ->
      List.length ps
      = (List.length (match_query gs ps) + List.length (partner_only_query gs ps))%nat).
Proof.
  unfold match_query. rewrite List.length_map. unfold joined. split.
  - intros Hnd. rewrite grab_only_query_filter.
    induction gs as [|g gs IH]; [reflexivity|].
    rewrite length_inner_join_cons_l. cbn [List.filter List.length].
    rewrite (length_filter_existsb _ _ (partners_le_1 g ps Hnd)).
    destruct (existsb (on_gt_pt g) ps); cbn [negb List.length]; lia.
  - intros Hnd. rewrite partner_only_query_filter.
    induction ps as [|p ps IH]; [rewrite inner_join_nil_r; reflexivity|].
    rewrite length_inner_join_cons_r. cbn [List.filter List.length].
    rewrite (length_filter_existsb _ _ (sources_le_1 p gs Hnd)).
    destruct (existsb (fun g => on_gt_pt g p) gs); cbn [negb List.length]; lia.
Qed.

(** A witness of [row_counts_add_up]: two source rows and two counterpart
    rows with distinct keys; one pair is matched. *)
Lemma row_counts_add_up_witness :
  List.length [Sample.g_T1; Sample.g_T2]
  = (List.length (match_query [Sample.g_T1; Sample.g_T2] [Sample.p_T1; Sample.p_T9])
     + List.length (grab_only_query [Sample.g_T1; Sample.g_T2] [Sample.p_T1; Sample.p_T9]))%nat
  /\ List.length [Sample.p_T1; Sample.p_T9]
     = (List.length (match_query [Sample.g_T1; Sample.g_T2] [Sample.p_T1; Sample.p_T9])
        + List.length (partner_only_query [Sample.g_T1; Sample.g_T2]
                                          [Sample.p_T1; Sample.p_T9]))%nat.
Proof.
  destruct (row_counts_add_up [Sample.g_T1; Sample.g_T2] [Sample.p_T1; Sample.p_T9])
    as [Hg Hp].
  split.
  - apply Hg. repeat constructor; cbn; intuition discriminate.
  - apply Hp. repeat constructor; cbn; intuition discriminate.
Defined.


Lemma discrepancy_select_compared (g g' : gt.row) (p p' : pt.row) :
  discrepancy_select (g, p) = discrepancy_select (g', p') ->
  gt.amount g = gt.amount g' /\ pt.amount p = pt.amount p'
  /\ gt.status g = gt.status g' /\ pt.status p = pt.status p'
  /\ gt.currency_code g = gt.currency_code g'
  /\ pt.currency_code p = pt.currency_code p'.
Proof. unfold discrepancy_select. intros H. injection H. intros. auto 10. Qed.

(** X4.  What [discrepancy_query] reports.  The row of a joined pair is
    among the rows the query returns exactly when, for the amount, the
    status or the currency code, both sides have a value and the two values
    differ.  Every row the query returns is the row of a joined pair, and
    two of its cells for the amount, the status or the currency code are
    present and differ. *)
Theorem discrepancy_reports_present_differences (gs : list gt.row) (ps : list pt.row) :
  (forall g p, In g gs -> In p ps -> shares_key g p ->
     (In (discrepancy_select (g, p)) (discrepancy_query gs ps)
      <-> (exists x y, gt.amount g = Some x /\ pt.amount p = Some y /\ x <> y)
          \/ (exists x y, gt.status g = Some x /\ pt.status p = Some y /\ x <> y)
          \/ (exists x y, gt.currency_code g = Some x /\ pt.currency_code p = Some y
                          /\ x <> y)))
  /\ (forall d, In d (discrepancy_query gs ps) ->
      (exists g p, In g gs /\ In p ps /\ shares_key g p
                   /\ d = discrepancy_select (g, p))
      /\ ((exists x y, dt.grab_amount d = Some x /\ dt.partner_amount d = Some y
                       /\ x <> y)
          \/ (exists x y, dt.grab_status d = Some x /\ dt.partner_status d = Some y
                          /\ x <> y)
          \/ (exists x y, dt.grab_currency_code d = Some x
                          /\ dt.partner_currency_code d = Some y /\ x <> y))).
Proof.
  unfold discrepancy_query, discrepant_pairs. split.
  - intros g p Hg Hp Hk. rewrite <- discrepancy_where_iff. split.
    + intros Hin. apply in_map_iff in Hin as ([g' p'] & Heq & Hin).
      apply filter_In in Hin as [_ Hw]. apply discrepancy_where_iff in Hw.
      apply discrepancy_where_iff.
      apply discrepancy_select_compared in Heq as (Ha & Ha' & Hs & Hs' & Hc & Hc').
      rewrite <- Ha, <- Ha', <- Hs, <- Hs', <- Hc, <- Hc'. exact Hw.
    + intros Hw. apply in_map. apply filter_In. split; [|exact Hw].
      apply in_joined. auto.
  - intros d Hin. apply in_map_iff in Hin as ([g p] & <- & Hin).
    apply filter_In in Hin as [Hj Hw]. apply in_joined in Hj as (Hg & Hp & Hk).
    split; [exists g, p; auto|].
    apply discrepancy_where_iff in Hw. exact Hw.
Qed.

(** X5.  Every row of the discrepant partition repeats a row of the matched
    partition: the same link id (on both sides) and account id, and the
    same amounts, currency codes, statuses and timestamps of the two sides.
    So the discrepant partition has at most as many rows as the matched
    one. *)
Theorem discrepant_rows_repeat_matched_rows (gs : list gt.row) (ps : list pt.row) :
  (forall d, In d (discrepancy_query gs ps) ->
     exists m, In m (match_query gs ps)
       /\ dt.transaction_id d = rt.grab_transaction_id m
       /\ dt.transaction_id d = rt.partner_grab_transaction_id m
       /\ dt.grab_account_id d = rt.grab_account_id m
       /\ dt.grab_account_id d = rt.partner_grab_account_id m
       /\ dt.grab_amount d = rt.grab_amount m
       /\ dt.partner_amount d = rt.partner_amount m
       /\ dt.grab_currency_code d = rt.grab_currency_code m
       /\ dt.partner_currency_code d = rt.partner_currency_code m
       /\ dt.grab_status d = rt.grab_status m
       /\ dt.partner_status d = rt.partner_status m
       /\ dt.grab_created_at d = rt.grab_created_at m
       /\ dt.partner_created_at d = rt.partner_created_at m
       /\ dt.grab_updated_at d = rt.grab_updated_at m
       /\ dt.partner_updated_at d = rt.partner_updated_at m
       /\ dt.grab_transaction_datetime d = rt.grab_transaction_datetime m
       /\ dt.partner_transaction_datetime d = rt.partner_transaction_datetime m)
  /\ (List.length (discrepancy_query gs ps) <= List.length (match_query gs ps))%nat.
Proof.
  split.
  - intros d Hd. unfold discrepancy_query in Hd. apply in_map_iff in Hd as ([g p] & <- & Hin).
    apply discrepant_pairs_joined in Hin.
    exists (match_select (g, p)). split; [apply matched_row_of_pair; exact Hin|].
    apply in_joined in Hin as (_ & _ & (t & a & Ht & Ht' & Ha & Ha')).
    cbn. rewrite Ht, Ht', Ha, Ha'. repeat split.
  - unfold discrepancy_query, match_query, discrepant_pairs.
    rewrite !List.length_map. apply List.filter_length_le.
Qed.

(** A witness of [discrepant_rows_repeat_matched_rows]: the pair of [T1]
    with the amounts 100 and 105. *)
Lemma discrepant_rows_repeat_matched_rows_witness :
  exists m, In m (match_query [Sample.g_T1] [Sample.p_T1])
    /\ rt.grab_amount m = Sample.amount 100 /\ rt.partner_amount m = Sample.amount 105.
Proof.
  destruct (proj1 (discrepant_rows_repeat_matched_rows [Sample.g_T1] [Sample.p_T1])
              (discrepancy_select (Sample.g_T1, Sample.p_T1)) (or_introl eq_refl))
    as (m & Hm & H).
  exists m. split; [exact Hm|].
  destruct H as (_ & _ & _ & _ & H1 & H2 & _). split; [rewrite <- H1 | rewrite <- H2]; reflexivity.
Defined.


(** A witness of [discrepancy_reports_present_differences]: the pair of
    [T1], with the amounts 100 and 105, is reported. *)
Lemma discrepancy_reports_present_differences_witness :
  In (discrepancy_select (Sample.g_T1, Sample.p_T1))
     (discrepancy_query [Sample.g_T1; Sample.g_T2] [Sample.p_T1; Sample.p_T9]).
Proof.
  refine (proj2 (proj1 (discrepancy_reports_present_differences
                          [Sample.g_T1; Sample.g_T2] [Sample.p_T1; Sample.p_T9])
                       Sample.g_T1 Sample.p_T1 _ _ _) _).
  - left. reflexivity.
  - left. reflexivity.
  - exists "T1", "A1". repeat split.
  - left. exists (Qc_of_Z 100), (Qc_of_Z 105). repeat split.
    intros H. apply (f_equal this) in H. vm_compute in H. discriminate H.
Defined.

End ReconcileMore.

(* ===================================================================== *)
(** * Properties of the export of the results                            *)
(* ===================================================================== *)

Module ExportFacts.
Import Pandas Assemble Sink ResultExport.

Lemma length_convert_column (L : lib) (col : string) (s : series) :
  List.length (cells (convert_column L col s)) = List.length (cells s).
Proof.
  unfold convert_column.
  repeat match goal with
         | |- context [if ?b then _ else _] => destruct b
         end;
    try (cbn [to_numeric astype_str to_datetime_utc cells]; apply List.length_map);
    try reflexivity.
  destruct (dtype_of s) as [| |[tz|]]; reflexivity.
Qed.

(** X6.  The conversion of the column types keeps the columns, their order
    and the number of rows of each. *)
Theorem convert_keeps_shape (L : lib) (df : frame) :
  shape (convert_dataframe_column_types L df) = shape df.
Proof.
  unfold shape, convert_dataframe_column_types. rewrite List.map_map.
  apply List.map_ext. intros [c s]. cbn [fst snd]. f_equal. apply length_convert_column.
Qed.


Lemma length_rows_of (df : frame) : List.length (rows_of df) = nrows df.
Proof. unfold rows_of. rewrite List.length_map, List.length_seq. reflexivity. Qed.

Lemma nrows_convert (L : lib) (df : frame) :
  nrows (convert_dataframe_column_types L df) = nrows df.
Proof.
  destruct df as [|[c s] df]; [reflexivity|]. cbn [nrows convert_dataframe_column_types map fst snd].
  apply length_convert_column.
Qed.

(** X8.  The export writes one row for each row of a partition: the rows of
    each converted DataFrame are as many as the rows the query returned. *)
Theorem exported_rows_count (L : lib) (r : Reconcile.results) :
  List.length (rows_of (convert_dataframe_column_types L
                          (reconciled_transactions (frames_of r))))
  = List.length (Reconcile.reconciled_transactions r)
  /\ List.length (rows_of (convert_dataframe_column_types L
                             (grab_only_transactions (frames_of r))))
     = List.length (Reconcile.grab_only_transactions r)
  /\ List.length (rows_of (convert_dataframe_column_types L
                             (partner_only_transactions (frames_of r))))
     = List.length (Reconcile.partner_only_transactions r)
  /\ List.length (rows_of (convert_dataframe_column_types L
                             (discrepant_transactions (frames_of r))))
     = List.length (Reconcile.discrepant_transactions r).
Proof.
  rewrite !length_rows_of, !nrows_convert. destruct r as [ms gs ps ds].
  cbn [frames_of reconciled_transactions grab_only_transactions partner_only_transactions
       discrepant_transactions Reconcile.reconciled_transactions
       Reconcile.grab_only_transactions Reconcile.partner_only_transactions
       Reconcile.discrepant_transactions].
  unfold reconciled_frame, grab_only_frame, partner_only_frame, discrepant_frame.
  cbn [nrows snd text_column cells]. rewrite !List.length_map. repeat split.
Qed.


Section Store.
Context {A : Type}.
Implicit Types (st : store A) (df : list A).

Lemma export_tables_other st date dir base df (name : string) :
  name <> table_name base date ->
  tables (export_partition date dir base df st) !! name = tables st !! name.
Proof.
  intros Hne. unfold export_partition. cbv zeta.
  set (st1 := create_reconciled_table_if_not_exists (table_name base date) st).
  assert (H1 : tables st1 !! name = tables st !! name).
  { unfold st1, create_reconciled_table_if_not_exists.
    destruct (tables st !! table_name base date); [reflexivity|].
    cbn [tables]. apply lookup_insert_ne. congruence. }
  unfold save_dataframe_to_csv, load_dataframe_to_postgres. cbn [tables files].
  destruct (negb (empty df)); [|exact H1].
  destruct (tables st1 !! table_name base date); cbn [snd tables]; [|exact H1].
  rewrite lookup_insert_ne by congruence. exact H1.
Qed.

Lemma export_files_other st date dir base df (path : string) :
  path <> csv_path dir (table_name base date) ->
  files (export_partition date dir base df st) !! path = files st !! path.
Proof.
  intros Hne. unfold export_partition. cbv zeta.
  set (st1 := create_reconciled_table_if_not_exists (table_name base date) st).
  assert (H1 : files st1 = files st).
  { unfold st1, create_reconciled_table_if_not_exists.
    destruct (tables st !! table_name base date); reflexivity. }
  unfold save_dataframe_to_csv, load_dataframe_to_postgres. cbn [tables files].
  destruct (negb (empty df)).
  - destruct (tables st1 !! table_name base date); cbn [snd files];
      rewrite lookup_insert_ne by congruence; rewrite H1; reflexivity.
  - cbn [files]. rewrite lookup_insert_ne by congruence. rewrite H1. reflexivity.
Qed.

Lemma export_partition_spec st date dir base df :
  stored_table date base (export_partition date dir base df st)
  = Some (default [] (stored_table date base st) ++ df)
  /\ stored_file date dir base (export_partition date dir base df st) = Some df.
Proof.
  split; [|apply SinkFacts.export_partition_file].
  destruct (stored_table date base st) as [old|] eqn:Hold.
  - apply SinkFacts.export_partition_table. exact Hold.
  - apply SinkFacts.export_partition_table_new. exact Hold.
Qed.

(** X9.  After the export of a partition its table holds the rows it held
    before followed by the exported rows (the exported rows alone when the
    table is new), and its file holds the exported rows alone. *)
Theorem export_appends_to_table_and_replaces_file st date dir base df :
  stored_table date base (export_partition date dir base df st)
  = Some (default [] (stored_table date base st) ++ df)
  /\ stored_file date dir base (export_partition date dir base df st) = Some df.
Proof. apply export_partition_spec. Qed.

End Store.


Lemma append_cancel_l (d a b : string) : d +:+ a = d +:+ b -> a = b.
Proof.
  induction d as [|c d IH]; cbn; intros H; [exact H|].
  injection H as H. apply IH. exact H.
Qed.

Lemma table_names_distinct (date base base' : string) :
  In base partition_names -> In base' partition_names -> base <> base' ->
  table_name base date <> table_name base' date.
Proof.
  unfold partition_names.
  intros [<-|[<-|[<-|[<-|[]]]]] [<-|[<-|[<-|[<-|[]]]]] Hne H;
    try (apply Hne; reflexivity); vm_compute in H; discriminate H.
Qed.

Lemma csv_paths_distinct (dir name name' : string) :
  name <> name' -> csv_path dir name <> csv_path dir name'.
Proof.
  unfold csv_path. intros Hne H. apply append_cancel_l in H.
  cbn in H. injection H as H. apply Hne. clear Hne.
  revert name' H. induction name as [|c n IH]; intros [|c' n'] H; cbn in H;
    try reflexivity.
  - destruct n' as [|? [|? [|? [|? ?]]]]; cbn in H; discriminate H.
  - destruct n as [|? [|? [|? [|? ?]]]]; cbn in H; discriminate H.
  - injection H as -> H. f_equal. apply IH. exact H.
Qed.


Lemma export_partition_other {A : Type} (st : store A)
    (date dir base base' : string) (df : list A) :
  In base partition_names -> In base' partition_names -> base <> base' ->
  stored_table date base' (export_partition date dir base df st)
  = stored_table date base' st
  /\ stored_file date dir base' (export_partition date dir base df st)
     = stored_file date dir base' st.
Proof.
  intros Hb Hb' Hne.
  assert (Hn : table_name base' date <> table_name base date)
    by (apply table_names_distinct; auto).
  split.
  - apply export_tables_other. exact Hn.
  - apply export_files_other. apply csv_paths_distinct. exact Hn.
Qed.

(** X10.  The export of one partition leaves the table and the file of the
    three other partitions as they are. *)
Theorem export_leaves_other_partitions {A : Type} (st : store A)
    (date dir base base' : string) (df : list A) :
  In base partition_names -> In base' partition_names -> base <> base' ->
  stored_table date base' (export_partition date dir base df st)
  = stored_table date base' st
  /\ stored_file date dir base' (export_partition date dir base df st)
     = stored_file date dir base' st.
Proof. apply export_partition_other. Qed.

(** A witness of [export_leaves_other_partitions]: the export of the
    source-only partition after the export of the matched one. *)
Lemma export_leaves_other_partitions_witness :
  stored_table "20240517" "reconciled_transactions"
    (export_partition "20240517" "power_bi_data/20240517" "grab_only_transactions" ["r3"]
       (export_partition "20240517" "power_bi_data/20240517" "reconciled_transactions"
          ["r1"; "r2"] {| files := ∅; tables := ∅ |}))
  = stored_table "20240517" "reconciled_transactions"
      (export_partition "20240517" "power_bi_data/20240517" "reconciled_transactions"
         ["r1"; "r2"] {| files := ∅; tables := ∅ |}).
Proof.
  refine (proj1 (export_leaves_other_partitions
                   (export_partition "20240517" "power_bi_data/20240517"
                      "reconciled_transactions" ["r1"; "r2"] {| files := ∅; tables := ∅ |})
                   "20240517" "power_bi_data/20240517" "grab_only_transactions"
                   "reconciled_transactions" ["r3"] _ _ _)).
  - right; left; reflexivity.
  - left; reflexivity.
  - discriminate.
Defined.

Lemma export_results_cons (L : lib) (date dir : string) bd results
    (st : store (list value)) :
  export_results L date dir (bd :: results) st
  = export_results L date dir results
      (export_partition date dir (fst bd)
         (rows_of (convert_dataframe_column_types L (snd bd))) st).
Proof. reflexivity. Qed.

Lemma export_results_other (L : lib) (date dir : string) results
    (st : store (list value)) (base : string) :
  In base partition_names ->
  (forall bd, In bd results -> In (fst bd) partition_names /\ fst bd <> base) ->
  stored_table date base (export_results L date dir results st) = stored_table date base st
  /\ stored_file date dir base (export_results L date dir results st)
     = stored_file date dir base st.
Proof.
  intros Hb. revert st. induction results as [|bd results IH]; intros st Hall.
  - split; reflexivity.
  - rewrite export_results_cons.
    destruct (IH (export_partition date dir (fst bd)
                    (rows_of (convert_dataframe_column_types L (snd bd))) st))
      as [Ht Hf].
    { intros bd' Hin. apply Hall. right. exact Hin. }
    destruct (Hall bd (or_introl eq_refl)) as [Hin Hne].
    destruct (export_partition_other st date dir (fst bd) base
                (rows_of (convert_dataframe_column_types L (snd bd))) Hin Hb Hne)
      as [Ht' Hf'].
    split; congruence.
Qed.

Lemma export_results_spec (L : lib) (date dir : string) results
    (st : store (list value)) :
  (forall bd, In bd results -> In (fst bd) partition_names) ->
  List.NoDup (map fst results) ->
  forall base df, In (base, df) results ->
    stored_file date dir base (export_results L date dir results st)
    = Some (rows_of (convert_dataframe_column_types L df))
    /\ stored_table date base (export_results L date dir results st)
       = Some (default [] (stored_table date base st)
               ++ rows_of (convert_dataframe_column_types L df)).
Proof.
  revert st. induction results as [|[b d] rest IH]; intros st Hall Hnd base df Hin.
  - destruct Hin.
  - cbn [map fst] in Hnd. apply List.NoDup_cons_iff in Hnd as [Hnotin Hnd].
    rewrite export_results_cons. cbn [fst snd].
    assert (Hb : In b partition_names) by (apply (Hall (b, d)); left; reflexivity).
    destruct Hin as [Heq|Hin].
    + inversion Heq; subst b d. clear Heq.
      destruct (export_results_other L date dir rest
                  (export_partition date dir base
                     (rows_of (convert_dataframe_column_types L df)) st) base Hb)
        as [Ht Hf].
      { intros bd Hin. split; [apply Hall; right; exact Hin|].
        intros Heq. apply Hnotin. apply in_map_iff. exists bd. auto. }
      rewrite Ht, Hf.
      destruct (export_partition_spec st date dir base
                  (rows_of (convert_dataframe_column_types L df))) as [Ht' Hf'].
      split; assumption.
    + assert (Hbase : In base partition_names) by (apply (Hall (base, df)); right; exact Hin).
      assert (Hne : b <> base).
      { intros ->. apply Hnotin. apply in_map_iff. exists (base, df). auto. }
      destruct (IH (export_partition date dir b
                      (rows_of (convert_dataframe_column_types L d)) st)
                   (fun bd H => Hall bd (or_intror H)) Hnd base df Hin) as [Hf Ht].
      split; [exact Hf|]. rewrite Ht.
      rewrite (proj1 (export_partition_other st date dir b base
                        (rows_of (convert_dataframe_column_types L d)) Hb Hbase Hne)).
      reflexivity.
Qed.

(** X11.  A run of the reconciliation with both cleaned tables stores each
    of the four partitions: the file of a partition holds the rows of its
    converted DataFrame and nothing else, and its table holds what it held
    before the run followed by these rows.  When one of the two cleaned
    files could not be read, the run stores nothing. *)
Theorem reconcile_and_export_stores_partitions (L : lib)
    (TARGET_DATE_STR target_date_str : string)
    (gs : list gt.row) (ps : list pt.row) (st : store (list value)) :
  (forall base df,
      In (base, df)
         (partition_list (frames_of (Reconcile.reconciliation_results gs ps))) ->
      let st' := reconcile_and_export_data_for_date L TARGET_DATE_STR target_date_str
                   (Some gs) (Some ps) st in
      stored_file TARGET_DATE_STR (POWER_BI_EXPORT_ROOT +:+ "/" +:+ target_date_str) base st'
      = Some (rows_of (convert_dataframe_column_types L df))
      /\ stored_table TARGET_DATE_STR base st'
         = Some (default [] (stored_table TARGET_DATE_STR base st)
                 ++ rows_of (convert_dataframe_column_types L df)))
  /\ reconcile_and_export_data_for_date L TARGET_DATE_STR target_date_str None (Some ps) st
     = st
  /\ reconcile_and_export_data_for_date L TARGET_DATE_STR target_date_str (Some gs) None st
     = st
  /\ reconcile_and_export_data_for_date L TARGET_DATE_STR target_date_str None None st = st.
Proof.
  split; [|repeat split].
  intros base df Hin st'. subst st'.
  unfold reconcile_and_export_data_for_date.
  apply export_results_spec; [| |exact Hin].
  - intros bd [<-|[<-|[<-|[<-|[]]]]]; unfold partition_names; cbn; tauto.
  - cbn. repeat constructor; cbn; intuition discriminate.
Qed.

(** A witness of [reconcile_and_export_stores_partitions]: a run on two
    source rows and two counterpart rows, from an empty store. *)
Lemma reconcile_and_export_stores_partitions_witness :
  stored_file "20240517" (POWER_BI_EXPORT_ROOT +:+ "/" +:+ "20240517")
    "grab_only_transactions"
    (reconcile_and_export_data_for_date Sample.lib "20240517" "20240517"
       (Some [Sample.g_T1; Sample.g_T2]) (Some [Sample.p_T1; Sample.p_T9])
       {| files := ∅; tables := ∅ |})
  = Some (rows_of (convert_dataframe_column_types Sample.lib
                     (grab_only_frame
                        (Reconcile.grab_only_query [Sample.g_T1; Sample.g_T2]
                                                   [Sample.p_T1; Sample.p_T9])))).
Proof.
  exact (proj1 (proj1 (reconcile_and_export_stores_partitions Sample.lib
                         "20240517" "20240517" [Sample.g_T1; Sample.g_T2]
                         [Sample.p_T1; Sample.p_T9] {| files := ∅; tables := ∅ |})
                      "grab_only_transactions" _
                      (or_intror (or_introl eq_refl)))).
Defined.

End ExportFacts.

(* ===================================================================== *)
(** * Properties of the cleaning job                                     *)
(* ===================================================================== *)

Module CleanJobFacts.
Import Pandas Clean CleanJob.

Lemma seq_inr {A B} (m : job A) (k : A -> job B) (st st' : db) (b : B) :
  seq m k st = (st', inr b) ->
  exists st1 a, m st = (st1, inr a) /\ k a st1 = (st', inr b).
Proof.
  unfold seq. destruct (m st) as [st1 [e|a]]; [discriminate|]. eauto.
Qed.

Lemma seq_inl {A B} (m : job A) (k : A -> job B) (st st' : db) (e : failure) :
  seq m k st = (st', inl e) ->
  m st = (st', inl e) \/ exists st1 a, m st = (st1, inr a) /\ k a st1 = (st', inl e).
Proof.
  unfold seq. destruct (m st) as [st1 [e1|a]]; [left | right; eauto].
  congruence.
Qed.

Lemma read_csv_inr (path : string) (st st' : db) (df : frame) :
  read_csv path st = (st', inr df) -> st' = st /\ Sink.files st !! path = Some df.
Proof.
  unfold read_csv. destruct (Sink.files st !! path); [|discriminate].
  intros H. inversion H. auto.
Qed.

Lemma read_sql_query_inr (cols : list string) (table : string) (st st' : db) (r : frame) :
  read_sql_query cols table st = (st', inr r) ->
  st' = st /\ exists df, Sink.tables st !! table = Some df /\ select df cols = Some r.
Proof.
  unfold read_sql_query. destruct (Sink.tables st !! table) as [df|]; [|discriminate].
  destruct (select df cols) as [r'|] eqn:Hs; [|discriminate].
  intros H. inversion H. subst. eauto.
Qed.

Lemma lift_inr {A} (r : result A) (st st' : db) (a : A) :
  lift r st = (st', inr a) -> st' = st /\ r = Ok a.
Proof. unfold lift. destruct r; [|discriminate]. intros H. inversion H. auto. Qed.


Lemma read_csv_inl (path : string) (st st' : db) (e : failure) :
  read_csv path st = (st', inl e) ->
  st' = st /\ e = FileNotFoundError path /\ Sink.files st !! path = None.
Proof.
  unfold read_csv. destruct (Sink.files st !! path); [discriminate|].
  intros H. inversion H. auto.
Qed.

Lemma read_sql_query_inl (cols : list string) (table : string) (st st' : db) (e : failure) :
  read_sql_query cols table st = (st', inl e) -> st' = st /\ e = SQLAlchemyError.
Proof.
  unfold read_sql_query. destruct (Sink.tables st !! table) as [df|].
  - destruct (select df cols); [discriminate|]. intros H. inversion H. auto.
  - intros H. inversion H. auto.
Qed.

Lemma lift_inl {A} (r : result A) (st st' : db) (e : failure) :
  lift r st = (st', inl e) -> st' = st /\ exists x, r = Raise x /\ e = Raised x.
Proof. unfold lift. destruct r as [a|x]; [discriminate|]. intros H. inversion H. eauto. Qed.

Ltac names_neq :=
  let H := fresh in
  intros H; vm_compute in H;
  first [ discriminate H
        | injection H as H; apply ExportFacts.append_cancel_l in H; discriminate H ].

Ltac simpl_lookups :=
  repeat first
    [ rewrite lookup_insert_eq
    | rewrite lookup_delete_eq
    | rewrite lookup_insert_ne by names_neq
    | rewrite lookup_delete_ne by names_neq ].

Ltac invert_statement H :=
  lazymatch type of H with
  | read_csv _ _ = (_, inr _) => apply read_csv_inr in H as [-> H]
  | read_sql_query _ _ _ = (_, inr _) =>
      let df := fresh "df" in let Ht := fresh "Ht" in let Hs := fresh "Hs" in
      apply read_sql_query_inr in H as [-> (df & Ht & Hs)]
  | lift _ _ = (_, inr _) => apply lift_inr in H as [-> H]
  | drop_table_if_exists _ _ = (_, inr _) =>
      unfold drop_table_if_exists in H; injection H as <-
  | to_sql _ _ _ = (_, inr _) => unfold to_sql in H; injection H as <-
  | save_dataframe_to_csv _ _ _ _ _ = (_, inr _) =>
      unfold save_dataframe_to_csv in H; injection H as <-
  end.

Ltac job_success H :=
  repeat (let st := fresh "st" in let a := fresh "a" in let Hm := fresh "Hm" in
          apply seq_inr in H as (st & a & Hm & H); invert_statement Hm);
  invert_statement H.

Ltac unfold_store :=
  cbn [Sink.tables Sink.files Sink.load_dataframe_to_staging Sink.save_dataframe_to_csv] in *;
  unfold staging_accounts_table, staging_grab_transactions_table,
    staging_partner_transactions_table in *.

Ltac normal_names :=
  cbv [Sink.csv_path CLEANED_DATA_ROOT CLEANED_TABLE_PREFIX GENERATED_DATA_ROOT
       String.append] in *.

(** X12.  When the cleaning job ends without raising, the three staging
    tables are gone, and for each of the accounts, the source transactions
    and the counterpart transactions the cleaned table and the cleaned file
    hold the same DataFrame: the columns of the input file, read back from
    the staging table and cleaned.  The input files are still there. *)
Theorem clean_job_success (L : lib) (d : string) (st st' : db) :
  clean_data_for_date L d st = (st', inr tt) ->
  Sink.tables st' !! staging_accounts_table = None
  /\ Sink.tables st' !! staging_grab_transactions_table = None
  /\ Sink.tables st' !! staging_partner_transactions_table = None
  /\ cleaned_entity (clean_accounts L) accounts_columns "accounts" d st st'
  /\ cleaned_entity (clean_grab_transactions L) grab_columns "grab_transactions" d st st'
  /\ cleaned_entity (clean_partner_transactions L) partner_columns
                    "partner_transactions" d st st'.
Proof.
  intros H. unfold clean_data_for_date in H. job_success H.
  unfold_store.
  repeat match goal with
         | H : _ !! _ = Some _ |- _ => revert H
         end.
  simpl_lookups. intros.
  repeat match goal with
         | H : Some _ = Some _ |- _ => injection H as ->
         end.
  unfold cleaned_entity, cleaned_table, cleaned_file, generated_file in *.
  cbn [Sink.tables Sink.files]. normal_names.
  repeat split; simpl_lookups; try reflexivity.
  all: eexists _, _, _; repeat split; try eassumption; simpl_lookups; try reflexivity;
    try assumption.
Qed.

(** A witness of [clean_job_success]: the job on the three sample files. *)
Lemma clean_job_success_witness :
  exists st', clean_data_for_date Sample.lib "20240517" Fixture.generated_store = (st', inr tt)
    /\ Sink.tables st' !! staging_grab_transactions_table = None
    /\ cleaned_entity (clean_grab_transactions Sample.lib) grab_columns
                      "grab_transactions" "20240517" Fixture.generated_store st'.
Proof.
  destruct (clean_data_for_date Sample.lib "20240517" Fixture.generated_store)
    as [st' r] eqn:E.
  assert (Hr : r = inr tt).
  { change r with (snd (st', r)). rewrite <- E. vm_compute. reflexivity. }
  subst r. exists st'. split; [reflexivity|].
  destruct (clean_job_success Sample.lib "20240517" Fixture.generated_store st' E)
    as (_ & Hs & _ & _ & Hg & _).
  split; assumption.
Defined.


Ltac finish_staging :=
  unfold staging_left_behind; unfold_store;
  eexists _, _, _; repeat split; try eassumption; simpl_lookups; reflexivity.

Ltac failed_statement H Hnf :=
  first
    [ apply read_csv_inl in H as (_ & -> & _); exfalso; eapply Hnf; reflexivity
    | unfold drop_table_if_exists in H; discriminate H
    | unfold to_sql in H; discriminate H
    | unfold save_dataframe_to_csv in H; discriminate H
    | apply read_sql_query_inl in H as [-> ->]; finish_staging
    | apply lift_inl in H as [-> _]; finish_staging ].

(** X13.  When the cleaning job raises anything but a missing input file
    (an exception of the cleaning of a column, or a column missing in a
    staging table), the three staging tables are left in the database, with
    the three input files in them: they are dropped only at the end of a
    run that went through. *)
Theorem clean_job_failure_leaves_staging (L : lib) (d : string) (st st' : db) (e : failure) :
  clean_data_for_date L d st = (st', inl e) ->
  (forall path, e <> FileNotFoundError path) ->
  staging_left_behind d st st'.
Proof.
  intros H Hnf. unfold clean_data_for_date in H.
  repeat (let st1 := fresh "st" in let a := fresh "a" in let Hm := fresh "Hm" in
          apply seq_inl in H as [H | (st1 & a & Hm & H)];
          [ failed_statement H Hnf | invert_statement Hm ]).
  failed_statement H Hnf.
Qed.

(** A witness of [clean_job_failure_leaves_staging]: the source table has
    numbers for currency codes, the job raises [AttributeError] and the
    staging table of the source transactions is still there. *)
Lemma clean_job_failure_leaves_staging_witness :
  exists st',
    clean_data_for_date Sample.lib "20240517" Fixture.generated_store_numeric_currency
    = (st', inl (Raised AttributeError))
    /\ staging_left_behind "20240517" Fixture.generated_store_numeric_currency st'.
Proof.
  destruct (clean_data_for_date Sample.lib "20240517"
              Fixture.generated_store_numeric_currency) as [st' r] eqn:E.
  assert (Hr : r = inl (Raised AttributeError)).
  { change r with (snd (st', r)). rewrite <- E. vm_compute. reflexivity. }
  subst r. exists st'. split; [reflexivity|].
  apply (clean_job_failure_leaves_staging Sample.lib "20240517"
           Fixture.generated_store_numeric_currency st' (Raised AttributeError) E).
  intros path. discriminate.
Defined.

(** X14.  When one of the three input files is missing, the job raises
    [FileNotFoundError] for a missing file and leaves the store as it was:
    no staging table is written and nothing is cleaned. *)
Theorem clean_job_missing_input (L : lib) (d : string) (st : db) :
  Sink.files st !! generated_file "accounts" d = None
  \/ Sink.files st !! generated_file "grab_transactions" d = None
  \/ Sink.files st !! generated_file "partner_transactions" d = None ->
  exists path,
    clean_data_for_date L d st = (st, inl (FileNotFoundError path))
    /\ Sink.files st !! path = None.
Proof.
  intros H. unfold clean_data_for_date, seq at 1 2 3.
  unfold read_csv at 1.
  destruct (Sink.files st !! generated_file "accounts" d) as [a|] eqn:Ha;
    [|eexists; split; [reflexivity | exact Ha]].
  unfold seq at 1 2. unfold read_csv at 1.
  destruct (Sink.files st !! generated_file "grab_transactions" d) as [g|] eqn:Hg;
    [|eexists; split; [reflexivity | exact Hg]].
  unfold seq at 1. unfold read_csv at 1.
  destruct (Sink.files st !! generated_file "partner_transactions" d) as [p|] eqn:Hp;
    [|eexists; split; [reflexivity | exact Hp]].
  destruct H as [H|[H|H]]; discriminate H.
Qed.

(** A witness of [clean_job_missing_input]: the store without the file of
    the counterpart transactions. *)
Lemma clean_job_missing_input_witness :
  exists path,
    clean_data_for_date Sample.lib "20240517" Fixture.generated_store_no_partner
    = (Fixture.generated_store_no_partner, inl (FileNotFoundError path))
    /\ Sink.files Fixture.generated_store_no_partner !! path = None.
Proof.
  apply (clean_job_missing_input Sample.lib "20240517" Fixture.generated_store_no_partner).
  right. right. vm_compute. reflexivity.
Defined.

End CleanJobFacts.

(* ===================================================================== *)
(** * Further properties of the cleaning step                            *)
(* ===================================================================== *)

Module CleanMore.
Import Pandas Clean CleanJob CleanFacts.

Lemma grab_steps_nodup (L : lib) : List.NoDup (map fst (grab_steps L)).
Proof. cbn. repeat constructor; cbn; intuition discriminate. Qed.

Lemma partner_steps_nodup (L : lib) : List.NoDup (map fst (partner_steps L)).
Proof. cbn. repeat constructor; cbn; intuition discriminate. Qed.

Lemma grab_steps_ok (L : lib) (df : frame) :
  forallb (str_column_ok df) str_columns = true ->
  has_columns df grab_columns = true ->
  List.Forall (step_ok df) (grab_steps L).
Proof.
  intros Hstr Hcols. cbn [forallb str_columns] in Hstr.
  repeat (apply andb_true_iff in Hstr as [? Hstr]).
  cbn [forallb has_columns grab_columns] in Hcols.
  repeat (apply andb_true_iff in Hcols as [? Hcols]).
  unfold grab_steps.
  repeat (apply List.Forall_cons; [first
    [ apply step_ok_datetime; assumption | apply step_ok_numeric; assumption
    | apply step_ok_strip_lower; assumption | apply step_ok_strip; assumption
    | apply step_ok_currency; assumption ] |]).
  apply List.Forall_nil.
Qed.

Lemma partner_steps_ok (L : lib) (df : frame) :
  forallb (str_column_ok df) str_columns = true ->
  has_columns df partner_columns = true ->
  List.Forall (step_ok df) (partner_steps L).
Proof.
  intros Hstr Hcols. cbn [forallb str_columns] in Hstr.
  repeat (apply andb_true_iff in Hstr as [? Hstr]).
  cbn [forallb has_columns partner_columns] in Hcols.
  repeat (apply andb_true_iff in Hcols as [? Hcols]).
  unfold partner_steps.
  repeat (apply List.Forall_cons; [first
    [ apply step_ok_datetime; assumption | apply step_ok_numeric; assumption
    | apply step_ok_strip_lower; assumption | apply step_ok_strip; assumption
    | apply step_ok_currency; assumption ] |]).
  apply List.Forall_nil.
Qed.


Lemma update_inv (df df1 : frame) (c : string) (f : series -> result series) :
  update df c f = Ok df1 ->
  exists s s', getitem df c = Ok s /\ f s = Ok s' /\ df1 = setitem df c s'.
Proof.
  unfold update. destruct (getitem df c) as [s|e]; [|discriminate]. cbn [bind].
  destruct (f s) as [s'|e] eqn:Hf; [|discriminate]. cbn [bind].
  intros H. injection H as <-. exists s, s'. auto.
Qed.

(** What a list of statements that ran to the end did: the columns it does
    not name are untouched, and each column it names holds what its
    statement returned for the column of the input. *)
Lemma run_steps_inv (steps : list (string * (series -> result series))) (df out : frame) :
  run_steps steps df = Ok out ->
  (forall col, ~ In col (map fst steps) -> getitem out col = getitem df col)
  /\ (List.NoDup (map fst steps) ->
      forall c f, In (c, f) steps ->
        exists s s', getitem df c = Ok s /\ f s = Ok s' /\ getitem out c = Ok s').
Proof.
  revert df. induction steps as [|[c f] rest IH]; intros df Hrun.
  - unfold run_steps in Hrun. cbn in Hrun. injection Hrun as <-.
    split; [reflexivity|]. intros _ c f [].
  - rewrite run_steps_cons in Hrun. cbn [fst snd] in Hrun.
    destruct (update df c f) as [df1|e] eqn:Hup; [|discriminate]. cbn [bind] in Hrun.
    apply update_inv in Hup as (s & s' & Hget & Hf & ->).
    destruct (IH _ Hrun) as [Hother Hset]. split.
    + intros col Hcol. cbn [map fst] in Hcol.
      rewrite Hother by (intros H; apply Hcol; right; exact H).
      apply getitem_setitem_ne. intros ->. apply Hcol. left. reflexivity.
    + intros Hnd c0 f0 Hin. cbn [map fst] in Hnd.
      apply List.NoDup_cons_iff in Hnd as [Hnotin Hnd].
      destruct Hin as [Heq|Hin].
      * inversion Heq; subst c0 f0. exists s, s'. repeat split; try assumption.
        rewrite Hother by assumption. apply getitem_setitem_eq.
      * destruct (Hset Hnd c0 f0 Hin) as (s0 & s0' & H1 & H2 & H3).
        exists s0, s0'. repeat split; try assumption.
        rewrite <- H1. symmetry. apply getitem_setitem_ne.
        intros ->. apply Hnotin. apply in_map_iff. exists (c0, f0). auto.
Qed.

(** X15.  The cleaning leaves every column it has no statement for as it
    is: the identifiers ([transaction_id], [grab_account_id] and, for the
    counterpart, [partner_transaction_id] and [grab_transaction_id]) are
    neither trimmed nor cast. *)
Theorem cleaning_leaves_other_columns (L : lib) (df out : frame) :
  (clean_grab_transactions L df = Ok out ->
   forall col, ~ In col (map fst (grab_steps L)) -> getitem out col = getitem df col)
  /\ (clean_partner_transactions L df = Ok out ->
      forall col, ~ In col (map fst (partner_steps L)) -> getitem out col = getitem df col).
Proof.
  split; intros Hrun.
  - rewrite clean_grab_transactions_steps in Hrun. apply (run_steps_inv _ _ _ Hrun).
  - rewrite clean_partner_transactions_steps in Hrun. apply (run_steps_inv _ _ _ Hrun).
Qed.

(** A witness of [cleaning_leaves_other_columns]: the identifiers of the
    sample source table after the cleaning. *)
Lemma cleaning_leaves_other_columns_witness :
  exists out,
    clean_grab_transactions Sample.lib Sample.staging_grab = Ok out
    /\ getitem out "transaction_id" = Ok (Sample.object [VStr "T1"; VStr "T2"]).
Proof.
  destruct (clean_grab_transactions Sample.lib Sample.staging_grab) as [out|e] eqn:E.
  - exists out. split; [reflexivity|].
    rewrite (proj1 (cleaning_leaves_other_columns Sample.lib Sample.staging_grab out) E
               "transaction_id"); [reflexivity|].
    cbn. intuition discriminate.
  - exfalso. vm_compute in E. discriminate E.
Defined.

Lemma str_method_inv (f : string -> string) (s s' : series) :
  str_method f s = Ok s' ->
  str_accessor_ok s = true
  /\ s' = {| dtype_of := DObject; cells := map (str_elem f) (cells s) |}.
Proof.
  unfold str_method. destruct (str_accessor_ok s); [|discriminate].
  intros H. injection H as <-. auto.
Qed.

Lemma str_strip_lower_inv (s s' : series) :
  str_strip_lower s = Ok s' ->
  str_accessor_ok s = true
  /\ s' = {| dtype_of := DObject;
             cells := map (str_elem (fun x => Py.lower (Py.strip x))) (cells s) |}.
Proof.
  intros H. assert (Hok : str_accessor_ok s = true).
  { unfold str_strip_lower in H. destruct (str_method Py.strip s) as [s1|e] eqn:E;
      [|discriminate]. apply str_method_inv in E. tauto. }
  split; [exact Hok|]. rewrite (str_strip_lower_ok s Hok) in H. injection H as <-. reflexivity.
Qed.

Lemma clean_currency_code_inv (s s' : series) :
  clean_currency_code s = Ok s' ->
  str_accessor_ok s = true
  /\ s' = {| dtype_of := DObject; cells := map (str_elem spec_currency_code) (cells s) |}.
Proof.
  intros H. assert (Hok : str_accessor_ok s = true).
  { unfold clean_currency_code in H. destruct (str_method Py.strip s) as [s1|e] eqn:E;
      [|discriminate]. apply str_method_inv in E. tauto. }
  split; [exact Hok|]. rewrite (clean_currency_code_ok s Hok) in H. injection H as <-.
  reflexivity.
Qed.


Lemma cleaned_by (L : lib) (df out : frame) :
  clean_grab_transactions L df = Ok out \/ clean_partner_transactions L df = Ok out ->
  forall c f, In (c, f) (grab_steps L) ->
    exists s s', getitem df c = Ok s /\ f s = Ok s' /\ getitem out c = Ok s'.
Proof.
  intros [Hrun|Hrun] c f Hin.
  - rewrite clean_grab_transactions_steps in Hrun.
    apply (proj2 (run_steps_inv _ _ _ Hrun) (grab_steps_nodup L) c f Hin).
  - rewrite clean_partner_transactions_steps in Hrun.
    apply (proj2 (run_steps_inv _ _ _ Hrun) (partner_steps_nodup L) c f).
    cbn in Hin |- *. intuition.
Qed.

Lemma cleaned_by_statement (L : lib) (df out : frame) :
  clean_grab_transactions L df = Ok out \/ clean_partner_transactions L df = Ok out ->
  (forall col, In col ["transaction_type"; "status"; "payment_method"] ->
     exists s, getitem df col = Ok s
       /\ getitem out col
          = Ok {| dtype_of := DObject;
                  cells := map (str_elem (fun x => Py.lower (Py.strip x))) (cells s) |})
  /\ (exists s, getitem df "partner_name" = Ok s
        /\ getitem out "partner_name"
           = Ok {| dtype_of := DObject; cells := map (str_elem Py.strip) (cells s) |})
  /\ (exists s, getitem df "currency_code" = Ok s
        /\ getitem out "currency_code"
           = Ok {| dtype_of := DObject;
                   cells := map (str_elem (fun x => Py.filter_chars Py.is_upper
                                                      (Py.upper (Py.strip x)))) (cells s) |})
  /\ (exists s, getitem df "amount" = Ok s
        /\ getitem out "amount"
           = Ok {| dtype_of := DNumeric; cells := map (to_numeric_elem L) (cells s) |})
  /\ (forall col, In col ["transaction_datetime"; "created_at"; "updated_at"] ->
        exists s, getitem df col = Ok s
          /\ getitem out col = Ok (apply_datetime (parse_datetime L) s)).
Proof.
  intros Hrun. pose proof (cleaned_by L df out Hrun) as Hby.
  split; [|split; [|split; [|split]]].
  - intros col Hcol.
    destruct (Hby col str_strip_lower) as (s & s' & Hget & Hf & Hout).
    { cbn in Hcol |- *. intuition (subst; auto 12). }
    apply str_strip_lower_inv in Hf as [_ ->]. eauto.
  - destruct (Hby "partner_name" str_strip) as (s & s' & Hget & Hf & Hout).
    { cbn. auto 12. }
    apply str_method_inv in Hf as [_ ->]. eauto.
  - destruct (Hby "currency_code" clean_currency_code) as (s & s' & Hget & Hf & Hout).
    { cbn. auto 12. }
    apply clean_currency_code_inv in Hf as [_ ->]. eauto.
  - destruct (Hby "amount" (coerce_numeric L)) as (s & s' & Hget & Hf & Hout).
    { cbn. auto 12. }
    injection Hf as <-. eauto.
  - intros col Hcol.
    destruct (Hby col (apply_parse_datetime L)) as (s & s' & Hget & Hf & Hout).
    { cbn in Hcol |- *. intuition (subst; auto 12). }
    injection Hf as <-. eauto.
Qed.

Lemma str_elem_missing (f : string -> string) (v : value) :
  isna v = true -> str_elem f v = v.
Proof. destruct v; cbn; intros H; reflexivity || discriminate H. Qed.

Lemma str_elem_not_text (f : string -> string) (v : value) :
  isna v = false -> is_str v = false -> str_elem f v = VNaN.
Proof. destruct v; cbn; intros H1 H2; reflexivity || discriminate. Qed.

(** X16.  What the cleaning of the source table, and of the counterpart
    table, makes of each column when it does not raise: the transaction
    type, the status and the payment method are trimmed and put in lower
    case; the partner name is trimmed and keeps its case; the currency code
    is trimmed, put in upper case and reduced to its letters; the amount is
    coerced to a number; the three timestamps are parsed.  In the five text
    columns a missing cell ([None], NaN) is left as it is, and a cell that
    is neither missing nor a string becomes NaN. *)
Theorem cleaned_columns (L : lib) (df out : frame) :
  clean_grab_transactions L df = Ok out \/ clean_partner_transactions L df = Ok out ->
  ((forall col, In col ["transaction_type"; "status"; "payment_method"] ->
     exists s, getitem df col = Ok s
       /\ getitem out col
          = Ok {| dtype_of := DObject;
                  cells := map (str_elem (fun x => Py.lower (Py.strip x))) (cells s) |})
  /\ (exists s, getitem df "partner_name" = Ok s
        /\ getitem out "partner_name"
           = Ok {| dtype_of := DObject; cells := map (str_elem Py.strip) (cells s) |})
  /\ (exists s, getitem df "currency_code" = Ok s
        /\ getitem out "currency_code"
           = Ok {| dtype_of := DObject;
                   cells := map (str_elem (fun x => Py.filter_chars Py.is_upper
                                                      (Py.upper (Py.strip x)))) (cells s) |})
  /\ (exists s, getitem df "amount" = Ok s
        /\ getitem out "amount"
           = Ok {| dtype_of := DNumeric; cells := map (to_numeric_elem L) (cells s) |})
  /\ (forall col, In col ["transaction_datetime"; "created_at"; "updated_at"] ->
        exists s, getitem df col = Ok s
          /\ getitem out col = Ok (apply_datetime (parse_datetime L) s)))
  /\ (forall col,
        In col ["transaction_type"; "status"; "payment_method"; "partner_name";
                "currency_code"] ->
        forall sin sout i v,
          getitem df col = Ok sin -> getitem out col = Ok sout ->
          cells sin !! i = Some v ->
          (isna v = true -> cells sout !! i = Some v)
          /\ (isna v = false -> is_str v = false -> cells sout !! i = Some VNaN)).
Proof.
  intros Hrun. pose proof (cleaned_by_statement L df out Hrun) as Hall.
  split; [exact Hall|].
  destruct Hall as (Htext & (sn & Hn & Hname) & (sc & Hc & Hcode) & _).
  assert (Hmap : forall col, In col ["transaction_type"; "status"; "payment_method";
                                     "partner_name"; "currency_code"] ->
                 exists f s, getitem df col = Ok s
                   /\ getitem out col
                      = Ok {| dtype_of := DObject; cells := map (str_elem f) (cells s) |}).
  { intros col Hcol. cbn in Hcol.
    destruct Hcol as [<-|[<-|[<-|[<-|[<-|[]]]]]]; eauto;
      match goal with
      | |- context [getitem df ?c] =>
          destruct (Htext c) as (s & Hs & Hout); [cbn; auto | eauto]
      end. }
  intros col Hcol sin sout i v Hin Hout Hv.
  destruct (Hmap col Hcol) as (f & s & Hs & Hout').
  rewrite Hin in Hs. injection Hs as <-. rewrite Hout in Hout'. injection Hout' as ->.
  cbn [cells]. rewrite CleanFacts.lookup_map, Hv. split.
  - intros Hna. rewrite (str_elem_missing f v Hna). reflexivity.
  - intros Hna Hstr. rewrite (str_elem_not_text f v Hna Hstr). reflexivity.
Qed.

(** A witness of [cleaned_columns]: the status column of the sample source
    table, with a missing cell that is still [None] after the cleaning. *)
Lemma cleaned_columns_witness :
  exists out,
    clean_grab_transactions Sample.lib Sample.staging_grab = Ok out
    /\ getitem out "status" = Ok (Sample.object [VStr "success"; VNone])
    /\ getitem out "partner_name" = Ok (Sample.object [VStr "Acme"; VStr "Bolt"]).
Proof.
  destruct (clean_grab_transactions Sample.lib Sample.staging_grab) as [out|e] eqn:E.
  - exists out. split; [reflexivity|].
    destruct (cleaned_columns Sample.lib Sample.staging_grab out (or_introl E))
      as ((Htext & (s & Hs & Hname) & _) & _).
    destruct (Htext "status" (or_intror (or_introl eq_refl))) as (s0 & Hs0 & Hstatus).
    cbn in Hs, Hs0. injection Hs as <-. injection Hs0 as <-.
    split; [exact Hstatus | exact Hname].
  - exfalso. vm_compute in E. discriminate E.
Defined.


Lemma clean_accounts_steps (L : lib) (df : frame) :
  clean_accounts L df = run_steps (accounts_steps L) df.
Proof.
  unfold accounts_steps. rewrite !run_steps_cons. unfold clean_accounts. cbn [fst snd].
  repeat (apply bind_ext; intros ?; rewrite ?run_steps_cons; cbn [fst snd]).
  symmetry. apply (bind_Ok_r (update _ _ _)).
Qed.

(** X17.  What the cleaning of the accounts makes of each column when it
    does not raise: the user id is trimmed and keeps its case, the account
    type is put in lower case and is not trimmed, the two timestamps are
    parsed, and every other column (the account id) is left as it is. *)
Theorem cleaned_accounts_columns (L : lib) (df out : frame) :
  clean_accounts L df = Ok out ->
  (exists s, getitem df "user_id" = Ok s
     /\ getitem out "user_id"
        = Ok {| dtype_of := DObject; cells := map (str_elem Py.strip) (cells s) |})
  /\ (exists s, getitem df "account_type" = Ok s
        /\ getitem out "account_type"
           = Ok {| dtype_of := DObject; cells := map (str_elem Py.lower) (cells s) |})
  /\ (forall col, In col ["created_at"; "updated_at"] ->
        exists s, getitem df col = Ok s
          /\ getitem out col = Ok (apply_datetime (parse_datetime L) s))
  /\ (forall col, ~ In col ["created_at"; "updated_at"; "user_id"; "account_type"] ->
        getitem out col = getitem df col).
Proof.
  intros Hrun. rewrite clean_accounts_steps in Hrun.
  destruct (run_steps_inv _ _ _ Hrun) as [Hother Hset].
  assert (Hnd : List.NoDup (map fst (accounts_steps L))).
  { cbn. repeat constructor; cbn; intuition discriminate. }
  specialize (Hset Hnd).
  split; [|split; [|split]].
  - destruct (Hset "user_id" str_strip) as (s & s' & Hget & Hf & Hout); [cbn; auto|].
    apply str_method_inv in Hf as [_ ->]. eauto.
  - destruct (Hset "account_type" (str_method Py.lower)) as (s & s' & Hget & Hf & Hout);
      [cbn; auto|].
    apply str_method_inv in Hf as [_ ->]. eauto.
  - intros col Hcol.
    destruct (Hset col (apply_parse_datetime L)) as (s & s' & Hget & Hf & Hout).
    { cbn in Hcol |- *. intuition (subst; auto). }
    injection Hf as <-. eauto.
  - intros col Hcol. apply Hother. exact Hcol.
Qed.

(** A witness of [cleaned_accounts_columns]: the sample accounts; the user
    id [" u-1 "] is trimmed and the account type ["Premium"] is put in lower
    case. *)
Lemma cleaned_accounts_columns_witness :
  exists out,
    clean_accounts Sample.lib Fixture.accounts = Ok out
    /\ getitem out "user_id" = Ok (Sample.object [VStr "u-1"; VStr "u-2"])
    /\ getitem out "account_type" = Ok (Sample.object [VStr "premium"; VStr "regular"]).
Proof.
  destruct (clean_accounts Sample.lib Fixture.accounts) as [out|e] eqn:E.
  - exists out. split; [reflexivity|].
    destruct (cleaned_accounts_columns Sample.lib Fixture.accounts out E)
      as ((s & Hs & Huser) & (s0 & Hs0 & Htype) & _).
    cbn in Hs, Hs0. injection Hs as <-. injection Hs0 as <-.
    split; [exact Huser | exact Htype].
  - exfalso. vm_compute in E. discriminate E.
Defined.

End CleanMore.

(* ===================================================================== *)
(** * The daily run of the scripts                                       *)
(* ===================================================================== *)

Module AutomationFacts.
Import Automation.

Lemma run_scripts_stopped {script : Type} (run_script : script -> bool)
    (scripts ran : list script) :
  run_scripts run_script scripts false ran = (false, ran).
Proof. destruct scripts; reflexivity. Qed.

Lemma run_scripts_from {script : Type} (run_script : script -> bool)
    (scripts ran : list script) :
  let r := run_scripts run_script scripts true ran in
  fst r = forallb run_script scripts
  /\ (fst r = true -> snd r = ran ++ scripts)
  /\ (fst r = false ->
      exists pre s post,
        scripts = pre ++ s :: post
        /\ snd r = ran ++ pre ++ [s]
        /\ forallb run_script pre = true
        /\ run_script s = false).
Proof.
  revert ran. induction scripts as [|a rest IH]; intros ran; cbn.
  - rewrite app_nil_r. repeat split; auto. discriminate.
  - destruct (run_script a) eqn:Ha.
    + destruct (IH (ran ++ [a])) as (Hflag & Hall & Hstop).
      split; [exact Hflag|]. split.
      * intros H. rewrite (Hall H), <- app_assoc. reflexivity.
      * intros H. destruct (Hstop H) as (pre & s & post & -> & Hran & Hpre & Hs).
        exists (a :: pre), s, post. cbn. rewrite Ha, Hpre, Hran, <- app_assoc.
        auto.
    + rewrite run_scripts_stopped. cbn. split; [reflexivity|]. split; [discriminate|].
      intros _. exists [], a, rest. cbn. auto.
Qed.

(** X18.  One run of the scripts: the scripts are run in the configured
    order; the run succeeds exactly when every script succeeds, and then
    all of them were run; otherwise it stops at the first script that
    fails: the scripts before it and itself were run, none after it. *)
Theorem run_stops_at_first_failure {script : Type} (run_script : script -> bool)
    (scripts : list script) :
  let r := run_scripts run_script scripts true [] in
  fst r = forallb run_script scripts
  /\ (fst r = true -> snd r = scripts)
  /\ (fst r = false ->
      exists pre s post,
        scripts = pre ++ s :: post
        /\ snd r = pre ++ [s]
        /\ forallb run_script pre = true
        /\ run_script s = false).
Proof. exact (run_scripts_from run_script scripts []). Qed.

(** A witness of [run_stops_at_first_failure]: of four scripts the third
    fails; the first three are run and the fourth is not. *)
Lemma run_stops_at_first_failure_witness :
  run_scripts (fun n => negb (n =? 3)%nat) [1; 2; 3; 4]%nat true [] = (false, [1; 2; 3]%nat)
  /\ exists pre s post,
       [1; 2; 3; 4]%nat = pre ++ s :: post
       /\ [1; 2; 3]%nat = pre ++ [s]
       /\ forallb (fun n => negb (n =? 3)%nat) pre = true
       /\ negb (s =? 3)%nat = false.
Proof.
  split; [reflexivity|].
  refine (proj2 (proj2 (run_stops_at_first_failure
                          (fun n => negb (n =? 3)%nat) [1; 2; 3; 4]%nat)) _).
  reflexivity.
Defined.

(** X19.  The time of the next run is built from today's date with the day
    number plus one: on a valid date and run time it is the next day of the
    same month, and on the last day of a month the constructor raises
    [ValueError] instead of giving the first day of the next month. *)
Theorem tomorrow_raises_on_last_day_of_month (year month day hour minute : Z) :
  datetime year month day hour minute = Some (year, month, day, hour, minute) ->
  (day < Strptime.days_in_month year month ->
     tomorrow year month day hour minute
     = Some (year, month, day + 1, hour, minute))%Z
  /\ (day = Strptime.days_in_month year month ->
      tomorrow year month day hour minute = None).
Proof.
  unfold tomorrow, datetime. intros Hnow.
  destruct ((1 <=? year) && (year <=? 9999) && (1 <=? month) && (month <=? 12)
            && (1 <=? day) && (day <=? Strptime.days_in_month year month)
            && (0 <=? hour) && (hour <=? 23) && (0 <=? minute) && (minute <=? 59))%Z
    eqn:Hvalid; [clear Hnow | discriminate Hnow].
  repeat (apply andb_prop in Hvalid as [Hvalid ?]).
  repeat match goal with
         | H : (_ <=? _)%Z = true |- _ => apply Z.leb_le in H
         end.
  split; intros Hday.
  - repeat match goal with
           | |- context [(?a <=? ?b)%Z] =>
               replace (a <=? b)%Z with true by (symmetry; apply Z.leb_le; lia)
           end.
    reflexivity.
  - replace (day + 1 <=? Strptime.days_in_month year month)%Z with false
      by (symmetry; apply Z.leb_gt; lia).
    rewrite !andb_false_r. reflexivity.
Qed.

(** A witness of [tomorrow_raises_on_last_day_of_month]: after the run of
    31 January 2024 at 02:00 the next run time cannot be built. *)
Lemma tomorrow_raises_on_last_day_of_month_witness :
  tomorrow 2024 1 31 2 0 = None.
Proof.
  refine (proj2 (tomorrow_raises_on_last_day_of_month 2024 1 31 2 0 _) _);
    reflexivity.
Defined.

End AutomationFacts.

(* ===================================================================== *)
(** * Cleaning a cleaned text column                                     *)
(* ===================================================================== *)

Module IdempotenceFacts.
Import Py Pandas Clean.

Ltac by_cases_on_char c :=
  destruct c as [b0 b1 b2 b3 b4 b5 b6 b7];
  destruct b0, b1, b2, b3, b4, b5, b6, b7; reflexivity || discriminate.

Lemma lower_char_idem (c : ascii) : lower_char (lower_char c) = lower_char c.
Proof. by_cases_on_char c. Qed.

Lemma is_space_lower_char (c : ascii) : is_space (lower_char c) = is_space c.
Proof. by_cases_on_char c. Qed.

Lemma is_upper_not_space (c : ascii) : is_upper c = true -> is_space c = false.
Proof. by_cases_on_char c. Qed.

Lemma is_upper_upper_char (c : ascii) : is_upper c = true -> upper_char c = c.
Proof. by_cases_on_char c. Qed.

Lemma lstrip_idem (s : string) : lstrip (lstrip s) = lstrip s.
Proof.
  induction s as [|c r IH]; [reflexivity|]. cbn [lstrip].
  destruct (is_space c) eqn:Hc; [exact IH|]. cbn [lstrip]. rewrite Hc. reflexivity.
Qed.

Lemma rstrip_idem (s : string) : rstrip (rstrip s) = rstrip s.
Proof.
  induction s as [|c r IH]; [reflexivity|]. cbn [rstrip].
  destruct (rstrip r) as [|c' r'] eqn:Hr.
  - destruct (is_space c) eqn:Hc; [reflexivity|]. cbn [rstrip]. rewrite Hc. reflexivity.
  - cbn [rstrip]. cbn [rstrip] in IH. rewrite IH. reflexivity.
Qed.

Lemma rstrip_lstrip (s : string) : rstrip (lstrip s) = lstrip (rstrip s).
Proof.
  induction s as [|c r IH]; [reflexivity|]. cbn [lstrip rstrip].
  destruct (is_space c) eqn:Hc.
  - rewrite IH. destruct (rstrip r) as [|c' r'] eqn:Hr; [reflexivity|].
    cbn [lstrip]. rewrite Hc. reflexivity.
  - cbn [rstrip]. destruct (rstrip r) as [|c' r'] eqn:Hr; rewrite ?Hc;
      cbn [lstrip]; rewrite Hc; reflexivity.
Qed.

Lemma strip_idem (s : string) : strip (strip s) = strip s.
Proof.
  unfold strip. rewrite (rstrip_lstrip (rstrip s)), rstrip_idem, lstrip_idem.
  reflexivity.
Qed.

Lemma lower_idem (s : string) : lower (lower s) = lower s.
Proof.
  unfold lower. induction s as [|c r IH]; [reflexivity|]. cbn [map_chars].
  rewrite lower_char_idem, IH. reflexivity.
Qed.

Lemma lstrip_lower (s : string) : lstrip (lower s) = lower (lstrip s).
Proof.
  unfold lower. induction s as [|c r IH]; [reflexivity|]. cbn [map_chars lstrip].
  rewrite is_space_lower_char. destruct (is_space c); [exact IH|reflexivity].
Qed.

Lemma rstrip_lower (s : string) : rstrip (lower s) = lower (rstrip s).
Proof.
  unfold lower. induction s as [|c r IH]; [reflexivity|]. cbn [map_chars rstrip].
  rewrite IH, is_space_lower_char.
  destruct (rstrip r) as [|c' r']; cbn [map_chars]; [|reflexivity].
  destruct (is_space c); reflexivity.
Qed.

Lemma strip_lower (s : string) : strip (lower s) = lower (strip s).
Proof. unfold strip. rewrite rstrip_lower, lstrip_lower. reflexivity. Qed.

Lemma strip_lower_idem (s : string) :
  lower (strip (lower (strip s))) = lower (strip s).
Proof. rewrite strip_lower, lower_idem, strip_idem. reflexivity. Qed.

Lemma lstrip_upper_only (s : string) : all_chars is_upper s = true -> lstrip s = s.
Proof.
  destruct s as [|c r]; [reflexivity|]. cbn [all_chars lstrip].
  intros H. apply andb_prop in H as [Hc _]. rewrite (is_upper_not_space c Hc).
  reflexivity.
Qed.

Lemma rstrip_upper_only (s : string) : all_chars is_upper s = true -> rstrip s = s.
Proof.
  induction s as [|c r IH]; [reflexivity|]. cbn [all_chars rstrip].
  intros H. apply andb_prop in H as [Hc Hr]. rewrite (IH Hr).
  destruct r; [|reflexivity]. rewrite (is_upper_not_space c Hc). reflexivity.
Qed.

Lemma upper_upper_only (s : string) : all_chars is_upper s = true -> upper s = s.
Proof.
  unfold upper. induction s as [|c r IH]; [reflexivity|]. cbn [all_chars map_chars].
  intros H. apply andb_prop in H as [Hc Hr].
  rewrite (is_upper_upper_char c Hc), (IH Hr). reflexivity.
Qed.

Lemma filter_upper_only (s : string) :
  all_chars is_upper s = true -> filter_chars is_upper s = s.
Proof.
  induction s as [|c r IH]; [reflexivity|]. cbn [all_chars filter_chars].
  intros H. apply andb_prop in H as [Hc Hr]. rewrite Hc, (IH Hr). reflexivity.
Qed.

Lemma spec_currency_code_idem (s : string) :
  spec_currency_code (spec_currency_code s) = spec_currency_code s.
Proof.
  assert (H : all_chars is_upper (spec_currency_code s) = true)
    by apply PyFacts.all_chars_filter.
  unfold spec_currency_code at 1. unfold strip.
  rewrite (rstrip_upper_only _ H), (lstrip_upper_only _ H), (upper_upper_only _ H).
  apply filter_upper_only, H.
Qed.

Lemma str_elem_idem (f : string -> string) (l : list value) :
  (forall x, f (f x) = f x) ->
  map (str_elem f) (map (str_elem f) l) = map (str_elem f) l.
Proof.
  intros Hf. rewrite List.map_map. apply List.map_ext.
  intros []; cbn [str_elem]; rewrite ?Hf; reflexivity.
Qed.

(** X20.  Cleaning a text column that is already cleaned changes nothing
    and does not raise: what [.str.strip()], [.str.strip().str.lower()] and
    the cleaning of the currency code return is returned again when the
    same statement is applied to it. *)
Theorem text_cleaning_idempotent (s s' : series) :
  (str_strip s = Ok s' -> str_strip s' = Ok s')
  /\ (str_strip_lower s = Ok s' -> str_strip_lower s' = Ok s')
  /\ (clean_currency_code s = Ok s' -> clean_currency_code s' = Ok s').
Proof.
  split; [|split]; intros H.
  - apply CleanMore.str_method_inv in H as [_ ->].
    rewrite CleanFacts.str_strip_ok by apply CleanFacts.str_accessor_ok_map.
    cbn [cells]. rewrite (str_elem_idem _ _ strip_idem). reflexivity.
  - apply CleanMore.str_strip_lower_inv in H as [_ ->].
    rewrite CleanFacts.str_strip_lower_ok by apply CleanFacts.str_accessor_ok_map.
    cbn [cells]. rewrite (str_elem_idem _ _ strip_lower_idem). reflexivity.
  - apply CleanMore.clean_currency_code_inv in H as [_ ->].
    rewrite CleanFacts.clean_currency_code_ok by apply CleanFacts.str_accessor_ok_map.
    cbn [cells]. rewrite (str_elem_idem _ _ spec_currency_code_idem). reflexivity.
Qed.

(** A witness of [text_cleaning_idempotent]: the currency codes [" php "]
    and ["U$D"] are cleaned to ["PHP"] and ["UD"], and cleaning these again
    gives them back. *)
Lemma text_cleaning_idempotent_witness :
  clean_currency_code (Sample.object [VStr " php "; VStr "U$D"])
  = Ok (Sample.object [VStr "PHP"; VStr "UD"])
  /\ clean_currency_code (Sample.object [VStr "PHP"; VStr "UD"])
     = Ok (Sample.object [VStr "PHP"; VStr "UD"]).
Proof.
  split; [reflexivity|].
  refine (proj2 (proj2 (text_cleaning_idempotent
                          (Sample.object [VStr " php "; VStr "U$D"])
                          (Sample.object [VStr "PHP"; VStr "UD"]))) _).
  reflexivity.
Defined.

End IdempotenceFacts.
